(** * MAVLink telemetry of INAV: rate scheduler, inbound decoder and
      mission-transfer handlers of [src/main/telemetry/mavlink.c]

    The development is a shallow embedding of the stateful part of the
    file: the file-level statics become fields of one record, every C
    function becomes a state transformer with the name it has in the
    source, and what the file takes from other translation units (the
    MAVLink codec, the constants of the navigation headers, the build
    switches) is gathered in the [Platform] class. *)

From Stdlib Require Import ZArith List Bool Lia Strings.Byte.
From Stdlib Require Strings.String.
From stdpp Require Import base numbers list functions.

Local Open Scope Z_scope.

(** ** Inbound messages

    [mavlink_msg_*_decode] turns the payload of [mavRecvMsg] into a typed
    struct; the fields below are the ones the handlers read.  Integer
    fields are the unsigned wire values, [float] fields ([x], [y], [z]) are
    kept as their 32-bit IEEE-754 words. *)

Record mavlink_mission_clear_all_t := {
  clear_target_system : Z                      (* uint8_t *)
}.

Record mavlink_mission_count_t := {
  count_target_system : Z;                     (* uint8_t *)
  count_count : Z                              (* uint16_t *)
}.

Record mavlink_mission_item_t := {
  item_target_system : Z;                      (* uint8_t *)
  item_seq : Z;                                (* uint16_t *)
  item_frame : Z;                              (* uint8_t *)
  item_command : Z;                            (* uint16_t *)
  item_autocontinue : Z;                       (* uint8_t *)
  item_x : Z;                                  (* float *)
  item_y : Z;                                  (* float *)
  item_z : Z                                   (* float *)
}.

Record mavlink_mission_request_list_t := {
  request_list_target_system : Z               (* uint8_t *)
}.

Record mavlink_mission_request_t := {
  request_target_system : Z;                   (* uint8_t *)
  request_seq : Z                              (* uint16_t *)
}.

(** The message id of a received frame together with the payload the
    matching decoder yields; every id the dispatcher has no case for is
    [MAVLINK_MSG_ID_unhandled]. *)
Inductive mavlink_payload :=
| MAVLINK_MSG_ID_HEARTBEAT
| MAVLINK_MSG_ID_MISSION_CLEAR_ALL (msg : mavlink_mission_clear_all_t)
| MAVLINK_MSG_ID_MISSION_COUNT (msg : mavlink_mission_count_t)
| MAVLINK_MSG_ID_MISSION_ITEM (msg : mavlink_mission_item_t)
| MAVLINK_MSG_ID_MISSION_REQUEST_LIST (msg : mavlink_mission_request_list_t)
| MAVLINK_MSG_ID_MISSION_REQUEST (msg : mavlink_mission_request_t)
| MAVLINK_MSG_ID_unhandled (msgid : Z).

Record mavlink_message_t := {
  sysid : Z;                                   (* sender, uint8_t *)
  compid : Z;                                  (* sender, uint8_t *)
  payload : mavlink_payload
}.

Definition uint16_max : Z := 65535.

(** Range of the 16-bit wire fields that end up in the [int] session
    counters. *)
Definition wf_payload (p : mavlink_payload) : Prop :=
  match p with
  | MAVLINK_MSG_ID_MISSION_COUNT msg => 0 <= count_count msg <= uint16_max
  | MAVLINK_MSG_ID_MISSION_ITEM msg => 0 <= item_seq msg <= uint16_max
  | MAVLINK_MSG_ID_MISSION_REQUEST msg => 0 <= request_seq msg <= uint16_max
  | _ => True
  end.

(** ** Outbound messages *)

Inductive MAV_MISSION_RESULT :=
| MAV_MISSION_ACCEPTED
| MAV_MISSION_ERROR
| MAV_MISSION_UNSUPPORTED_FRAME
| MAV_MISSION_UNSUPPORTED
| MAV_MISSION_NO_SPACE
| MAV_MISSION_INVALID
| MAV_MISSION_INVALID_SEQUENCE.

(** The six data streams the scheduler polls. *)
Inductive MAV_DATA_STREAM :=
| MAV_DATA_STREAM_EXTENDED_STATUS
| MAV_DATA_STREAM_RC_CHANNELS
| MAV_DATA_STREAM_POSITION
| MAV_DATA_STREAM_EXTRA1
| MAV_DATA_STREAM_EXTRA2
| MAV_DATA_STREAM_EXTRA3.

#[global] Instance MAV_DATA_STREAM_eq_dec : EqDecision MAV_DATA_STREAM.
Proof. solve_decision. Defined.

(** What [mavlinkSendMessage] writes to the port.  The four mission
    replies carry the arguments of their [_pack] call; the periodic
    messages, whose fields are read from the flight state, are
    represented by the send function that emits them: such an entry
    stands for the messages one call of that function writes. *)
Inductive mavlink_send_t :=
| mavlink_msg_mission_ack_pack
    (system_id component_id target_system target_component : Z)
    (type : MAV_MISSION_RESULT)
| mavlink_msg_mission_request_pack
    (system_id component_id target_system target_component : Z) (seq : Z)
| mavlink_msg_mission_count_pack
    (system_id component_id target_system target_component : Z) (count : Z)
| mavlink_msg_mission_item_pack
    (system_id component_id target_system target_component : Z)
    (seq frame command current autocontinue : Z)
    (param1 param2 param3 param4 x y z : Z)
| mavlinkSendSystemStatus
| mavlinkSendRCChannelsAndRSSI
| mavlinkSendPosition (currentTimeUs : Z)
| mavlinkSendAttitude
| mavlinkSendHUDAndHeartbeat
| mavlinkSendBatteryTemperatureStatusText.

(** ** Waypoints *)

Inductive navWaypointActions_e := NAV_WP_ACTION_WAYPOINT | NAV_WP_ACTION_RTH.

Record navWaypoint_t := {
  action : navWaypointActions_e;
  lat : Z;
  lon : Z;
  alt : Z;
  p1 : Z;
  p2 : Z;
  p3 : Z;
  flag : Z
}.

(** ** What the file takes from the rest of the firmware

    Constants of the MAVLink and navigation headers, the build switch
    around the position stream, the float arithmetic of the coordinate
    conversions, the byte-level frame parser with its state, and the
    navigation subsystem's verdict on a stored list. *)
Class Platform := {
  MAV_COMP_ID_SYSTEM_CONTROL : Z;
  MAV_CMD_NAV_WAYPOINT : Z;
  MAV_CMD_NAV_RETURN_TO_LAUNCH : Z;
  MAV_FRAME_GLOBAL_RELATIVE_ALT : Z;
  MAV_FRAME_MISSION : Z;
  NAV_MAX_WAYPOINTS : Z;
  NAV_WP_FLAG_LAST : Z;
  USE_GPS : bool;
  (* (int32_t)(f * 1e7f), f * 100.0f, i / 1e7f, i / 100.0f *)
  float_mul_1e7 : Z -> Z;
  float_mul_100 : Z -> Z;
  float_div_1e7 : Z -> Z;
  float_div_100 : Z -> Z;
  (* mavlink_parse_char: the new parser state and, when the byte
     completes a frame (MAVLINK_FRAMING_OK), the decoded message *)
  mavlink_status_t : Type;
  mavlink_parse_char :
    byte -> mavlink_status_t -> option mavlink_message_t * mavlink_status_t;
  waypointListValid : list navWaypoint_t -> bool
}.

Definition TELEMETRY_MAVLINK_MAXRATE : Z := 50.
Definition TELEMETRY_MAVLINK_DELAY : Z := (1000 * 1000) / TELEMETRY_MAVLINK_MAXRATE.

Definition uint8_t (z : Z) : Z := z mod 2 ^ 8.
Definition uint32_t (z : Z) : Z := z mod 2 ^ 32.

Section Telemetry.
Context `{P : Platform}.

(** ** Module state: the statics of mavlink.c, the serial port and the
    waypoint list of the navigation subsystem *)
Record mavlink_state := {
  mavlinkPort : bool;                          (* mavlinkPort != NULL *)
  mavlinkTelemetryEnabled : bool;
  serialRx : list byte;                        (* bytes waiting in the port *)
  serialTx : list mavlink_send_t;              (* messages written, oldest first *)
  mavRates : MAV_DATA_STREAM -> Z;             (* uint8_t [] *)
  mavTicks : MAV_DATA_STREAM -> Z;             (* uint8_t [] *)
  lastMavlinkMessage : Z;                      (* timeUs_t *)
  incomingRequestServed : bool;
  mavRecvStatus : mavlink_status_t;
  incomingMissionWpCount : Z;                  (* int *)
  incomingMissionWpSequence : Z;               (* int *)
  waypointList : list navWaypoint_t
}.

Definition set_serialRx (v : list byte) (st : mavlink_state) :=
  {| mavlinkPort := mavlinkPort st;
     mavlinkTelemetryEnabled := mavlinkTelemetryEnabled st;
     serialRx := v; serialTx := serialTx st;
     mavRates := mavRates st; mavTicks := mavTicks st;
     lastMavlinkMessage := lastMavlinkMessage st;
     incomingRequestServed := incomingRequestServed st;
     mavRecvStatus := mavRecvStatus st;
     incomingMissionWpCount := incomingMissionWpCount st;
     incomingMissionWpSequence := incomingMissionWpSequence st;
     waypointList := waypointList st |}.

Definition set_serialTx (v : list mavlink_send_t) (st : mavlink_state) :=
  {| mavlinkPort := mavlinkPort st;
     mavlinkTelemetryEnabled := mavlinkTelemetryEnabled st;
     serialRx := serialRx st; serialTx := v;
     mavRates := mavRates st; mavTicks := mavTicks st;
     lastMavlinkMessage := lastMavlinkMessage st;
     incomingRequestServed := incomingRequestServed st;
     mavRecvStatus := mavRecvStatus st;
     incomingMissionWpCount := incomingMissionWpCount st;
     incomingMissionWpSequence := incomingMissionWpSequence st;
     waypointList := waypointList st |}.

Definition set_mavTicks (v : MAV_DATA_STREAM -> Z) (st : mavlink_state) :=
  {| mavlinkPort := mavlinkPort st;
     mavlinkTelemetryEnabled := mavlinkTelemetryEnabled st;
     serialRx := serialRx st; serialTx := serialTx st;
     mavRates := mavRates st; mavTicks := v;
     lastMavlinkMessage := lastMavlinkMessage st;
     incomingRequestServed := incomingRequestServed st;
     mavRecvStatus := mavRecvStatus st;
     incomingMissionWpCount := incomingMissionWpCount st;
     incomingMissionWpSequence := incomingMissionWpSequence st;
     waypointList := waypointList st |}.

Definition set_lastMavlinkMessage (v : Z) (st : mavlink_state) :=
  {| mavlinkPort := mavlinkPort st;
     mavlinkTelemetryEnabled := mavlinkTelemetryEnabled st;
     serialRx := serialRx st; serialTx := serialTx st;
     mavRates := mavRates st; mavTicks := mavTicks st;
     lastMavlinkMessage := v;
     incomingRequestServed := incomingRequestServed st;
     mavRecvStatus := mavRecvStatus st;
     incomingMissionWpCount := incomingMissionWpCount st;
     incomingMissionWpSequence := incomingMissionWpSequence st;
     waypointList := waypointList st |}.

Definition set_incomingRequestServed (v : bool) (st : mavlink_state) :=
  {| mavlinkPort := mavlinkPort st;
     mavlinkTelemetryEnabled := mavlinkTelemetryEnabled st;
     serialRx := serialRx st; serialTx := serialTx st;
     mavRates := mavRates st; mavTicks := mavTicks st;
     lastMavlinkMessage := lastMavlinkMessage st;
     incomingRequestServed := v;
     mavRecvStatus := mavRecvStatus st;
     incomingMissionWpCount := incomingMissionWpCount st;
     incomingMissionWpSequence := incomingMissionWpSequence st;
     waypointList := waypointList st |}.

Definition set_mavRecvStatus (v : mavlink_status_t) (st : mavlink_state) :=
  {| mavlinkPort := mavlinkPort st;
     mavlinkTelemetryEnabled := mavlinkTelemetryEnabled st;
     serialRx := serialRx st; serialTx := serialTx st;
     mavRates := mavRates st; mavTicks := mavTicks st;
     lastMavlinkMessage := lastMavlinkMessage st;
     incomingRequestServed := incomingRequestServed st;
     mavRecvStatus := v;
     incomingMissionWpCount := incomingMissionWpCount st;
     incomingMissionWpSequence := incomingMissionWpSequence st;
     waypointList := waypointList st |}.

Definition set_incomingMissionWpCount (v : Z) (st : mavlink_state) :=
  {| mavlinkPort := mavlinkPort st;
     mavlinkTelemetryEnabled := mavlinkTelemetryEnabled st;
     serialRx := serialRx st; serialTx := serialTx st;
     mavRates := mavRates st; mavTicks := mavTicks st;
     lastMavlinkMessage := lastMavlinkMessage st;
     incomingRequestServed := incomingRequestServed st;
     mavRecvStatus := mavRecvStatus st;
     incomingMissionWpCount := v;
     incomingMissionWpSequence := incomingMissionWpSequence st;
     waypointList := waypointList st |}.

Definition set_incomingMissionWpSequence (v : Z) (st : mavlink_state) :=
  {| mavlinkPort := mavlinkPort st;
     mavlinkTelemetryEnabled := mavlinkTelemetryEnabled st;
     serialRx := serialRx st; serialTx := serialTx st;
     mavRates := mavRates st; mavTicks := mavTicks st;
     lastMavlinkMessage := lastMavlinkMessage st;
     incomingRequestServed := incomingRequestServed st;
     mavRecvStatus := mavRecvStatus st;
     incomingMissionWpCount := incomingMissionWpCount st;
     incomingMissionWpSequence := v;
     waypointList := waypointList st |}.

Definition set_waypointList (v : list navWaypoint_t) (st : mavlink_state) :=
  {| mavlinkPort := mavlinkPort st;
     mavlinkTelemetryEnabled := mavlinkTelemetryEnabled st;
     serialRx := serialRx st; serialTx := serialTx st;
     mavRates := mavRates st; mavTicks := mavTicks st;
     lastMavlinkMessage := lastMavlinkMessage st;
     incomingRequestServed := incomingRequestServed st;
     mavRecvStatus := mavRecvStatus st;
     incomingMissionWpCount := incomingMissionWpCount st;
     incomingMissionWpSequence := incomingMissionWpSequence st;
     waypointList := v |}.

Definition mavSystemId : Z := 1.
Definition mavComponentId : Z := MAV_COMP_ID_SYSTEM_CONTROL.

(** [mavlinkSendMessage]: serialise [mavSendMsg] and write it to the port. *)
Definition mavlinkSendMessage (mavSendMsg : mavlink_send_t) (st : mavlink_state)
  : mavlink_state :=
  set_serialTx (serialTx st ++ [mavSendMsg]) st.

(** ** Mission store of the navigation subsystem *)

(** Modelled from the spec: the mission is "an ordered sequence of
    waypoints, owned by the navigation subsystem and exposed to this core
    only through get/set/count/validate/reset operations"; navigation.c,
    which implements them, is not among the sources.  Count is the length
    of the stored sequence. *)
Definition getWaypointCount (st : mavlink_state) : Z :=
  Z.of_nat (length (waypointList st)).

(** Modelled from the spec: reset ("clear owned mission list") leaves the
    empty mission list; navigation.c is not among the sources. *)
Definition resetWaypointList (st : mavlink_state) : mavlink_state :=
  set_waypointList [] st.

(** Modelled from the spec: set stores a waypoint under its 1-based
    number, which the callers compute as [seq + 1]; navigation.c is not
    among the sources.  The stored sequence has no gaps and at most
    [NAV_MAX_WAYPOINTS] entries: number 1 starts a new list, the number
    after the current count extends the list, and the written waypoint is
    the last one afterwards ("uploading N items in strict sequence 0..N-1
    results in a stored list of length N"); any other number is ignored. *)
Definition setWaypoint (wpNumber : Z) (wpData : navWaypoint_t)
    (st : mavlink_state) : mavlink_state :=
  if (1 <=? wpNumber) && (wpNumber <=? NAV_MAX_WAYPOINTS)
     && ((wpNumber =? getWaypointCount st + 1) || (wpNumber =? 1))
  then set_waypointList
         (take (Z.to_nat (wpNumber - 1)) (waypointList st) ++ [wpData]) st
  else st.

Definition navWaypoint_zero : navWaypoint_t :=
  {| action := NAV_WP_ACTION_WAYPOINT; lat := 0; lon := 0; alt := 0;
     p1 := 0; p2 := 0; p3 := 0; flag := 0 |}.

(** Modelled from the spec: get reads the waypoint stored under a 1-based
    number; navigation.c is not among the sources.  The only caller asks
    for numbers within the count. *)
Definition getWaypoint (wpNumber : Z) (st : mavlink_state) : navWaypoint_t :=
  if 1 <=? wpNumber
  then default navWaypoint_zero (waypointList st !! Z.to_nat (wpNumber - 1))
  else navWaypoint_zero.

(** Modelled from the spec: validate is the navigation subsystem's verdict
    on the whole stored list ("validate whole list"); navigation.c is not
    among the sources, and the verdict itself is a parameter of the
    platform. *)
Definition isWaypointListValid (st : mavlink_state) : bool :=
  waypointListValid (waypointList st).

(** ** Rate scheduler *)

(** [mavlinkStreamTrigger]; the [int] result is used as a truth value. *)
Definition mavlinkStreamTrigger (streamNum : MAV_DATA_STREAM)
    (st : mavlink_state) : bool * mavlink_state :=
  let rate := uint8_t (mavRates st streamNum) in
  if rate =? 0 then (false, st)
  else if mavTicks st streamNum =? 0 then
    (* we're triggering now, setup the next trigger point *)
    let rate :=
      if rate >? TELEMETRY_MAVLINK_MAXRATE then TELEMETRY_MAVLINK_MAXRATE
      else rate in
    (true,
     set_mavTicks
       (<[streamNum := uint8_t (TELEMETRY_MAVLINK_MAXRATE / rate)]> (mavTicks st))
       st)
  else
    (* count down at TASK_RATE_HZ *)
    (false,
     set_mavTicks
       (<[streamNum := uint8_t (mavTicks st streamNum - 1)]> (mavTicks st)) st).

(** One [if (mavlinkStreamTrigger(s)) send();] statement. *)
Definition triggered_send (streamNum : MAV_DATA_STREAM)
    (mavSendMsg : mavlink_send_t) (st : mavlink_state) : mavlink_state :=
  let (fire, st1) := mavlinkStreamTrigger streamNum st in
  if fire then mavlinkSendMessage mavSendMsg st1 else st1.

(** The call [mavlinkSendPosition(currentTimeUs)]: the function returns
    before it writes anything when there is no GPS sensor;
    [sensors_GPS] is [sensors(SENSOR_GPS)] as the call reads it. *)
Definition mavlinkSendPosition_call (sensors_GPS : bool) (currentTimeUs : Z)
    (st : mavlink_state) : mavlink_state :=
  if negb sensors_GPS then st
  else mavlinkSendMessage (mavlinkSendPosition currentTimeUs) st.

(** [processMAVLinkTelemetry]; the position stream is polled like the
    others, and its trigger counts, whether or not the send function then
    writes. *)
Definition processMAVLinkTelemetry (sensors_GPS : bool) (currentTimeUs : Z)
    (st : mavlink_state) : mavlink_state :=
  (* is executed @ TELEMETRY_MAVLINK_MAXRATE rate *)
  let st := triggered_send MAV_DATA_STREAM_EXTENDED_STATUS
              mavlinkSendSystemStatus st in
  let st := triggered_send MAV_DATA_STREAM_RC_CHANNELS
              mavlinkSendRCChannelsAndRSSI st in
  let st := if USE_GPS
            then
              let (fire, st) :=
                mavlinkStreamTrigger MAV_DATA_STREAM_POSITION st in
              if fire then mavlinkSendPosition_call sensors_GPS currentTimeUs st
              else st
            else st in
  let st := triggered_send MAV_DATA_STREAM_EXTRA1 mavlinkSendAttitude st in
  let st := triggered_send MAV_DATA_STREAM_EXTRA2 mavlinkSendHUDAndHeartbeat st in
  triggered_send MAV_DATA_STREAM_EXTRA3
    mavlinkSendBatteryTemperatureStatusText st.

(** ** Mission-transfer handlers

    Each handler gets the arming flag [ARMING_FLAG(ARMED)] as it is when
    the message is handled and the received frame [mavRecvMsg] (for the
    sender ids) with its decoded payload [msg]; it returns the handled
    flag and the new state. *)

Definition mission_ack (mavRecvMsg : mavlink_message_t)
    (type : MAV_MISSION_RESULT) : mavlink_send_t :=
  mavlink_msg_mission_ack_pack mavSystemId mavComponentId
    (sysid mavRecvMsg) (compid mavRecvMsg) type.

Definition mission_request (mavRecvMsg : mavlink_message_t) (seq : Z)
  : mavlink_send_t :=
  mavlink_msg_mission_request_pack mavSystemId mavComponentId
    (sysid mavRecvMsg) (compid mavRecvMsg) seq.

Definition handleIncoming_MISSION_CLEAR_ALL (mavRecvMsg : mavlink_message_t)
    (msg : mavlink_mission_clear_all_t) (st : mavlink_state)
  : bool * mavlink_state :=
  (* Check if this message is for us *)
  if clear_target_system msg =? mavSystemId then
    let st := resetWaypointList st in
    (true, mavlinkSendMessage (mission_ack mavRecvMsg MAV_MISSION_ACCEPTED) st)
  else (false, st).

Definition handleIncoming_MISSION_COUNT (armed : bool)
    (mavRecvMsg : mavlink_message_t) (msg : mavlink_mission_count_t)
    (st : mavlink_state) : bool * mavlink_state :=
  if count_target_system msg =? mavSystemId then
    if count_count msg <=? NAV_MAX_WAYPOINTS then
      (* We need to know how many items to request *)
      let st := set_incomingMissionWpCount (count_count msg) st in
      let st := set_incomingMissionWpSequence 0 st in
      (true,
       mavlinkSendMessage
         (mission_request mavRecvMsg (incomingMissionWpSequence st)) st)
    else if armed then
      (true, mavlinkSendMessage (mission_ack mavRecvMsg MAV_MISSION_ERROR) st)
    else
      (true, mavlinkSendMessage (mission_ack mavRecvMsg MAV_MISSION_NO_SPACE) st)
  else (false, st).

(** The waypoint built from an item once the sequence counter has been
    advanced in [st]. *)
Definition item_waypoint (msg : mavlink_mission_item_t) (st : mavlink_state)
  : navWaypoint_t :=
  {| action := if item_command msg =? MAV_CMD_NAV_RETURN_TO_LAUNCH
               then NAV_WP_ACTION_RTH else NAV_WP_ACTION_WAYPOINT;
     lat := float_mul_1e7 (item_x msg);
     lon := float_mul_1e7 (item_y msg);
     alt := float_mul_100 (item_z msg);
     p1 := 0;
     p2 := 0;
     p3 := 0;
     flag := if incomingMissionWpSequence st >=? incomingMissionWpCount st
             then NAV_WP_FLAG_LAST else 0 |}.

Definition handleIncoming_MISSION_ITEM (armed : bool)
    (mavRecvMsg : mavlink_message_t) (msg : mavlink_mission_item_t)
    (st : mavlink_state) : bool * mavlink_state :=
  if item_target_system msg =? mavSystemId then
    (* Check supported values first *)
    if armed then
      (true, mavlinkSendMessage (mission_ack mavRecvMsg MAV_MISSION_ERROR) st)
    else if (item_autocontinue msg =? 0)
            || (negb (item_command msg =? MAV_CMD_NAV_WAYPOINT)
                && negb (item_command msg =? MAV_CMD_NAV_RETURN_TO_LAUNCH)) then
      (true,
       mavlinkSendMessage (mission_ack mavRecvMsg MAV_MISSION_UNSUPPORTED) st)
    else if negb (item_frame msg =? MAV_FRAME_GLOBAL_RELATIVE_ALT)
            && negb ((item_frame msg =? MAV_FRAME_MISSION)
                     && (item_command msg =? MAV_CMD_NAV_RETURN_TO_LAUNCH)) then
      (true,
       mavlinkSendMessage
         (mission_ack mavRecvMsg MAV_MISSION_UNSUPPORTED_FRAME) st)
    else if item_seq msg =? incomingMissionWpSequence st then
      let st := set_incomingMissionWpSequence
                  (incomingMissionWpSequence st + 1) st in
      let wp := item_waypoint msg st in
      let st := setWaypoint (incomingMissionWpSequence st) wp st in
      if incomingMissionWpSequence st >=? incomingMissionWpCount st then
        if isWaypointListValid st then
          (true,
           mavlinkSendMessage (mission_ack mavRecvMsg MAV_MISSION_ACCEPTED) st)
        else
          (true,
           mavlinkSendMessage (mission_ack mavRecvMsg MAV_MISSION_INVALID) st)
      else
        (true,
         mavlinkSendMessage
           (mission_request mavRecvMsg (incomingMissionWpSequence st)) st)
    else
      (* Wrong sequence number received *)
      (true,
       mavlinkSendMessage
         (mission_ack mavRecvMsg MAV_MISSION_INVALID_SEQUENCE) st)
  else (false, st).

Definition handleIncoming_MISSION_REQUEST_LIST (mavRecvMsg : mavlink_message_t)
    (msg : mavlink_mission_request_list_t) (st : mavlink_state)
  : bool * mavlink_state :=
  if request_list_target_system msg =? mavSystemId then
    (true,
     mavlinkSendMessage
       (mavlink_msg_mission_count_pack mavSystemId mavComponentId
          (sysid mavRecvMsg) (compid mavRecvMsg) (getWaypointCount st)) st)
  else (false, st).

Definition handleIncoming_MISSION_REQUEST (mavRecvMsg : mavlink_message_t)
    (msg : mavlink_mission_request_t) (st : mavlink_state)
  : bool * mavlink_state :=
  if request_target_system msg =? mavSystemId then
    let wpCount := getWaypointCount st in
    if request_seq msg <? wpCount then
      let wp := getWaypoint (request_seq msg + 1) st in
      let rth := match action wp with
                 | NAV_WP_ACTION_RTH => true
                 | NAV_WP_ACTION_WAYPOINT => false
                 end in
      (true,
       mavlinkSendMessage
         (mavlink_msg_mission_item_pack mavSystemId mavComponentId
            (sysid mavRecvMsg) (compid mavRecvMsg)
            (request_seq msg)
            (if rth then MAV_FRAME_MISSION else MAV_FRAME_GLOBAL_RELATIVE_ALT)
            (if rth then MAV_CMD_NAV_RETURN_TO_LAUNCH else MAV_CMD_NAV_WAYPOINT)
            0
            1
            0 0 0 0
            (float_div_1e7 (lat wp))
            (float_div_1e7 (lon wp))
            (float_div_100 (alt wp))) st)
    else
      (true,
       mavlinkSendMessage
         (mission_ack mavRecvMsg MAV_MISSION_INVALID_SEQUENCE) st)
  else (false, st).

(** ** Inbound frame decoder *)

(** The [switch (mavRecvMsg.msgid)] of the decoder: [Some r] is
    [return r], [None] is the [break] of the heartbeat case. *)
Definition switch_msgid (armed : bool) (mavRecvMsg : mavlink_message_t)
    (st : mavlink_state) : option (bool * mavlink_state) :=
  match payload mavRecvMsg with
  | MAVLINK_MSG_ID_HEARTBEAT => None
  | MAVLINK_MSG_ID_MISSION_CLEAR_ALL msg =>
      Some (handleIncoming_MISSION_CLEAR_ALL mavRecvMsg msg st)
  | MAVLINK_MSG_ID_MISSION_COUNT msg =>
      Some (handleIncoming_MISSION_COUNT armed mavRecvMsg msg st)
  | MAVLINK_MSG_ID_MISSION_ITEM msg =>
      Some (handleIncoming_MISSION_ITEM armed mavRecvMsg msg st)
  | MAVLINK_MSG_ID_MISSION_REQUEST_LIST msg =>
      Some (handleIncoming_MISSION_REQUEST_LIST mavRecvMsg msg st)
  | MAVLINK_MSG_ID_MISSION_REQUEST msg =>
      Some (handleIncoming_MISSION_REQUEST mavRecvMsg msg st)
  | MAVLINK_MSG_ID_unhandled _ => Some (false, st)
  end.

(** The [while (serialRxBytesWaiting(mavlinkPort) > 0)] loop of
    [processMAVLinkIncomingTelemetry], by recursion on the bytes waiting in
    the port.  The [break] of the heartbeat case leaves the [switch], not
    the loop, so the loop goes on with the next byte. *)
Fixpoint processMAVLinkIncomingTelemetry_loop (armed : bool)
    (waiting : list byte) (st : mavlink_state) : bool * mavlink_state :=
  match waiting with
  | [] => (false, st)
  | c :: waiting =>
      (* Limit handling to one message per cycle *)
      let st := set_serialRx waiting st in
      let (result, status) := mavlink_parse_char c (mavRecvStatus st) in
      let st := set_mavRecvStatus status st in
      match result with
      | Some mavRecvMsg =>
          match switch_msgid armed mavRecvMsg st with
          | Some r => r
          | None => processMAVLinkIncomingTelemetry_loop armed waiting st
          end
      | None => processMAVLinkIncomingTelemetry_loop armed waiting st
      end
  end.

Definition processMAVLinkIncomingTelemetry (armed : bool) (st : mavlink_state)
  : bool * mavlink_state :=
  processMAVLinkIncomingTelemetry_loop armed (serialRx st) st.

(** ** Telemetry orchestrator *)

(** [handleMAVLinkTelemetry]; [armed] and [sensors_GPS] are
    [ARMING_FLAG(ARMED)] and [sensors(SENSOR_GPS)] as the functions called
    in this cycle read them. *)
Definition handleMAVLinkTelemetry (armed sensors_GPS : bool)
    (currentTimeUs : Z) (st : mavlink_state) : mavlink_state :=
  if negb (mavlinkTelemetryEnabled st) then st
  else if negb (mavlinkPort st) then st
  else
    (* If we did serve data on incoming request - skip next scheduled
       messages batch to avoid link clogging *)
    let (served, st) := processMAVLinkIncomingTelemetry armed st in
    let st := if served then set_incomingRequestServed true st else st in
    if uint32_t (currentTimeUs - lastMavlinkMessage st)
       >=? TELEMETRY_MAVLINK_DELAY then
      (* Only process scheduled data if we didn't serve any incoming
         request this cycle *)
      let st := if negb (incomingRequestServed st)
                then processMAVLinkTelemetry sensors_GPS currentTimeUs st
                else st in
      let st := set_lastMavlinkMessage currentTimeUs st in
      set_incomingRequestServed false st
    else st.

(** ** Runs of the handlers *)

(** A sequence of complete frames, each with the arming flag at the time
    it is dispatched; a heartbeat changes nothing. *)
Definition handle_frame (armed : bool) (mavRecvMsg : mavlink_message_t)
    (st : mavlink_state) : mavlink_state :=
  match switch_msgid armed mavRecvMsg st with
  | Some r => r.2
  | None => st
  end.

Definition handle_frames (frames : list (bool * mavlink_message_t))
    (st : mavlink_state) : mavlink_state :=
  fold_left (fun st f => handle_frame f.1 f.2 st) frames st.

(** The item uploads of one transfer, all received disarmed. *)
Definition upload_items
    (items : list (mavlink_message_t * mavlink_mission_item_t))
    (st : mavlink_state) : mavlink_state :=
  fold_left
    (fun st i => (handleIncoming_MISSION_ITEM false i.1 i.2 st).2) items st.

(** Polling one stream's trigger once per tick for [n] ticks: the number
    of ticks on which it fired, and the state reached. *)
Fixpoint trigger_count (streamNum : MAV_DATA_STREAM) (n : nat)
    (st : mavlink_state) : Z * mavlink_state :=
  match n with
  | O => (0, st)
  | S n =>
      let (fire, st) := mavlinkStreamTrigger streamNum st in
      let (k, st) := trigger_count streamNum n st in
      ((if fire then 1 else 0) + k, st)
  end.

(** ** Vocabulary of the statements *)

(** The support check of an item upload: [autocontinue] set and a
    WAYPOINT or RETURN_TO_LAUNCH command. *)
Definition item_supported (msg : mavlink_mission_item_t) : Prop :=
  item_autocontinue msg <> 0
  /\ (item_command msg = MAV_CMD_NAV_WAYPOINT
      \/ item_command msg = MAV_CMD_NAV_RETURN_TO_LAUNCH).

(** The frame check as the handler makes it: the global relative-altitude
    frame passes with either command, the mission frame passes with
    RETURN_TO_LAUNCH. *)
Definition item_frame_accepted (msg : mavlink_mission_item_t) : Prop :=
  item_frame msg = MAV_FRAME_GLOBAL_RELATIVE_ALT
  \/ (item_frame msg = MAV_FRAME_MISSION
      /\ item_command msg = MAV_CMD_NAV_RETURN_TO_LAUNCH).

(** The frame rule as the specification words it: a WAYPOINT command
    requires the global relative-altitude frame and a RETURN_TO_LAUNCH
    command requires the mission frame. *)
Definition item_frame_valid_spec (msg : mavlink_mission_item_t) : Prop :=
  (item_command msg = MAV_CMD_NAV_WAYPOINT ->
   item_frame msg = MAV_FRAME_GLOBAL_RELATIVE_ALT)
  /\ (item_command msg = MAV_CMD_NAV_RETURN_TO_LAUNCH ->
      item_frame msg = MAV_FRAME_MISSION).

(** An item upload addressed to this system that passes the support and
    frame checks. *)
Definition item_valid (msg : mavlink_mission_item_t) : Prop :=
  item_target_system msg = mavSystemId
  /\ item_supported msg /\ item_frame_accepted msg.

(** The state an accepted item leaves: the sequence counter advanced, the
    waypoint handed to [setWaypoint] under the new counter value, and one
    reply, which is the final ack once the counter has reached the
    announced count and the request for the next item before that. *)
Definition item_accepted (mavRecvMsg : mavlink_message_t)
    (msg : mavlink_mission_item_t) (st : mavlink_state) : mavlink_state :=
  let st1 := set_incomingMissionWpSequence (incomingMissionWpSequence st + 1) st in
  let st2 := setWaypoint (incomingMissionWpSequence st1) (item_waypoint msg st1) st1 in
  mavlinkSendMessage
    (if incomingMissionWpSequence st + 1 >=? incomingMissionWpCount st
     then mavlink_msg_mission_ack_pack mavSystemId mavComponentId
            (sysid mavRecvMsg) (compid mavRecvMsg)
            (if isWaypointListValid st2 then MAV_MISSION_ACCEPTED
             else MAV_MISSION_INVALID)
     else mavlink_msg_mission_request_pack mavSystemId mavComponentId
            (sysid mavRecvMsg) (compid mavRecvMsg)
            (incomingMissionWpSequence st + 1))
    st2.

(** The code's own completion test of an upload (the guard of the final
    ack): every announced item has been received. *)
Definition session_complete (st : mavlink_state) : Prop :=
  incomingMissionWpSequence st >= incomingMissionWpCount st.

(** A transfer session is in progress while announced items are still
    outstanding. *)
Definition session_in_progress (st : mavlink_state) : Prop :=
  incomingMissionWpSequence st < incomingMissionWpCount st.

(** The ordering the specification states for the counters of a session:
    0 <= wpSequence <= wpCount <= NAV_MAX_WAYPOINTS. *)
Definition session_counters_ordered (st : mavlink_state) : Prop :=
  0 <= incomingMissionWpSequence st
  /\ incomingMissionWpSequence st <= incomingMissionWpCount st
  /\ incomingMissionWpCount st <= NAV_MAX_WAYPOINTS.

(** The codec run over a byte string: the frames it completes, in order,
    and the parser state it ends in. *)
Fixpoint parse_chars (bytes : list byte) (status : mavlink_status_t)
  : list mavlink_message_t * mavlink_status_t :=
  match bytes with
  | [] => ([], status)
  | c :: bytes =>
      let (result, status) := mavlink_parse_char c status in
      let (frames, status) := parse_chars bytes status in
      (match result with Some m => m :: frames | None => frames end, status)
  end.

Definition is_heartbeat (m : mavlink_message_t) : Prop :=
  payload m = MAVLINK_MSG_ID_HEARTBEAT.

(** The specification's reading of a configured rate [r]: over a long
    run the stream fires [r] times per second, give or take one; a second
    is [TELEMETRY_MAVLINK_MAXRATE] ticks. *)
Definition converges_to_rate (streamNum : MAV_DATA_STREAM) (r : Z)
    (st : mavlink_state) : Prop :=
  exists K : nat, forall k : nat, (K <= k)%nat ->
    (r - 1) * Z.of_nat k
    <= (trigger_count streamNum (Z.to_nat TELEMETRY_MAVLINK_MAXRATE * k) st).1
    <= (r + 1) * Z.of_nat k.

(** The reply expected for item [i] of an upload of [count] items: the
    request for the next sequence number, or for the final item the ack
    that carries the verdict [valid] on the assembled list; either is sent
    under this system's ids to the system and component the item came
    from. *)
Definition upload_reply (count : Z) (valid : bool)
    (i : mavlink_message_t * mavlink_mission_item_t) : mavlink_send_t :=
  if item_seq i.2 + 1 >=? count
  then mavlink_msg_mission_ack_pack mavSystemId mavComponentId
         (sysid i.1) (compid i.1)
         (if valid then MAV_MISSION_ACCEPTED else MAV_MISSION_INVALID)
  else mavlink_msg_mission_request_pack mavSystemId mavComponentId
         (sysid i.1) (compid i.1) (item_seq i.2 + 1).

End Telemetry.

(** ** A test platform

    One concrete choice for everything the file takes from outside, used
    to run the definitions on examples.  The constants are those of the
    MAVLink common dialect and of the navigation header; the coordinate
    conversions work on whole degrees and metres.  The stand-in codec
    frames two bytes at a time: a message-id byte followed by a
    target-system byte. *)
Module TestPlatform.

Definition frame_of (msgid target : byte) : mavlink_message_t :=
  let target := Z.of_N (Byte.to_N target) in
  {| sysid := 255; compid := 190;
     payload :=
       match Byte.to_N msgid with
       | 0%N => MAVLINK_MSG_ID_HEARTBEAT
       | 45%N => MAVLINK_MSG_ID_MISSION_CLEAR_ALL
                   {| clear_target_system := target |}
       | 43%N => MAVLINK_MSG_ID_MISSION_REQUEST_LIST
                   {| request_list_target_system := target |}
       | n => MAVLINK_MSG_ID_unhandled (Z.of_N n)
       end |}.

Definition parse_char (c : byte) (status : option byte)
  : option mavlink_message_t * option byte :=
  match status with
  | None => (None, Some c)
  | Some msgid => (Some (frame_of msgid c), None)
  end.

#[export] Instance platform : Platform := {|
  MAV_COMP_ID_SYSTEM_CONTROL := 250;
  MAV_CMD_NAV_WAYPOINT := 16;
  MAV_CMD_NAV_RETURN_TO_LAUNCH := 20;
  MAV_FRAME_GLOBAL_RELATIVE_ALT := 3;
  MAV_FRAME_MISSION := 2;
  NAV_MAX_WAYPOINTS := 60;
  NAV_WP_FLAG_LAST := 165;
  USE_GPS := true;
  float_mul_1e7 := fun f => f * 10000000;
  float_mul_100 := fun f => f * 100;
  float_div_1e7 := fun i => i / 10000000;
  float_div_100 := fun i => i / 100;
  mavlink_status_t := option byte;
  mavlink_parse_char := parse_char;
  waypointListValid := fun l =>
    match list.last l with
    | Some wp => flag wp =? 165
    | None => false
    end
|}.

(** The rates of the initialiser of [mavRates]. *)
Definition default_rates (s : MAV_DATA_STREAM) : Z :=
  match s with
  | MAV_DATA_STREAM_EXTENDED_STATUS => 2
  | MAV_DATA_STREAM_RC_CHANNELS => 5
  | MAV_DATA_STREAM_POSITION => 2
  | MAV_DATA_STREAM_EXTRA1 => 10
  | MAV_DATA_STREAM_EXTRA2 => 2
  | MAV_DATA_STREAM_EXTRA3 => 1
  end.

(** The state after start-up with the given stream rates: statics
    zero-initialised, port open, nothing received or sent. *)
Definition boot_with (rates : MAV_DATA_STREAM -> Z) : mavlink_state := {|
  mavlinkPort := true;
  mavlinkTelemetryEnabled := true;
  serialRx := [];
  serialTx := [];
  mavRates := rates;
  mavTicks := fun _ => 0;
  lastMavlinkMessage := 0;
  incomingRequestServed := false;
  mavRecvStatus := None;
  incomingMissionWpCount := 0;
  incomingMissionWpSequence := 0;
  waypointList := []
|}.

Definition boot : mavlink_state := boot_with default_rates.

Definition gcs (p : mavlink_payload) : mavlink_message_t :=
  {| sysid := 255; compid := 190; payload := p |}.

Definition waypoint_item (seq : Z) : mavlink_mission_item_t :=
  {| item_target_system := 1; item_seq := seq; item_frame := 3;
     item_command := 16; item_autocontinue := 1;
     item_x := 48; item_y := 11; item_z := 50 |}.

Definition rtl_item (seq frame : Z) : mavlink_mission_item_t :=
  {| item_target_system := 1; item_seq := seq; item_frame := frame;
     item_command := 20; item_autocontinue := 1;
     item_x := 0; item_y := 0; item_z := 0 |}.

Definition count_of (n : Z) : mavlink_mission_count_t :=
  {| count_target_system := 1; count_count := n |}.

Definition clear_all : mavlink_mission_clear_all_t :=
  {| clear_target_system := 1 |}.

Definition three_items : list (mavlink_message_t * mavlink_mission_item_t) :=
  [(gcs (MAVLINK_MSG_ID_MISSION_ITEM (waypoint_item 0)), waypoint_item 0);
   (gcs (MAVLINK_MSG_ID_MISSION_ITEM (waypoint_item 1)), waypoint_item 1);
   (gcs (MAVLINK_MSG_ID_MISSION_ITEM (rtl_item 2 2)), rtl_item 2 2)].

(** The session after [Count(3)] and the first item: awaiting item 1. *)
Definition awaiting_1 : mavlink_state :=
  handle_frames
    [(false, gcs (MAVLINK_MSG_ID_MISSION_COUNT (count_of 3)));
     (false, gcs (MAVLINK_MSG_ID_MISSION_ITEM (waypoint_item 0)))] boot.

(** A stored list of one waypoint, uploaded without announcement. *)
Definition one_waypoint : mavlink_state :=
  handle_frames
    [(false, gcs (MAVLINK_MSG_ID_MISSION_ITEM (waypoint_item 0)))] boot.

End TestPlatform.

(** * Further readings and runs of the embedded functions *)

Section Runs.
Context `{P : Platform}.

(** The [target_system] field of a decoded mission message; a heartbeat
    and the messages without a handler have none the dispatch looks at. *)
Definition msg_target_system (p : mavlink_payload) : option Z :=
  match p with
  | MAVLINK_MSG_ID_HEARTBEAT => None
  | MAVLINK_MSG_ID_MISSION_CLEAR_ALL msg => Some (clear_target_system msg)
  | MAVLINK_MSG_ID_MISSION_COUNT msg => Some (count_target_system msg)
  | MAVLINK_MSG_ID_MISSION_ITEM msg => Some (item_target_system msg)
  | MAVLINK_MSG_ID_MISSION_REQUEST_LIST msg =>
      Some (request_list_target_system msg)
  | MAVLINK_MSG_ID_MISSION_REQUEST msg => Some (request_target_system msg)
  | MAVLINK_MSG_ID_unhandled _ => None
  end.

(** [n] successive calls of [processMAVLinkIncomingTelemetry], as the
    orchestrator makes them cycle after cycle, no new byte arriving in
    between and the arming flag staying as it is. *)
Fixpoint decoder_calls (armed : bool) (n : nat) (st : mavlink_state)
  : mavlink_state :=
  match n with
  | O => st
  | S n => decoder_calls armed n (processMAVLinkIncomingTelemetry armed st).2
  end.

(** Whether poll number [k], counted from 0, of a stream polled once per
    tick fires. *)
Definition poll_fires (streamNum : MAV_DATA_STREAM) (k : nat)
    (st : mavlink_state) : bool :=
  (mavlinkStreamTrigger streamNum (trigger_count streamNum k st).2).1.

(** The item a ground station uploads when it sends back a mission item
    it was served: same sequence number, frame, command, autocontinue and
    coordinates, addressed to the system that served it. *)
Definition item_of_reply (reply : mavlink_send_t)
  : option mavlink_mission_item_t :=
  match reply with
  | mavlink_msg_mission_item_pack system_id _ _ _ seq frame command _
      autocontinue _ _ _ _ x y z =>
      Some {| item_target_system := system_id; item_seq := seq;
              item_frame := frame; item_command := command;
              item_autocontinue := autocontinue;
              item_x := x; item_y := y; item_z := z |}
  | _ => None
  end.

(** The streams [processMAVLinkTelemetry] polls, in the order it polls
    them; the position stream is compiled in with [USE_GPS] only. *)
Definition batch_streams : list MAV_DATA_STREAM :=
  [MAV_DATA_STREAM_EXTENDED_STATUS; MAV_DATA_STREAM_RC_CHANNELS]
  ++ (if USE_GPS then [MAV_DATA_STREAM_POSITION] else [])
  ++ [MAV_DATA_STREAM_EXTRA1; MAV_DATA_STREAM_EXTRA2; MAV_DATA_STREAM_EXTRA3].

(** The send function [processMAVLinkTelemetry] calls for a stream. *)
Definition stream_send (currentTimeUs : Z) (streamNum : MAV_DATA_STREAM)
  : mavlink_send_t :=
  match streamNum with
  | MAV_DATA_STREAM_EXTENDED_STATUS => mavlinkSendSystemStatus
  | MAV_DATA_STREAM_RC_CHANNELS => mavlinkSendRCChannelsAndRSSI
  | MAV_DATA_STREAM_POSITION => mavlinkSendPosition currentTimeUs
  | MAV_DATA_STREAM_EXTRA1 => mavlinkSendAttitude
  | MAV_DATA_STREAM_EXTRA2 => mavlinkSendHUDAndHeartbeat
  | MAV_DATA_STREAM_EXTRA3 => mavlinkSendBatteryTemperatureStatusText
  end.

(** Whether the send function of a stream writes when it is called: all
    do, except that of the position stream without a GPS sensor. *)
Definition stream_writes (sensors_GPS : bool) (streamNum : MAV_DATA_STREAM)
  : bool :=
  match streamNum with
  | MAV_DATA_STREAM_POSITION => sensors_GPS
  | _ => true
  end.

(** One [if (mavlinkStreamTrigger(s)) send();] statement, for any
    stream. *)
Definition poll_stream (sensors_GPS : bool) (currentTimeUs : Z)
    (streamNum : MAV_DATA_STREAM) (st : mavlink_state) : mavlink_state :=
  let (fire, st) := mavlinkStreamTrigger streamNum st in
  if fire && stream_writes sensors_GPS streamNum
  then mavlinkSendMessage (stream_send currentTimeUs streamNum) st
  else st.

(** Polling a list of streams one after the other, as the statements of
    [processMAVLinkTelemetry] do. *)
Definition poll_streams (sensors_GPS : bool) (currentTimeUs : Z)
    (streams : list MAV_DATA_STREAM) (st : mavlink_state) : mavlink_state :=
  fold_left
    (fun st streamNum => poll_stream sensors_GPS currentTimeUs streamNum st)
    streams st.

(** The reload value of a stream's counter, with the rate clamped to the
    cycle frequency as [mavlinkStreamTrigger] does. *)
Definition reload_ticks (rate : Z) : Z :=
  TELEMETRY_MAVLINK_MAXRATE / Z.min rate TELEMETRY_MAVLINK_MAXRATE.

(** The frames of a byte string, each paired with the arming flag. *)
Definition frames_with (armed : bool) (frames : list mavlink_message_t)
  : list (bool * mavlink_message_t) :=
  map (pair armed) frames.

End Runs.

(** * Port life cycle

    [initMAVLinkTelemetry], [configureMAVLinkTelemetryPort],
    [configureMAVLinkStreamRates], [freeMAVLinkTelemetryPort] and
    [checkMAVLinkTelemetryState].  The two statics they add to the state,
    [portConfig] and [mavlinkPortSharing], wrap the state of the rest of
    the file; what the serial driver, the port configuration and the
    telemetry settings answer at a call is the environment of that call.
    Closing and opening the port is recorded in [mavlinkPort]; the byte
    queues of the driver are left as they are. *)

Record serialPortConfig_t := {
  identifier : Z;
  telemetry_baudrateIndex : Z                  (* baudRate_e *)
}.

(** [telemetryConfig()->mavlink]. *)
Record mavlink_rates_t := {
  extended_status_rate : Z;                    (* uint8_t, as the others *)
  rc_channels_rate : Z;
  position_rate : Z;
  extra1_rate : Z;
  extra2_rate : Z;
  extra3_rate : Z
}.

(** The answers of the collaborators when a function of the life cycle
    runs, and the constants of the serial driver's header. *)
Record port_env := {
  BAUD_AUTO : Z;
  BAUD_57600 : Z;
  baudRates : Z -> Z;
  findSerialPortConfig : option serialPortConfig_t;
  determinePortSharing : option serialPortConfig_t -> Z;
  (* openSerialPort(identifier, ..., baudRate, ...) != NULL *)
  openSerialPort : Z -> Z -> bool;
  telemetryDetermineEnabledState : Z -> bool;
  telemetryConfig_mavlink : mavlink_rates_t
}.

Section PortLifeCycle.
Context `{P : Platform}.

Record mavlink_module := {
  portConfig : option serialPortConfig_t;
  mavlinkPortSharing : Z;                      (* portSharing_e *)
  telemetry : mavlink_state
}.

Definition set_mavlinkPort (v : bool) (st : mavlink_state) :=
  {| mavlinkPort := v;
     mavlinkTelemetryEnabled := mavlinkTelemetryEnabled st;
     serialRx := serialRx st; serialTx := serialTx st;
     mavRates := mavRates st; mavTicks := mavTicks st;
     lastMavlinkMessage := lastMavlinkMessage st;
     incomingRequestServed := incomingRequestServed st;
     mavRecvStatus := mavRecvStatus st;
     incomingMissionWpCount := incomingMissionWpCount st;
     incomingMissionWpSequence := incomingMissionWpSequence st;
     waypointList := waypointList st |}.

Definition set_mavlinkTelemetryEnabled (v : bool) (st : mavlink_state) :=
  {| mavlinkPort := mavlinkPort st;
     mavlinkTelemetryEnabled := v;
     serialRx := serialRx st; serialTx := serialTx st;
     mavRates := mavRates st; mavTicks := mavTicks st;
     lastMavlinkMessage := lastMavlinkMessage st;
     incomingRequestServed := incomingRequestServed st;
     mavRecvStatus := mavRecvStatus st;
     incomingMissionWpCount := incomingMissionWpCount st;
     incomingMissionWpSequence := incomingMissionWpSequence st;
     waypointList := waypointList st |}.

Definition set_mavRates (v : MAV_DATA_STREAM -> Z) (st : mavlink_state) :=
  {| mavlinkPort := mavlinkPort st;
     mavlinkTelemetryEnabled := mavlinkTelemetryEnabled st;
     serialRx := serialRx st; serialTx := serialTx st;
     mavRates := v; mavTicks := mavTicks st;
     lastMavlinkMessage := lastMavlinkMessage st;
     incomingRequestServed := incomingRequestServed st;
     mavRecvStatus := mavRecvStatus st;
     incomingMissionWpCount := incomingMissionWpCount st;
     incomingMissionWpSequence := incomingMissionWpSequence st;
     waypointList := waypointList st |}.

Definition set_telemetry (v : mavlink_state) (m : mavlink_module) :=
  {| portConfig := portConfig m;
     mavlinkPortSharing := mavlinkPortSharing m;
     telemetry := v |}.

Definition freeMAVLinkTelemetryPort (m : mavlink_module) : mavlink_module :=
  (* closeSerialPort(mavlinkPort) *)
  let st := set_mavlinkPort false (telemetry m) in
  set_telemetry (set_mavlinkTelemetryEnabled false st) m.

Definition initMAVLinkTelemetry (env : port_env) (m : mavlink_module)
  : mavlink_module :=
  let portConfig := findSerialPortConfig env in
  {| portConfig := portConfig;
     mavlinkPortSharing := determinePortSharing env portConfig;
     telemetry := telemetry m |}.

Definition configureMAVLinkTelemetryPort (env : port_env) (m : mavlink_module)
  : mavlink_module :=
  match portConfig m with
  | None => m
  | Some config =>
      let baudRateIndex := telemetry_baudrateIndex config in
      let baudRateIndex :=
        if baudRateIndex =? BAUD_AUTO env
        then BAUD_57600 env     (* default rate for minimOSD *)
        else baudRateIndex in
      let port := openSerialPort env (identifier config)
                    (baudRates env baudRateIndex) in
      let m := set_telemetry (set_mavlinkPort port (telemetry m)) m in
      if negb port then m
      else set_telemetry (set_mavlinkTelemetryEnabled true (telemetry m)) m
  end.

Definition configureMAVLinkStreamRates (env : port_env) (m : mavlink_module)
  : mavlink_module :=
  let config := telemetryConfig_mavlink env in
  let rates := mavRates (telemetry m) in
  let rates := <[MAV_DATA_STREAM_EXTENDED_STATUS := extended_status_rate config]> rates in
  let rates := <[MAV_DATA_STREAM_RC_CHANNELS := rc_channels_rate config]> rates in
  let rates := <[MAV_DATA_STREAM_POSITION := position_rate config]> rates in
  let rates := <[MAV_DATA_STREAM_EXTRA1 := extra1_rate config]> rates in
  let rates := <[MAV_DATA_STREAM_EXTRA2 := extra2_rate config]> rates in
  let rates := <[MAV_DATA_STREAM_EXTRA3 := extra3_rate config]> rates in
  set_telemetry (set_mavRates rates (telemetry m)) m.

Definition checkMAVLinkTelemetryState (env : port_env) (m : mavlink_module)
  : mavlink_module :=
  let newTelemetryEnabledValue :=
    telemetryDetermineEnabledState env (mavlinkPortSharing m) in
  if Bool.eqb newTelemetryEnabledValue (mavlinkTelemetryEnabled (telemetry m))
  then m
  else if newTelemetryEnabledValue then
    let m := configureMAVLinkTelemetryPort env m in
    configureMAVLinkStreamRates env m
  else freeMAVLinkTelemetryPort m.

(** The calls the firmware makes on the module, each with the
    environment of the moment: initialisation, the state check (the only
    caller of the two configure functions in the file), closing the port,
    and the orchestrator cycle. *)
Inductive module_call :=
| call_init (env : port_env)
| call_check (env : port_env)
| call_free
| call_handle (armed sensors_GPS : bool) (currentTimeUs : Z).

Definition run_call (c : module_call) (m : mavlink_module) : mavlink_module :=
  match c with
  | call_init env => initMAVLinkTelemetry env m
  | call_check env => checkMAVLinkTelemetryState env m
  | call_free => freeMAVLinkTelemetryPort m
  | call_handle armed sensors_GPS currentTimeUs =>
      set_telemetry
        (handleMAVLinkTelemetry armed sensors_GPS currentTimeUs (telemetry m)) m
  end.

Definition run_calls (calls : list module_call) (m : mavlink_module)
  : mavlink_module :=
  fold_left (fun m c => run_call c m) calls m.

(** Whenever telemetry is enabled the port is open. *)
Definition enabled_implies_port (m : mavlink_module) : Prop :=
  mavlinkTelemetryEnabled (telemetry m) = true ->
  mavlinkPort (telemetry m) = true.

(** The baud rate [configureMAVLinkTelemetryPort] asks the driver for. *)
Definition requested_baudRate (env : port_env) (config : serialPortConfig_t)
  : Z :=
  baudRates env
    (if telemetry_baudrateIndex config =? BAUD_AUTO env
     then BAUD_57600 env else telemetry_baudrateIndex config).

(** The rates the telemetry settings give to the six streams. *)
Definition configured_rate (config : mavlink_rates_t)
    (streamNum : MAV_DATA_STREAM) : Z :=
  match streamNum with
  | MAV_DATA_STREAM_EXTENDED_STATUS => extended_status_rate config
  | MAV_DATA_STREAM_RC_CHANNELS => rc_channels_rate config
  | MAV_DATA_STREAM_POSITION => position_rate config
  | MAV_DATA_STREAM_EXTRA1 => extra1_rate config
  | MAV_DATA_STREAM_EXTRA2 => extra2_rate config
  | MAV_DATA_STREAM_EXTRA3 => extra3_rate config
  end.

End PortLifeCycle.

(** * Outbound message fields

    The senders read the sensors and the flight state through functions of
    other modules.  Each computation a sender does on such readings is a
    function of the readings here. *)

(** ** [mavlinkSendSystemStatus]: the sensor masks *)

(** The local [onboardControlAndSensors] after the three [sensors()]
    tests; it is sent as the present mask and as the enabled mask. *)
Definition onboardControlAndSensors (mag baro gps : bool) : Z :=
  let onboardControlAndSensors := 35843 in
  let onboardControlAndSensors :=
    if mag then Z.lor onboardControlAndSensors 4100
    else onboardControlAndSensors in
  let onboardControlAndSensors :=
    if baro then Z.lor onboardControlAndSensors 8200
    else onboardControlAndSensors in
  let onboardControlAndSensors :=
    if gps then Z.lor onboardControlAndSensors 16416
    else onboardControlAndSensors in
  onboardControlAndSensors.

(** The health mask argument, [onboardControlAndSensors & 1023]. *)
Definition onboard_control_sensors_health (mag baro gps : bool) : Z :=
  Z.land (onboardControlAndSensors mag baro gps) 1023.

(** ** [mavlinkSendBatteryTemperatureStatusText]: the cell voltages *)

Definition MAVLINK_MSG_ID_BATTERY_STATUS_MAX_CELLS : Z := 10.
Definition UINT16_MAX : Z := 65535.
Definition uint16_t (z : Z) : Z := z mod 2 ^ 16.

(** The [for] loop over the cells, from [cell] on; [v] is the value
    [getBatteryAverageCellVoltage() * 10] as stored in a [uint16_t]. *)
Fixpoint batteryVoltages_loop (fuel : nat) (cell batteryCellCount v : Z)
    (batteryVoltages : list Z) : list Z :=
  match fuel with
  | O => batteryVoltages
  | S fuel =>
      if (cell <? batteryCellCount)
         && (cell <? MAVLINK_MSG_ID_BATTERY_STATUS_MAX_CELLS)
      then batteryVoltages_loop fuel (cell + 1) batteryCellCount v
             (<[Z.to_nat cell := v]> batteryVoltages)
      else batteryVoltages
  end.

(** The array [batteryVoltages] as packed: [memset] fills its bytes with
    [0xFF], so every cell starts as [UINT16_MAX]. *)
Definition batteryVoltages_with (fuel : nat) (FEATURE_VBAT : bool)
    (getBatteryCellCount getBatteryAverageCellVoltage getBatteryVoltage : Z)
    : list Z :=
  let batteryVoltages :=
    replicate (Z.to_nat MAVLINK_MSG_ID_BATTERY_STATUS_MAX_CELLS) UINT16_MAX in
  if FEATURE_VBAT then
    let batteryCellCount := uint8_t getBatteryCellCount in
    if 0 <? batteryCellCount then
      batteryVoltages_loop fuel 0 batteryCellCount
        (uint16_t (getBatteryAverageCellVoltage * 10)) batteryVoltages
    else <[0%nat := uint16_t (getBatteryVoltage * 10)]> batteryVoltages
  else <[0%nat := 0]> batteryVoltages.

(** The loop ends by its own test within [MAX_CELLS] rounds. *)
Definition batteryVoltages :=
  batteryVoltages_with (Z.to_nat MAVLINK_MSG_ID_BATTERY_STATUS_MAX_CELLS).

(** ** [mavlinkSendHUDAndHeartbeat]: the custom mode *)

(** The members of [flightModeForTelemetry_e] that the two maps name;
    [FLM_other] stands for every other member. *)
Inductive flightModeForTelemetry_e :=
  | FLM_MANUAL | FLM_ACRO | FLM_ACRO_AIR | FLM_ANGLE | FLM_HORIZON
  | FLM_ALTITUDE_HOLD | FLM_POSITION_HOLD | FLM_RTH | FLM_MISSION
  | FLM_CRUISE | FLM_LAUNCH | FLM_FAILSAFE | FLM_other.

Definition PLANE_MODE_MANUAL : Z := 0.
Definition PLANE_MODE_STABILIZE : Z := 2.
Definition PLANE_MODE_ACRO : Z := 4.
Definition PLANE_MODE_FLY_BY_WIRE_A : Z := 5.
Definition PLANE_MODE_FLY_BY_WIRE_B : Z := 6.
Definition PLANE_MODE_CRUISE : Z := 7.
Definition PLANE_MODE_AUTO : Z := 10.
Definition PLANE_MODE_RTL : Z := 11.
Definition PLANE_MODE_LOITER : Z := 12.
Definition PLANE_MODE_TAKEOFF : Z := 13.
Definition PLANE_MODE_ENUM_END : Z := 23.

Definition COPTER_MODE_STABILIZE : Z := 0.
Definition COPTER_MODE_ACRO : Z := 1.
Definition COPTER_MODE_ALT_HOLD : Z := 2.
Definition COPTER_MODE_AUTO : Z := 3.
Definition COPTER_MODE_RTL : Z := 6.
Definition COPTER_MODE_POSHOLD : Z := 16.
Definition COPTER_MODE_THROW : Z := 18.
Definition COPTER_MODE_ENUM_END : Z := 22.

Definition inavToArduCopterMap (flightMode : flightModeForTelemetry_e) : Z :=
  match flightMode with
  | FLM_ACRO => COPTER_MODE_ACRO
  | FLM_ACRO_AIR => COPTER_MODE_ACRO
  | FLM_ANGLE => COPTER_MODE_STABILIZE
  | FLM_HORIZON => COPTER_MODE_STABILIZE
  | FLM_ALTITUDE_HOLD => COPTER_MODE_ALT_HOLD
  | FLM_POSITION_HOLD => COPTER_MODE_POSHOLD
  | FLM_RTH => COPTER_MODE_RTL
  | FLM_MISSION => COPTER_MODE_AUTO
  | FLM_LAUNCH => COPTER_MODE_THROW
  | FLM_FAILSAFE => COPTER_MODE_RTL
  | _ => COPTER_MODE_ENUM_END
  end.

Definition inavToArduPlaneMap (flightMode : flightModeForTelemetry_e) : Z :=
  match flightMode with
  | FLM_MANUAL => PLANE_MODE_MANUAL
  | FLM_ACRO => PLANE_MODE_ACRO
  | FLM_ACRO_AIR => PLANE_MODE_ACRO
  | FLM_ANGLE => PLANE_MODE_FLY_BY_WIRE_A
  | FLM_HORIZON => PLANE_MODE_STABILIZE
  | FLM_ALTITUDE_HOLD => PLANE_MODE_FLY_BY_WIRE_B
  | FLM_POSITION_HOLD => PLANE_MODE_LOITER
  | FLM_RTH => PLANE_MODE_RTL
  | FLM_MISSION => PLANE_MODE_AUTO
  | FLM_CRUISE => PLANE_MODE_CRUISE
  | FLM_LAUNCH => PLANE_MODE_TAKEOFF
  | FLM_FAILSAFE => PLANE_MODE_RTL
  | _ => PLANE_MODE_ENUM_END
  end.

(** The local [mavCustomMode] of the heartbeat, with the [(uint8_t)]
    cast. *)
Definition mavCustomMode (FIXED_WING_LEGACY : bool)
    (flm : flightModeForTelemetry_e) : Z :=
  if FIXED_WING_LEGACY then uint8_t (inavToArduPlaneMap flm)
  else uint8_t (inavToArduCopterMap flm).

(** ** The status text *)

Module StatusText.
Import String.
Local Open Scope string_scope.

Definition STATUS_TEXT_LENGTH : nat := 50.

(** The values of [isArmingDisabledReason()] that the switch of
    [mavlinkArmingDisabledReasonMessage] names; [no_arming_flag] is any
    other value, such as the zero returned when nothing blocks arming. *)
Inductive armingFlag_e :=
  | ARMED | WAS_EVER_ARMED
  | ARMING_DISABLED_FAILSAFE_SYSTEM | ARMING_DISABLED_NOT_LEVEL
  | ARMING_DISABLED_SENSORS_CALIBRATING | ARMING_DISABLED_SYSTEM_OVERLOADED
  | ARMING_DISABLED_NAVIGATION_UNSAFE
  | ARMING_DISABLED_COMPASS_NOT_CALIBRATED
  | ARMING_DISABLED_ACCELEROMETER_NOT_CALIBRATED
  | ARMING_DISABLED_ARM_SWITCH | ARMING_DISABLED_HARDWARE_FAILURE
  | ARMING_DISABLED_BOXFAILSAFE | ARMING_DISABLED_BOXKILLSWITCH
  | ARMING_DISABLED_RC_LINK | ARMING_DISABLED_THROTTLE
  | ARMING_DISABLED_CLI | ARMING_DISABLED_CMS_MENU
  | ARMING_DISABLED_OSD_MENU | ARMING_DISABLED_ROLLPITCH_NOT_CENTERED
  | ARMING_DISABLED_SERVO_AUTOTRIM | ARMING_DISABLED_OOM
  | ARMING_DISABLED_INVALID_SETTING | ARMING_DISABLED_PWM_OUTPUT_ERROR
  | ARMING_DISABLED_ALL_FLAGS
  | no_arming_flag.

Inductive failsafePhase_e :=
  | FAILSAFE_IDLE | FAILSAFE_RX_LOSS_DETECTED | FAILSAFE_RETURN_TO_HOME
  | FAILSAFE_LANDING | FAILSAFE_LANDED | FAILSAFE_RX_LOSS_MONITORING
  | FAILSAFE_RX_LOSS_RECOVERED | FAILSAFE_RX_LOSS_IDLE.

Inductive navArmingBlocker_e :=
  | NAV_ARMING_BLOCKER_NONE | NAV_ARMING_BLOCKER_MISSING_GPS_FIX
  | NAV_ARMING_BLOCKER_NAV_IS_ALREADY_ACTIVE
  | NAV_ARMING_BLOCKER_FIRST_WAYPOINT_TOO_FAR
  | NAV_ARMING_BLOCKER_JUMP_WAYPOINT_ERROR.

Inductive navSystemStatus_State_e :=
  | MW_NAV_STATE_NONE | MW_NAV_STATE_RTH_START | MW_NAV_STATE_RTH_ENROUTE
  | MW_NAV_STATE_HOLD_INFINIT | MW_NAV_STATE_HOLD_TIMED
  | MW_NAV_STATE_WP_ENROUTE | MW_NAV_STATE_PROCESS_NEXT
  | MW_NAV_STATE_DO_JUMP | MW_NAV_STATE_LAND_START
  | MW_NAV_STATE_EMERGENCY_LANDING | MW_NAV_STATE_LAND_IN_PROGRESS
  | MW_NAV_STATE_HOVER_ABOVE_HOME | MW_NAV_STATE_LANDED
  | MW_NAV_STATE_LAND_SETTLE | MW_NAV_STATE_LAND_START_DESCENT.

(** The members of [MAV_SEVERITY] that [getMAVLinkSystemMsg] returns. *)
Inductive MAV_SEVERITY :=
  | MAV_SEVERITY_INFO | MAV_SEVERITY_WARNING | MAV_SEVERITY_CRITICAL.

(** What the message functions read: the build switch [USE_NAV], the
    clock, the arming flags, the failsafe and navigation state, the
    hardware health ([HW_SENSOR_IS_HEALTHY] of each status), the flight
    modes and the settings check with the name of the offending
    setting. *)
Record flight_readings := {
  USE_NAV : bool;
  millis : Z;                                  (* uint32_t *)
  ARMING_FLAG_ARMED : bool;
  ARMING_FLAG_ARMING_DISABLED_ALL_FLAGS : bool;
  ARMING_FLAG_ARMING_DISABLED_INVALID_SETTING : bool;
  isArmingDisabledReason : armingFlag_e;
  failsafePhase : failsafePhase_e;
  failsafeIsReceivingRxData : bool;
  navigationIsBlockingArming : navArmingBlocker_e;
  getHwGyroStatus_healthy : bool;
  getHwAccelerometerStatus_healthy : bool;
  getHwCompassStatus_healthy : bool;
  getHwBarometerStatus_healthy : bool;
  getHwGPSStatus_healthy : bool;
  getHwRangefinderStatus_healthy : bool;
  getHwPitotmeterStatus_healthy : bool;
  NAV_Status_state : navSystemStatus_State_e;
  STATE_FIXED_WING_LEGACY : bool;
  FLIGHT_MODE_FAILSAFE_MODE : bool;
  FLIGHT_MODE_NAV_RTH_MODE : bool;
  FLIGHT_MODE_NAV_WP_MODE : bool;
  FLIGHT_MODE_NAV_ALTHOLD_MODE : bool;
  FLIGHT_MODE_HEADFREE_MODE : bool;
  navigationIsExecutingAnEmergencyLanding : bool;
  navGetCurrentStateFlags_NAV_CTL_LAUNCH : bool;
  navigationRequiresAngleMode : bool;
  IS_RC_MODE_ACTIVE_BOXAUTOTRIM : bool;
  IS_RC_MODE_ACTIVE_BOXAUTOTUNE : bool;
  settingsValidate : bool;
  settingGetName : string;
  sl_toupper : Ascii.ascii -> Ascii.ascii
}.

Definition set_millis (v : Z) (r : flight_readings) : flight_readings :=
  {| USE_NAV := USE_NAV r;
     millis := v;
     ARMING_FLAG_ARMED := ARMING_FLAG_ARMED r;
     ARMING_FLAG_ARMING_DISABLED_ALL_FLAGS :=
       ARMING_FLAG_ARMING_DISABLED_ALL_FLAGS r;
     ARMING_FLAG_ARMING_DISABLED_INVALID_SETTING :=
       ARMING_FLAG_ARMING_DISABLED_INVALID_SETTING r;
     isArmingDisabledReason := isArmingDisabledReason r;
     failsafePhase := failsafePhase r;
     failsafeIsReceivingRxData := failsafeIsReceivingRxData r;
     navigationIsBlockingArming := navigationIsBlockingArming r;
     getHwGyroStatus_healthy := getHwGyroStatus_healthy r;
     getHwAccelerometerStatus_healthy := getHwAccelerometerStatus_healthy r;
     getHwCompassStatus_healthy := getHwCompassStatus_healthy r;
     getHwBarometerStatus_healthy := getHwBarometerStatus_healthy r;
     getHwGPSStatus_healthy := getHwGPSStatus_healthy r;
     getHwRangefinderStatus_healthy := getHwRangefinderStatus_healthy r;
     getHwPitotmeterStatus_healthy := getHwPitotmeterStatus_healthy r;
     NAV_Status_state := NAV_Status_state r;
     STATE_FIXED_WING_LEGACY := STATE_FIXED_WING_LEGACY r;
     FLIGHT_MODE_FAILSAFE_MODE := FLIGHT_MODE_FAILSAFE_MODE r;
     FLIGHT_MODE_NAV_RTH_MODE := FLIGHT_MODE_NAV_RTH_MODE r;
     FLIGHT_MODE_NAV_WP_MODE := FLIGHT_MODE_NAV_WP_MODE r;
     FLIGHT_MODE_NAV_ALTHOLD_MODE := FLIGHT_MODE_NAV_ALTHOLD_MODE r;
     FLIGHT_MODE_HEADFREE_MODE := FLIGHT_MODE_HEADFREE_MODE r;
     navigationIsExecutingAnEmergencyLanding :=
       navigationIsExecutingAnEmergencyLanding r;
     navGetCurrentStateFlags_NAV_CTL_LAUNCH :=
       navGetCurrentStateFlags_NAV_CTL_LAUNCH r;
     navigationRequiresAngleMode := navigationRequiresAngleMode r;
     IS_RC_MODE_ACTIVE_BOXAUTOTRIM := IS_RC_MODE_ACTIVE_BOXAUTOTRIM r;
     IS_RC_MODE_ACTIVE_BOXAUTOTUNE := IS_RC_MODE_ACTIVE_BOXAUTOTUNE r;
     settingsValidate := settingsValidate r;
     settingGetName := settingGetName r;
     sl_toupper := sl_toupper r |}.

(** [STATUS_TEXT_ALTERNATING_CHOICES(ms, num_choices)]; [millis()] is a
    32-bit millisecond counter, which wraps around at 2^32. *)
Definition STATUS_TEXT_ALTERNATING_CHOICES (r : flight_readings)
    (ms num_choices : Z) : Z :=
  (uint32_t (millis r) / ms) mod num_choices.

Definition RC_RX_LINK_LOST_MSG : string := "!RC RX LINK LOST!".

(** The message functions return a pointer to a constant string, or
    [NULL]: [None] here. *)
Definition mavlinkArmingDisabledReasonMessage (r : flight_readings)
    : option string :=
  match isArmingDisabledReason r with
  | ARMING_DISABLED_FAILSAFE_SYSTEM =>
      match failsafePhase r with
      | FAILSAFE_RX_LOSS_MONITORING =>
          if failsafeIsReceivingRxData r then Some "TURN ARM SWITCH OFF"
          else Some RC_RX_LINK_LOST_MSG
      | _ => Some "DISABLED BY FAILSAFE"
      end
  | ARMING_DISABLED_NOT_LEVEL => Some "AIRCRAFT IS NOT LEVEL"
  | ARMING_DISABLED_SENSORS_CALIBRATING => Some "SENSORS CALIBRATING"
  | ARMING_DISABLED_SYSTEM_OVERLOADED => Some "SYSTEM OVERLOADED"
  | ARMING_DISABLED_NAVIGATION_UNSAFE =>
      if USE_NAV r then
        match navigationIsBlockingArming r with
        | NAV_ARMING_BLOCKER_NONE => None
        | NAV_ARMING_BLOCKER_MISSING_GPS_FIX => Some "WAITING FOR GPS FIX"
        | NAV_ARMING_BLOCKER_NAV_IS_ALREADY_ACTIVE =>
            Some "DISABLE NAVIGATION FIRST"
        | NAV_ARMING_BLOCKER_FIRST_WAYPOINT_TOO_FAR =>
            Some "FIRST WAYPOINT IS TOO FAR"
        | NAV_ARMING_BLOCKER_JUMP_WAYPOINT_ERROR =>
            Some "JUMP WAYPOINT MISCONFIGURED"
        end
      else None
  | ARMING_DISABLED_COMPASS_NOT_CALIBRATED => Some "COMPASS NOT CALIBRATED"
  | ARMING_DISABLED_ACCELEROMETER_NOT_CALIBRATED =>
      Some "ACCELEROMETER NOT CALIBRATED"
  | ARMING_DISABLED_ARM_SWITCH => Some "DISABLE ARM SWITCH FIRST"
  | ARMING_DISABLED_HARDWARE_FAILURE =>
      if negb (getHwGyroStatus_healthy r) then Some "GYRO FAILURE"
      else if negb (getHwAccelerometerStatus_healthy r)
      then Some "ACCELEROMETER FAILURE"
      else if negb (getHwCompassStatus_healthy r) then Some "COMPASS FAILURE"
      else if negb (getHwBarometerStatus_healthy r)
      then Some "BAROMETER FAILURE"
      else if negb (getHwGPSStatus_healthy r) then Some "GPS FAILURE"
      else if negb (getHwRangefinderStatus_healthy r)
      then Some "RANGE FINDER FAILURE"
      else if negb (getHwPitotmeterStatus_healthy r)
      then Some "PITOT METER FAILURE"
      else Some "HARDWARE FAILURE"
  | ARMING_DISABLED_BOXFAILSAFE => Some "FAILSAFE MODE ENABLED"
  | ARMING_DISABLED_BOXKILLSWITCH => Some "KILLSWITCH MODE ENABLED"
  | ARMING_DISABLED_RC_LINK => Some "NO RC LINK"
  | ARMING_DISABLED_THROTTLE => Some "THROTTLE IS NOT LOW"
  | ARMING_DISABLED_ROLLPITCH_NOT_CENTERED => Some "ROLLPITCH NOT CENTERED"
  | ARMING_DISABLED_SERVO_AUTOTRIM => Some "AUTOTRIM IS ACTIVE"
  | ARMING_DISABLED_OOM => Some "NOT ENOUGH MEMORY"
  | ARMING_DISABLED_INVALID_SETTING => Some "INVALID SETTING"
  | ARMING_DISABLED_CLI => Some "CLI IS ACTIVE"
  | ARMING_DISABLED_PWM_OUTPUT_ERROR => Some "PWM INIT ERROR"
  | ARMING_DISABLED_CMS_MENU => None
  | ARMING_DISABLED_OSD_MENU => None
  | ARMING_DISABLED_ALL_FLAGS => None
  | ARMED => None
  | WAS_EVER_ARMED => None
  | no_arming_flag => None
  end.

(** The case of [FAILSAFE_RETURN_TO_HOME] is compiled with [USE_NAV]
    only. *)
Definition mavlinkFailsafePhaseMessage (r : flight_readings)
    : option string :=
  match failsafePhase r with
  | FAILSAFE_RETURN_TO_HOME => if USE_NAV r then Some "(RTH)" else None
  | FAILSAFE_LANDING => Some "(EMERGENCY LANDING)"
  | FAILSAFE_RX_LOSS_MONITORING => None
  | FAILSAFE_LANDED => None
  | FAILSAFE_RX_LOSS_IDLE => None
  | FAILSAFE_IDLE => None
  | FAILSAFE_RX_LOSS_DETECTED => None
  | FAILSAFE_RX_LOSS_RECOVERED => None
  end.

Definition mavlinkFailsafeInfoMessage (r : flight_readings)
    : option string :=
  if failsafeIsReceivingRxData r then Some "!MOVE STICKS TO EXIT FS!"
  else Some RC_RX_LINK_LOST_MSG.

Definition mavlinkNavigationStateMessage (r : flight_readings)
    : option string :=
  match NAV_Status_state r with
  | MW_NAV_STATE_NONE => None
  | MW_NAV_STATE_RTH_START => Some "STARTING RTH"
  | MW_NAV_STATE_RTH_ENROUTE => Some "EN ROUTE TO HOME"
  | MW_NAV_STATE_HOLD_INFINIT => None
  | MW_NAV_STATE_HOLD_TIMED => Some "HOLDING WAYPOINT"
  | MW_NAV_STATE_WP_ENROUTE => Some "TO WP"
  | MW_NAV_STATE_PROCESS_NEXT => Some "PREPARING FOR NEXT WAYPOINT"
  | MW_NAV_STATE_DO_JUMP => None
  | MW_NAV_STATE_LAND_START => None
  | MW_NAV_STATE_EMERGENCY_LANDING => Some "EMERGENCY LANDING"
  | MW_NAV_STATE_LAND_IN_PROGRESS => Some "LANDING"
  | MW_NAV_STATE_HOVER_ABOVE_HOME =>
      if STATE_FIXED_WING_LEGACY r then Some "LOITERING AROUND HOME"
      else Some "HOVERING"
  | MW_NAV_STATE_LANDED => Some "LANDED"
  | MW_NAV_STATE_LAND_SETTLE => Some "PREPARING TO LAND"
  | MW_NAV_STATE_LAND_START_DESCENT => None
  end.

(** The array [messages] of the armed branch, as filled when one of its
    entries is picked: its length is [messageCount]. *)
Definition messages (r : flight_readings) : list string :=
  if FLIGHT_MODE_FAILSAFE_MODE r then
    (option_list (mavlinkFailsafePhaseMessage r)
     ++ option_list (mavlinkFailsafeInfoMessage r)
     ++ option_list (mavlinkNavigationStateMessage r))%list
  else if FLIGHT_MODE_NAV_RTH_MODE r || FLIGHT_MODE_NAV_WP_MODE r
          || navigationIsExecutingAnEmergencyLanding r
  then option_list (mavlinkNavigationStateMessage r)
  else if STATE_FIXED_WING_LEGACY r
          && navGetCurrentStateFlags_NAV_CTL_LAUNCH r
  then ["AUTOLAUNCH"]
  else
    ((if FLIGHT_MODE_NAV_ALTHOLD_MODE r && negb (navigationRequiresAngleMode r)
      then ["(ALTITUDE HOLD)"] else [])
     ++ (if IS_RC_MODE_ACTIVE_BOXAUTOTRIM r then ["(AUTOTRIM)"] else [])
     ++ (if IS_RC_MODE_ACTIVE_BOXAUTOTUNE r then ["(AUTOTUNE)"] else [])
     ++ (if FLIGHT_MODE_HEADFREE_MODE r then ["(HEADFREE)"] else []))%list.

(** The loop that turns the setting's name into upper case. *)
Fixpoint toupper_loop (f : Ascii.ascii -> Ascii.ascii) (messageBuf : string)
    : string :=
  match messageBuf with
  | EmptyString => EmptyString
  | String c messageBuf => String (f c) (toupper_loop f messageBuf)
  end.

(** [message == failsafeInfoMessage] on two non-null pointers to constant
    strings; the strings compared there differ in content whenever they
    are different constants. *)
Definition same_message (message failsafeInfoMessage : option string)
    : bool :=
  match message, failsafeInfoMessage with
  | Some a, Some b => String.eqb a b
  | None, None => true
  | _, _ => false
  end.

(** [getMAVLinkSystemMsg]: the severity returned and the final value of
    [message], which is copied into [buff] unless it is [NULL]. *)
Definition getMAVLinkSystemMsg (r : flight_readings)
    : MAV_SEVERITY * option string :=
  if ARMING_FLAG_ARMED r then
    let messageCount := Z.of_nat (List.length (messages r)) in
    if (0 <? messageCount)%Z then
      let message :=
        messages r
          !! Z.to_nat (STATUS_TEXT_ALTERNATING_CHOICES r 1000 messageCount) in
      if FLIGHT_MODE_FAILSAFE_MODE r
         && same_message message (mavlinkFailsafeInfoMessage r)
      then (MAV_SEVERITY_CRITICAL, message)
      else (MAV_SEVERITY_INFO, message)
    else (MAV_SEVERITY_INFO, None)
  else if ARMING_FLAG_ARMING_DISABLED_ALL_FLAGS r then
    if ARMING_FLAG_ARMING_DISABLED_INVALID_SETTING r
       && negb (settingsValidate r)
    then
      if (STATUS_TEXT_ALTERNATING_CHOICES r 1000 2 =? 0)%Z then
        (MAV_SEVERITY_INFO,
         Some (toupper_loop (sl_toupper r) (settingGetName r)))
      else (MAV_SEVERITY_WARNING, Some "INVALID SETTING")
    else
      if (STATUS_TEXT_ALTERNATING_CHOICES r 1000 2 =? 0)%Z then
        (MAV_SEVERITY_WARNING, Some "UNABLE TO ARM")
      else (MAV_SEVERITY_INFO, mavlinkArmingDisabledReasonMessage r)
  else (MAV_SEVERITY_INFO, None).

(** The buffer [buff] of [mavlinkSendBatteryTemperatureStatusText] after
    the call, as a C string: it starts as one space; a message shorter
    than the buffer is copied whole, and for a longer one the terminator
    is written past the buffer's end ([None]). *)
Definition buff_after (message : option string) : option string :=
  match message with
  | None => Some " "
  | Some message =>
      if (String.length message <? STATUS_TEXT_LENGTH)%nat then Some message
      else None
  end.

(** The test [buff[0] != ' ']. *)
Definition buff_not_blank (buff : string) : bool :=
  match buff with
  | EmptyString => true
  | String c _ => negb (Ascii.eqb c Ascii.Space)
  end.

(** The STATUSTEXT packed by [mavlinkSendBatteryTemperatureStatusText],
    if one is sent. *)
Definition statustext (r : flight_readings)
    : option (option (MAV_SEVERITY * string)) :=
  let (severity, message) := getMAVLinkSystemMsg r in
  match buff_after message with
  | Some buff =>
      Some (if buff_not_blank buff then Some (severity, buff) else None)
  | None => None
  end.

(** The branch of [getMAVLinkSystemMsg] that shows the name of an invalid
    setting. *)
Definition shows_setting_name (r : flight_readings) : bool :=
  negb (ARMING_FLAG_ARMED r)
  && ARMING_FLAG_ARMING_DISABLED_ALL_FLAGS r
  && ARMING_FLAG_ARMING_DISABLED_INVALID_SETTING r
  && negb (settingsValidate r)
  && (STATUS_TEXT_ALTERNATING_CHOICES r 1000 2 =? 0)%Z.

(** A text that fits the buffer and makes the sender send it. *)
Definition fits_buffer (message : string) : bool :=
  (String.length message <? STATUS_TEXT_LENGTH)%nat
  && buff_not_blank message.

End StatusText.

(** * Further test data

    A serial environment in which the port opens, the module before and
    after its first state check, and readings of an aircraft in three
    situations. *)
Module TestModule.
Import TestPlatform.

(** A waypoint item that does not ask to continue automatically. *)
Definition manual_item (seq : Z) : mavlink_mission_item_t :=
  {| item_target_system := 1; item_seq := seq; item_frame := 3;
     item_command := 16; item_autocontinue := 0;
     item_x := 48; item_y := 11; item_z := 50 |}.

Definition clear_all_for (target : Z) : mavlink_mission_clear_all_t :=
  {| clear_target_system := target |}.

Definition request_list : mavlink_mission_request_list_t :=
  {| request_list_target_system := 1 |}.

Definition request_of (seq : Z) : mavlink_mission_request_t :=
  {| request_target_system := 1; request_seq := seq |}.

Definition telemetry_port : serialPortConfig_t :=
  {| identifier := 2; telemetry_baudrateIndex := 0 |}.

(** The port opens at 57600 baud only; telemetry is wanted. *)
Definition serial_env : port_env :=
  {| BAUD_AUTO := 0;
     BAUD_57600 := 6;
     baudRates := fun i => if i =? 6 then 57600 else 9600 * i;
     findSerialPortConfig := Some telemetry_port;
     determinePortSharing := fun _ => 0;
     openSerialPort := fun id baudRate => (id =? 2) && (baudRate =? 57600);
     telemetryDetermineEnabledState := fun _ => true;
     telemetryConfig_mavlink :=
       {| extended_status_rate := 2; rc_channels_rate := 5;
          position_rate := 2; extra1_rate := 10;
          extra2_rate := 2; extra3_rate := 1 |} |}.

(** The statics at reset: no port, telemetry off. *)
Definition module_at_reset : mavlink_module :=
  {| portConfig := None;
     mavlinkPortSharing := 0;
     telemetry :=
       {| mavlinkPort := false;
          mavlinkTelemetryEnabled := false;
          serialRx := [];
          serialTx := [];
          mavRates := default_rates;
          mavTicks := fun _ => 0;
          lastMavlinkMessage := 0;
          incomingRequestServed := false;
          mavRecvStatus := None;
          incomingMissionWpCount := 0;
          incomingMissionWpSequence := 0;
          waypointList := [] |} |}.

(** The module running: initialised, port open, telemetry on. *)
Definition module_running : mavlink_module :=
  {| portConfig := Some telemetry_port;
     mavlinkPortSharing := 0;
     telemetry := boot |}.

Definition first_cycles : list module_call :=
  [call_init serial_env; call_check serial_env; call_handle false true 20000;
   call_free; call_handle false false 40000].

Section Readings.
Import String.
Local Open Scope string_scope.

(** ASCII upper case. *)
Definition toupper (c : Ascii.ascii) : Ascii.ascii :=
  let n := Ascii.nat_of_ascii c in
  if (97 <=? n)%nat && (n <=? 122)%nat then Ascii.ascii_of_nat (n - 32)
  else c.

(** On the ground, nothing blocking arming, one second after start. *)
Definition on_ground : StatusText.flight_readings :=
  {| StatusText.USE_NAV := true;
     StatusText.millis := 1000;
     StatusText.ARMING_FLAG_ARMED := false;
     StatusText.ARMING_FLAG_ARMING_DISABLED_ALL_FLAGS := false;
     StatusText.ARMING_FLAG_ARMING_DISABLED_INVALID_SETTING := false;
     StatusText.isArmingDisabledReason := StatusText.no_arming_flag;
     StatusText.failsafePhase := StatusText.FAILSAFE_IDLE;
     StatusText.failsafeIsReceivingRxData := true;
     StatusText.navigationIsBlockingArming :=
       StatusText.NAV_ARMING_BLOCKER_NONE;
     StatusText.getHwGyroStatus_healthy := true;
     StatusText.getHwAccelerometerStatus_healthy := true;
     StatusText.getHwCompassStatus_healthy := true;
     StatusText.getHwBarometerStatus_healthy := true;
     StatusText.getHwGPSStatus_healthy := true;
     StatusText.getHwRangefinderStatus_healthy := true;
     StatusText.getHwPitotmeterStatus_healthy := true;
     StatusText.NAV_Status_state := StatusText.MW_NAV_STATE_NONE;
     StatusText.STATE_FIXED_WING_LEGACY := false;
     StatusText.FLIGHT_MODE_FAILSAFE_MODE := false;
     StatusText.FLIGHT_MODE_NAV_RTH_MODE := false;
     StatusText.FLIGHT_MODE_NAV_WP_MODE := false;
     StatusText.FLIGHT_MODE_NAV_ALTHOLD_MODE := false;
     StatusText.FLIGHT_MODE_HEADFREE_MODE := false;
     StatusText.navigationIsExecutingAnEmergencyLanding := false;
     StatusText.navGetCurrentStateFlags_NAV_CTL_LAUNCH := false;
     StatusText.navigationRequiresAngleMode := false;
     StatusText.IS_RC_MODE_ACTIVE_BOXAUTOTRIM := false;
     StatusText.IS_RC_MODE_ACTIVE_BOXAUTOTUNE := false;
     StatusText.settingsValidate := true;
     StatusText.settingGetName := EmptyString;
     StatusText.sl_toupper := toupper |}.

(** Armed, the link lost, flying home in failsafe mode. *)
Definition failsafe_rth : StatusText.flight_readings :=
  {| StatusText.USE_NAV := true;
     StatusText.millis := 1000;
     StatusText.ARMING_FLAG_ARMED := true;
     StatusText.ARMING_FLAG_ARMING_DISABLED_ALL_FLAGS := false;
     StatusText.ARMING_FLAG_ARMING_DISABLED_INVALID_SETTING := false;
     StatusText.isArmingDisabledReason := StatusText.no_arming_flag;
     StatusText.failsafePhase := StatusText.FAILSAFE_RETURN_TO_HOME;
     StatusText.failsafeIsReceivingRxData := false;
     StatusText.navigationIsBlockingArming :=
       StatusText.NAV_ARMING_BLOCKER_NONE;
     StatusText.getHwGyroStatus_healthy := true;
     StatusText.getHwAccelerometerStatus_healthy := true;
     StatusText.getHwCompassStatus_healthy := true;
     StatusText.getHwBarometerStatus_healthy := true;
     StatusText.getHwGPSStatus_healthy := true;
     StatusText.getHwRangefinderStatus_healthy := true;
     StatusText.getHwPitotmeterStatus_healthy := true;
     StatusText.NAV_Status_state := StatusText.MW_NAV_STATE_RTH_ENROUTE;
     StatusText.STATE_FIXED_WING_LEGACY := false;
     StatusText.FLIGHT_MODE_FAILSAFE_MODE := true;
     StatusText.FLIGHT_MODE_NAV_RTH_MODE := true;
     StatusText.FLIGHT_MODE_NAV_WP_MODE := false;
     StatusText.FLIGHT_MODE_NAV_ALTHOLD_MODE := true;
     StatusText.FLIGHT_MODE_HEADFREE_MODE := false;
     StatusText.navigationIsExecutingAnEmergencyLanding := false;
     StatusText.navGetCurrentStateFlags_NAV_CTL_LAUNCH := false;
     StatusText.navigationRequiresAngleMode := false;
     StatusText.IS_RC_MODE_ACTIVE_BOXAUTOTRIM := false;
     StatusText.IS_RC_MODE_ACTIVE_BOXAUTOTUNE := false;
     StatusText.settingsValidate := true;
     StatusText.settingGetName := EmptyString;
     StatusText.sl_toupper := toupper |}.

(** On the ground, arming blocked by an invalid setting, at a clock
    reading that shows the setting's name. *)
Definition invalid_setting : StatusText.flight_readings :=
  {| StatusText.USE_NAV := true;
     StatusText.millis := 2000;
     StatusText.ARMING_FLAG_ARMED := false;
     StatusText.ARMING_FLAG_ARMING_DISABLED_ALL_FLAGS := true;
     StatusText.ARMING_FLAG_ARMING_DISABLED_INVALID_SETTING := true;
     StatusText.isArmingDisabledReason :=
       StatusText.ARMING_DISABLED_INVALID_SETTING;
     StatusText.failsafePhase := StatusText.FAILSAFE_IDLE;
     StatusText.failsafeIsReceivingRxData := true;
     StatusText.navigationIsBlockingArming :=
       StatusText.NAV_ARMING_BLOCKER_NONE;
     StatusText.getHwGyroStatus_healthy := true;
     StatusText.getHwAccelerometerStatus_healthy := true;
     StatusText.getHwCompassStatus_healthy := true;
     StatusText.getHwBarometerStatus_healthy := true;
     StatusText.getHwGPSStatus_healthy := true;
     StatusText.getHwRangefinderStatus_healthy := true;
     StatusText.getHwPitotmeterStatus_healthy := true;
     StatusText.NAV_Status_state := StatusText.MW_NAV_STATE_NONE;
     StatusText.STATE_FIXED_WING_LEGACY := false;
     StatusText.FLIGHT_MODE_FAILSAFE_MODE := false;
     StatusText.FLIGHT_MODE_NAV_RTH_MODE := false;
     StatusText.FLIGHT_MODE_NAV_WP_MODE := false;
     StatusText.FLIGHT_MODE_NAV_ALTHOLD_MODE := false;
     StatusText.FLIGHT_MODE_HEADFREE_MODE := false;
     StatusText.navigationIsExecutingAnEmergencyLanding := false;
     StatusText.navGetCurrentStateFlags_NAV_CTL_LAUNCH := false;
     StatusText.navigationRequiresAngleMode := false;
     StatusText.IS_RC_MODE_ACTIVE_BOXAUTOTRIM := false;
     StatusText.IS_RC_MODE_ACTIVE_BOXAUTOTUNE := false;
     StatusText.settingsValidate := false;
     StatusText.settingGetName := "nav_mc_hover_thr";
     StatusText.sl_toupper := toupper |}.

End Readings.

End TestModule.

(** * Properties *)

(** Reading a field of an updated state. *)
Ltac simpl_state :=
  cbv [set_serialRx set_serialTx set_mavTicks set_lastMavlinkMessage
       set_incomingRequestServed set_mavRecvStatus set_incomingMissionWpCount
       set_incomingMissionWpSequence set_waypointList mavlinkSendMessage
       resetWaypointList getWaypointCount isWaypointListValid item_waypoint];
  cbn [mavlinkPort mavlinkTelemetryEnabled serialRx serialTx mavRates mavTicks
       lastMavlinkMessage incomingRequestServed mavRecvStatus
       incomingMissionWpCount incomingMissionWpSequence waypointList fst snd].

Section MissionTransfer.
Context `{P : Platform}.

(** ** The navigation store leaves the rest of the state alone *)

Lemma setWaypoint_counters n wp st :
  incomingMissionWpCount (setWaypoint n wp st) = incomingMissionWpCount st
  /\ incomingMissionWpSequence (setWaypoint n wp st) = incomingMissionWpSequence st
  /\ serialTx (setWaypoint n wp st) = serialTx st.
Proof. unfold setWaypoint. by case_match. Qed.

Lemma setWaypoint_first wp st :
  1 <= NAV_MAX_WAYPOINTS ->
  waypointList (setWaypoint 1 wp st) = [wp].
Proof.
  intros Hmax. unfold setWaypoint.
  replace (1 <=? 1) with true by done.
  replace (1 <=? NAV_MAX_WAYPOINTS) with true by (symmetry; by apply Z.leb_le).
  replace (1 =? 1) with true by done.
  rewrite orb_true_r. simpl. done.
Qed.

Lemma setWaypoint_next wp st :
  getWaypointCount st + 1 <= NAV_MAX_WAYPOINTS ->
  waypointList (setWaypoint (getWaypointCount st + 1) wp st)
  = waypointList st ++ [wp].
Proof.
  intros Hmax. unfold setWaypoint.
  assert (Hn : 0 <= getWaypointCount st) by (unfold getWaypointCount; lia).
  replace (1 <=? getWaypointCount st + 1) with true
    by (symmetry; apply Z.leb_le; lia).
  replace (getWaypointCount st + 1 <=? NAV_MAX_WAYPOINTS) with true
    by (symmetry; by apply Z.leb_le).
  rewrite Z.eqb_refl. simpl.
  replace (Z.to_nat (getWaypointCount st + 1 - 1)) with (length (waypointList st))
    by (unfold getWaypointCount; lia).
  by rewrite firstn_all.
Qed.

(** ** One item upload, branch by branch *)

Lemma item_valid_checks msg :
  item_valid msg ->
  (item_target_system msg =? mavSystemId) = true
  /\ ((item_autocontinue msg =? 0)
      || (negb (item_command msg =? MAV_CMD_NAV_WAYPOINT)
          && negb (item_command msg =? MAV_CMD_NAV_RETURN_TO_LAUNCH))) = false
  /\ (negb (item_frame msg =? MAV_FRAME_GLOBAL_RELATIVE_ALT)
      && negb ((item_frame msg =? MAV_FRAME_MISSION)
               && (item_command msg =? MAV_CMD_NAV_RETURN_TO_LAUNCH))) = false.
Proof.
  intros (Htgt & (Hauto & Hcmd) & Hframe). split_and!.
  - by apply Z.eqb_eq.
  - apply orb_false_iff. split; [by apply Z.eqb_neq|].
    destruct Hcmd as [-> | ->]; rewrite Z.eqb_refl; simpl; [done|].
    by rewrite andb_false_r.
  - destruct Hframe as [-> | [-> ->]]; rewrite !Z.eqb_refl; simpl; [done|].
    by rewrite andb_false_r.
Qed.

Lemma item_in_sequence mavRecvMsg msg st :
  item_valid msg ->
  item_seq msg = incomingMissionWpSequence st ->
  handleIncoming_MISSION_ITEM false mavRecvMsg msg st
  = (true, item_accepted mavRecvMsg msg st).
Proof.
  intros Hvalid Hseq. destruct (item_valid_checks msg Hvalid) as (H1 & H2 & H3).
  unfold handleIncoming_MISSION_ITEM, item_accepted.
  rewrite H1, H2, H3, Hseq, Z.eqb_refl. cbn zeta.
  destruct (setWaypoint_counters
    (incomingMissionWpSequence
       (set_incomingMissionWpSequence (incomingMissionWpSequence st + 1) st))
    (item_waypoint msg
       (set_incomingMissionWpSequence (incomingMissionWpSequence st + 1) st))
    (set_incomingMissionWpSequence (incomingMissionWpSequence st + 1) st))
    as (Hc & Hs & _).
  rewrite Hc, Hs. simpl.
  by repeat case_match.
Qed.

Lemma item_out_of_sequence mavRecvMsg msg st :
  item_valid msg ->
  item_seq msg <> incomingMissionWpSequence st ->
  handleIncoming_MISSION_ITEM false mavRecvMsg msg st
  = (true,
     mavlinkSendMessage (mission_ack mavRecvMsg MAV_MISSION_INVALID_SEQUENCE) st).
Proof.
  intros Hvalid Hseq. destruct (item_valid_checks msg Hvalid) as (H1 & H2 & H3).
  unfold handleIncoming_MISSION_ITEM.
  rewrite H1, H2, H3. by apply Z.eqb_neq in Hseq as ->.
Qed.

Lemma item_accepted_fields mavRecvMsg msg st :
  let st' := item_accepted mavRecvMsg msg st in
  incomingMissionWpCount st' = incomingMissionWpCount st
  /\ incomingMissionWpSequence st' = incomingMissionWpSequence st + 1.
Proof.
  unfold item_accepted. cbn zeta.
  set (st1 := set_incomingMissionWpSequence _ st).
  destruct (setWaypoint_counters (incomingMissionWpSequence st1)
              (item_waypoint msg st1) st1) as (Hc & Hs & _).
  unfold mavlinkSendMessage. cbn [incomingMissionWpCount
    incomingMissionWpSequence set_serialTx].
  rewrite Hc, Hs. done.
Qed.

Lemma serialTx_mavlinkSendMessage m st :
  serialTx (mavlinkSendMessage m st) = serialTx st ++ [m].
Proof. done. Qed.

Lemma item_accepted_tx mavRecvMsg msg st :
  exists reply,
    serialTx (item_accepted mavRecvMsg msg st) = serialTx st ++ [reply]
    /\ (reply = mission_ack mavRecvMsg MAV_MISSION_ACCEPTED
        \/ reply = mission_ack mavRecvMsg MAV_MISSION_INVALID
        \/ reply = mission_request mavRecvMsg (incomingMissionWpSequence st + 1)).
Proof.
  unfold item_accepted. cbn zeta.
  set (st1 := set_incomingMissionWpSequence _ st).
  destruct (setWaypoint_counters (incomingMissionWpSequence st1)
              (item_waypoint msg st1) st1) as (_ & _ & Htx).
  eexists. split.
  - unfold mavlinkSendMessage. cbn [serialTx set_serialTx]. by rewrite Htx.
  - repeat case_match; auto.
Qed.

(** ** List-clear *)

Lemma clear_all_reply mavRecvMsg msg st :
  clear_target_system msg = mavSystemId ->
  handleIncoming_MISSION_CLEAR_ALL mavRecvMsg msg st
  = (true,
     mavlinkSendMessage (mission_ack mavRecvMsg MAV_MISSION_ACCEPTED)
       (resetWaypointList st))
  /\ serialTx
       (mavlinkSendMessage (mission_ack mavRecvMsg MAV_MISSION_ACCEPTED)
          (resetWaypointList st))
     = serialTx st ++ [mission_ack mavRecvMsg MAV_MISSION_ACCEPTED].
Proof.
  intros Htgt. unfold handleIncoming_MISSION_CLEAR_ALL.
  apply Z.eqb_eq in Htgt as ->. done.
Qed.

(** C2 (amended): for every prior state, a list-clear request addressed to
    this system is handled, resets the waypoint list of the navigation
    subsystem (the list is empty afterwards) and is answered with one
    ACCEPTED ack; the session counters wpCount and wpSequence keep the
    values they had, they are not zeroed. *)
Theorem clear_all_empties_list_keeps_counters mavRecvMsg msg st :
  clear_target_system msg = mavSystemId ->
  let r := handleIncoming_MISSION_CLEAR_ALL mavRecvMsg msg st in
  r = (true,
       mavlinkSendMessage
         (mavlink_msg_mission_ack_pack mavSystemId mavComponentId
            (sysid mavRecvMsg) (compid mavRecvMsg) MAV_MISSION_ACCEPTED)
         (resetWaypointList st))
  /\ waypointList r.2 = []
  /\ serialTx r.2
     = serialTx st
       ++ [mavlink_msg_mission_ack_pack mavSystemId mavComponentId
             (sysid mavRecvMsg) (compid mavRecvMsg) MAV_MISSION_ACCEPTED]
  /\ incomingMissionWpCount r.2 = incomingMissionWpCount st
  /\ incomingMissionWpSequence r.2 = incomingMissionWpSequence st.
Proof.
  intros Htgt r. subst r. unfold handleIncoming_MISSION_CLEAR_ALL.
  apply Z.eqb_eq in Htgt as ->. done.
Qed.

(** ** Frame check *)

(** C4 (amended): an addressed, disarmed item upload that passes the
    support check is answered with the UNSUPPORTED_FRAME ack, nothing else
    changing, exactly when its frame is neither the global
    relative-altitude frame nor, for a RETURN_TO_LAUNCH command, the
    mission frame: WAYPOINT requires the relative-altitude frame,
    RETURN_TO_LAUNCH is taken with either of the two frames. *)
Theorem item_unsupported_frame_iff mavRecvMsg msg st :
  item_target_system msg = mavSystemId ->
  item_supported msg ->
  handleIncoming_MISSION_ITEM false mavRecvMsg msg st
  = (true,
     mavlinkSendMessage
       (mavlink_msg_mission_ack_pack mavSystemId mavComponentId
          (sysid mavRecvMsg) (compid mavRecvMsg)
          MAV_MISSION_UNSUPPORTED_FRAME) st)
  <-> ~ item_frame_accepted msg.
Proof.
  intros Htgt Hsup. split.
  - intros Heq Hframe.
    assert (Hvalid : item_valid msg) by done.
    destruct (decide (item_seq msg = incomingMissionWpSequence st)) as [Hs|Hs].
    + rewrite (item_in_sequence _ _ _ Hvalid Hs) in Heq.
      destruct (item_accepted_tx mavRecvMsg msg st) as (reply & Htx & Hreply).
      apply (f_equal snd) in Heq. cbn [snd] in Heq.
      apply (f_equal serialTx) in Heq.
      rewrite Htx, serialTx_mavlinkSendMessage in Heq.
      apply app_inv_head in Heq.
      destruct Hreply as [-> | [-> | ->]]; discriminate.
    + rewrite (item_out_of_sequence _ _ _ Hvalid Hs) in Heq.
      apply (f_equal snd) in Heq. cbn [snd] in Heq.
      apply (f_equal serialTx) in Heq.
      rewrite !serialTx_mavlinkSendMessage in Heq.
      apply app_inv_head in Heq. discriminate.
  - intros Hframe. destruct Hsup as (Hauto & Hcmd).
    unfold handleIncoming_MISSION_ITEM.
    apply Z.eqb_eq in Htgt as ->. apply Z.eqb_neq in Hauto as ->.
    assert ((negb (item_command msg =? MAV_CMD_NAV_WAYPOINT)
             && negb (item_command msg =? MAV_CMD_NAV_RETURN_TO_LAUNCH)) = false)
      as ->.
    { destruct Hcmd as [-> | ->]; rewrite Z.eqb_refl; simpl; [done|].
      by rewrite andb_false_r. }
    simpl.
    assert ((negb (item_frame msg =? MAV_FRAME_GLOBAL_RELATIVE_ALT)
             && negb ((item_frame msg =? MAV_FRAME_MISSION)
                      && (item_command msg =? MAV_CMD_NAV_RETURN_TO_LAUNCH)))
            = true) as ->; [|done].
    apply andb_true_iff. split; apply negb_true_iff.
    + apply Z.eqb_neq. intros Heq. apply Hframe. by left.
    + apply andb_false_iff.
      destruct (Z.eqb_spec (item_frame msg) MAV_FRAME_MISSION) as [Hf|]; [|by left].
      right. apply Z.eqb_neq. intros Hc. apply Hframe. by right.
Qed.

(** ** Requests received while armed *)

(** C5 (amended): every item upload addressed to this system and received
    while the vehicle is armed is rejected with an ERROR ack, and nothing
    but the sent ack changes, so the stored mission list is unchanged; a
    list-clear request is not gated on arming: armed or not, it is
    dispatched to the same handler and answered with an ACCEPTED ack. *)
Theorem armed_item_rejected_clear_not_gated
    itemRecvMsg item clearRecvMsg clear armed st :
  item_target_system item = mavSystemId ->
  payload clearRecvMsg = MAVLINK_MSG_ID_MISSION_CLEAR_ALL clear ->
  clear_target_system clear = mavSystemId ->
  (let r := handleIncoming_MISSION_ITEM true itemRecvMsg item st in
   r = (true,
        mavlinkSendMessage
          (mavlink_msg_mission_ack_pack mavSystemId mavComponentId
             (sysid itemRecvMsg) (compid itemRecvMsg) MAV_MISSION_ERROR) st)
   /\ waypointList r.2 = waypointList st)
  /\ (exists st',
        switch_msgid armed clearRecvMsg st = Some (true, st')
        /\ serialTx st'
           = serialTx st
             ++ [mavlink_msg_mission_ack_pack mavSystemId mavComponentId
                   (sysid clearRecvMsg) (compid clearRecvMsg)
                   MAV_MISSION_ACCEPTED]).
Proof.
  intros Hitem Hpay Hclear. split.
  - unfold handleIncoming_MISSION_ITEM.
    apply Z.eqb_eq in Hitem as ->. done.
  - unfold switch_msgid. rewrite Hpay.
    destruct (clear_all_reply clearRecvMsg clear st Hclear)
      as (-> & Htx).
    eexists. split; done.
Qed.

(** ** Wrong sequence number *)

(** C8: while a session awaits sequence number s, an addressed, disarmed,
    otherwise valid item with another sequence number is answered with an
    INVALID_SEQUENCE ack and changes nothing else (wpSequence, wpCount and
    the stored list stay as they are); the correct item sent afterwards is
    accepted exactly as it would have been without the failed attempt: the
    counter advances to s+1, the waypoint is stored and the usual reply
    follows the INVALID_SEQUENCE ack on the line. *)
Theorem wrong_sequence_rejected_retry_accepted
    wrongRecvMsg wrong mavRecvMsg msg st :
  session_in_progress st ->
  item_valid wrong -> item_seq wrong <> incomingMissionWpSequence st ->
  item_valid msg -> item_seq msg = incomingMissionWpSequence st ->
  let r1 := handleIncoming_MISSION_ITEM false wrongRecvMsg wrong st in
  let r2 := handleIncoming_MISSION_ITEM false mavRecvMsg msg r1.2 in
  let direct := item_accepted mavRecvMsg msg st in
  r1 = (true,
        mavlinkSendMessage
          (mavlink_msg_mission_ack_pack mavSystemId mavComponentId
             (sysid wrongRecvMsg) (compid wrongRecvMsg)
             MAV_MISSION_INVALID_SEQUENCE) st)
  /\ (incomingMissionWpSequence r1.2 = incomingMissionWpSequence st
      /\ incomingMissionWpCount r1.2 = incomingMissionWpCount st
      /\ waypointList r1.2 = waypointList st)
  /\ r2 = (true, item_accepted mavRecvMsg msg r1.2)
  /\ incomingMissionWpSequence r2.2 = incomingMissionWpSequence st + 1
  /\ incomingMissionWpCount r2.2 = incomingMissionWpCount st
  /\ waypointList r2.2 = waypointList direct
  /\ (exists reply,
        serialTx direct = serialTx st ++ [reply]
        /\ serialTx r2.2
           = serialTx st
             ++ [mavlink_msg_mission_ack_pack mavSystemId mavComponentId
                   (sysid wrongRecvMsg) (compid wrongRecvMsg)
                   MAV_MISSION_INVALID_SEQUENCE;
                 reply]
        /\ reply
           = if incomingMissionWpSequence st + 1 >=? incomingMissionWpCount st
             then mavlink_msg_mission_ack_pack mavSystemId mavComponentId
                    (sysid mavRecvMsg) (compid mavRecvMsg)
                    (if waypointListValid (waypointList r2.2)
                     then MAV_MISSION_ACCEPTED else MAV_MISSION_INVALID)
             else mavlink_msg_mission_request_pack mavSystemId mavComponentId
                    (sysid mavRecvMsg) (compid mavRecvMsg)
                    (incomingMissionWpSequence st + 1)).
Proof.
  intros _ Hwrong Hne Hvalid Hseq r1 r2 direct.
  assert (Hr1 : r1 = (true,
    mavlinkSendMessage
      (mission_ack wrongRecvMsg MAV_MISSION_INVALID_SEQUENCE) st))
    by (by apply item_out_of_sequence).
  assert (Hr2 : r2 = (true, item_accepted mavRecvMsg msg r1.2)).
  { apply item_in_sequence; [done|]. by rewrite Hr1. }
  split_and!; [done|by rewrite Hr1|by rewrite Hr1|by rewrite Hr1|done| | | |].
  - rewrite Hr2. cbn [snd].
    destruct (item_accepted_fields mavRecvMsg msg r1.2) as [_ ->].
    by rewrite Hr1.
  - rewrite Hr2. cbn [snd].
    destruct (item_accepted_fields mavRecvMsg msg r1.2) as [-> _].
    by rewrite Hr1.
  - rewrite Hr2, Hr1. cbn [snd]. subst direct.
    unfold item_accepted, setWaypoint. simpl_state.
    by repeat (case_match; simpl_state).
  - rewrite Hr2, Hr1. cbn [snd]. subst direct.
    unfold item_accepted, setWaypoint. simpl_state.
    repeat (case_match; simpl_state); eexists;
      (split; [done|]); (split; [by rewrite <- ?app_assoc|done]).
Qed.

(** ** Item upload without announcement *)

(** C10: with the session counters in their initial zero state, an
    addressed, disarmed item with sequence number 0 that passes the support
    and frame checks is accepted: its waypoint is stored as the only entry
    of the list and carries the end-of-list flag, the list is validated,
    and the reply is the ACCEPTED ack if the verdict is positive and the
    INVALID ack otherwise.  The item is handled, wpSequence becomes 1 and
    wpCount stays 0. *)
Theorem item_without_announcement_accepted mavRecvMsg msg st :
  1 <= NAV_MAX_WAYPOINTS ->
  incomingMissionWpCount st = 0 ->
  incomingMissionWpSequence st = 0 ->
  item_valid msg -> item_seq msg = 0 ->
  let r := handleIncoming_MISSION_ITEM false mavRecvMsg msg st in
  exists wp,
    r.1 = true
    /\ waypointList r.2 = [wp]
    /\ flag wp = NAV_WP_FLAG_LAST
    /\ (action wp = if item_command msg =? MAV_CMD_NAV_RETURN_TO_LAUNCH
                    then NAV_WP_ACTION_RTH else NAV_WP_ACTION_WAYPOINT)
    /\ serialTx r.2
       = serialTx st
         ++ [mavlink_msg_mission_ack_pack mavSystemId mavComponentId
               (sysid mavRecvMsg) (compid mavRecvMsg)
               (if waypointListValid [wp] then MAV_MISSION_ACCEPTED
                else MAV_MISSION_INVALID)]
    /\ incomingMissionWpSequence r.2 = 1
    /\ incomingMissionWpCount r.2 = 0.
Proof.
  intros Hmax Hcount Hseq Hvalid Hitem r. subst r.
  rewrite item_in_sequence by (done || congruence). cbn [fst snd].
  destruct (item_accepted_fields mavRecvMsg msg st) as [Hc Hs].
  cbn zeta in Hc, Hs. rewrite Hc, Hs, Hcount, Hseq.
  unfold item_accepted. rewrite Hseq, Hcount. cbn zeta.
  set (st1 := set_incomingMissionWpSequence (0 + 1) st).
  set (wp := item_waypoint msg st1).
  assert (Hlist : waypointList (setWaypoint (incomingMissionWpSequence st1) wp st1)
                  = [wp]) by (by apply setWaypoint_first).
  exists wp. split_and!; try done.
  - subst wp st1. unfold item_waypoint. cbn. by rewrite Hcount.
  - rewrite serialTx_mavlinkSendMessage.
    destruct (setWaypoint_counters (incomingMissionWpSequence st1) wp st1)
      as (_ & _ & ->).
    unfold isWaypointListValid. rewrite Hlist. done.
Qed.

(** ** A whole upload *)

Lemma setWaypoint_sequential s wp st :
  0 <= s -> s + 1 <= NAV_MAX_WAYPOINTS ->
  s = 0 \/ getWaypointCount st = s ->
  getWaypointCount (setWaypoint (s + 1) wp st) = s + 1
  /\ list.last (waypointList (setWaypoint (s + 1) wp st)) = Some wp.
Proof.
  intros Hs Hmax [-> | <-].
  - rewrite setWaypoint_first by lia. unfold getWaypointCount.
    by rewrite setWaypoint_first by lia.
  - unfold getWaypointCount at 1. rewrite setWaypoint_next by done.
    rewrite length_app, last_snoc. unfold getWaypointCount. simpl. split; [lia|done].
Qed.

Lemma item_accepted_store mavRecvMsg msg st :
  0 <= incomingMissionWpSequence st ->
  incomingMissionWpSequence st + 1 <= NAV_MAX_WAYPOINTS ->
  incomingMissionWpSequence st = 0
  \/ getWaypointCount st = incomingMissionWpSequence st ->
  let st' := item_accepted mavRecvMsg msg st in
  getWaypointCount st' = incomingMissionWpSequence st + 1
  /\ (exists wp,
        list.last (waypointList st') = Some wp
        /\ flag wp = if incomingMissionWpSequence st + 1
                        >=? incomingMissionWpCount st
                     then NAV_WP_FLAG_LAST else 0)
  /\ serialTx st'
     = serialTx st
       ++ [if incomingMissionWpSequence st + 1 >=? incomingMissionWpCount st
           then mission_ack mavRecvMsg
                  (if waypointListValid (waypointList st')
                   then MAV_MISSION_ACCEPTED else MAV_MISSION_INVALID)
           else mission_request mavRecvMsg (incomingMissionWpSequence st + 1)].
Proof.
  intros Hs Hmax Hlist. unfold item_accepted. cbn zeta.
  set (st1 := set_incomingMissionWpSequence _ st).
  set (wp := item_waypoint msg st1).
  assert (Hseq1 : incomingMissionWpSequence st1 = incomingMissionWpSequence st + 1)
    by done.
  rewrite Hseq1.
  destruct (setWaypoint_sequential (incomingMissionWpSequence st) wp st1)
    as (Hcount & Hlast); [done..|].
  destruct (setWaypoint_counters (incomingMissionWpSequence st + 1) wp st1)
    as (_ & _ & Htx).
  split_and!.
  - done.
  - exists wp. split; [done|]. by subst wp st1.
  - rewrite serialTx_mavlinkSendMessage, Htx. done.
Qed.

Lemma upload_items_run items : forall st,
  0 <= incomingMissionWpSequence st ->
  incomingMissionWpSequence st + Z.of_nat (length items)
    <= incomingMissionWpCount st <= NAV_MAX_WAYPOINTS ->
  incomingMissionWpSequence st = 0
  \/ getWaypointCount st = incomingMissionWpSequence st ->
  (forall (i : nat) it, items !! i = Some it ->
     item_valid it.2 /\ item_seq it.2 = incomingMissionWpSequence st + Z.of_nat i) ->
  let st' := upload_items items st in
  incomingMissionWpCount st' = incomingMissionWpCount st
  /\ incomingMissionWpSequence st'
     = incomingMissionWpSequence st + Z.of_nat (length items)
  /\ serialTx st'
     = serialTx st
       ++ map (upload_reply (incomingMissionWpCount st)
                 (waypointListValid (waypointList st'))) items
  /\ (items <> [] ->
      getWaypointCount st' = incomingMissionWpSequence st'
      /\ exists wp,
           list.last (waypointList st') = Some wp
           /\ flag wp = if incomingMissionWpSequence st'
                           >=? incomingMissionWpCount st
                        then NAV_WP_FLAG_LAST else 0).
Proof.
  induction items as [|a items IH]; intros st Hs Hlen Hlist Hitems st'.
  - subst st'. simpl. rewrite app_nil_r. split_and!; [done|lia|done|done].
  - destruct (Hitems 0%nat a eq_refl) as (Hvalid & Hseq).
    rewrite Z.add_0_r in Hseq.
    simpl length in Hlen.
    subst st'. unfold upload_items. simpl fold_left.
    rewrite (item_in_sequence _ _ _ Hvalid Hseq). cbn [snd].
    fold (upload_items items (item_accepted a.1 a.2 st)).
    set (st1 := item_accepted a.1 a.2 st).
    destruct (item_accepted_fields a.1 a.2 st) as (Hc1 & Hs1).
    fold st1 in Hc1, Hs1.
    destruct (item_accepted_store a.1 a.2 st) as (Hn1 & Hlast1 & Htx1);
      [lia..|done|].
    fold st1 in Hn1, Hlast1, Htx1. clearbody st1.
    destruct (IH st1) as (Hc & Hsq & Htx & Hnonempty).
    { lia. } { lia. } { right. by rewrite Hs1. }
    { intros i it Hi. destruct (Hitems (S i) it Hi) as [? ?].
      split; [done|]. rewrite Hs1. lia. }
    rewrite Hc1 in *. rewrite Hs1 in *.
    split_and!.
    + done.
    + rewrite Hsq. simpl length. lia.
    + rewrite Htx, Htx1, <- app_assoc. f_equal. simpl. f_equal.
      unfold upload_reply. rewrite Hseq.
      destruct items as [|b items]; [done|].
      simpl length in Hlen.
      replace (incomingMissionWpSequence st + 1 >=? incomingMissionWpCount st)
        with false; [done|].
      symmetry. rewrite Z.geb_leb. apply Z.leb_gt. lia.
    + intros _. destruct items as [|b items].
      * simpl. simpl in Hsq. rewrite Hs1. split; [lia|].
        destruct Hlast1 as (wp & ? & ?). by exists wp.
      * by apply Hnonempty.
Qed.

(** C1: for every N with 0 < N <= NAV_MAX_WAYPOINTS, after a count
    announcement of N addressed to this system (whatever the state before
    it), uploading N addressed, disarmed items that pass the support and
    frame checks, with sequence numbers 0..N-1 in this order, leaves a
    stored list of length N whose last entry carries the end-of-list flag;
    the announcement is answered with the request for item 0, every
    non-final item with the request for the next sequence number, and the
    final item with the ACCEPTED ack if the assembled list passes
    validation and with the INVALID ack otherwise; afterwards the session
    is complete: wpSequence has reached wpCount = N. *)
Theorem upload_in_sequence_completes
    (N : Z) armed countRecvMsg count items st :
  0 < N <= NAV_MAX_WAYPOINTS ->
  count_target_system count = mavSystemId -> count_count count = N ->
  Z.of_nat (length items) = N ->
  (forall (i : nat) it, items !! i = Some it ->
     item_valid it.2 /\ item_seq it.2 = Z.of_nat i) ->
  let announced := (handleIncoming_MISSION_COUNT armed countRecvMsg count st).2 in
  let st' := upload_items items announced in
  Z.of_nat (length (waypointList st')) = N
  /\ (exists wp, list.last (waypointList st') = Some wp
                 /\ flag wp = NAV_WP_FLAG_LAST)
  /\ serialTx st'
     = serialTx st
       ++ mavlink_msg_mission_request_pack mavSystemId mavComponentId
            (sysid countRecvMsg) (compid countRecvMsg) 0
          :: map (upload_reply N (waypointListValid (waypointList st'))) items
  /\ (forall (i : nat) it, items !! i = Some it ->
        serialTx st' !! (length (serialTx st) + 1 + i)%nat
        = Some (if Z.of_nat i + 1 <? N
                then mavlink_msg_mission_request_pack mavSystemId
                       mavComponentId (sysid it.1) (compid it.1)
                       (Z.of_nat i + 1)
                else mavlink_msg_mission_ack_pack mavSystemId mavComponentId
                       (sysid it.1) (compid it.1)
                       (if waypointListValid (waypointList st')
                        then MAV_MISSION_ACCEPTED else MAV_MISSION_INVALID)))
  /\ session_complete st'
  /\ incomingMissionWpSequence st' = N /\ incomingMissionWpCount st' = N.
Proof.
  intros HN Htgt Hcount Hlen Hitems announced st'.
  assert (Hann : announced
    = mavlinkSendMessage (mission_request countRecvMsg 0)
        (set_incomingMissionWpSequence 0 (set_incomingMissionWpCount N st))).
  { subst announced. unfold handleIncoming_MISSION_COUNT.
    apply Z.eqb_eq in Htgt as ->. rewrite Hcount.
    by replace (N <=? NAV_MAX_WAYPOINTS) with true
      by (symmetry; apply Z.leb_le; lia). }
  assert (Hs0 : incomingMissionWpSequence announced = 0) by (by rewrite Hann).
  assert (Hc0 : incomingMissionWpCount announced = N) by (by rewrite Hann).
  assert (Htx0 : serialTx announced
                 = serialTx st ++ [mission_request countRecvMsg 0])
    by (by rewrite Hann).
  destruct (upload_items_run items announced) as (Hc & Hs & Htx & Hne).
  { lia. } { lia. } { by left. }
  { intros i it Hi. rewrite Hs0, Z.add_0_l. by apply Hitems. }
  fold st' in Hc, Hs, Htx, Hne.
  rewrite Hs0, Hc0 in *. rewrite Z.add_0_l in Hs.
  destruct Hne as (Hn & wp & Hlast & Hflag).
  { intros ->. simpl in Hlen. lia. }
  unfold session_complete. rewrite Hs, Hc, Hlen in *.
  assert (Hline : serialTx st'
    = serialTx st
      ++ mavlink_msg_mission_request_pack mavSystemId mavComponentId
           (sysid countRecvMsg) (compid countRecvMsg) 0
         :: map (upload_reply N (waypointListValid (waypointList st'))) items)
    by (rewrite Htx, Htx0, <- app_assoc; done).
  split_and!; try lia.
  - exact Hn.
  - exists wp. split; [done|]. rewrite Hflag.
    by replace (N >=? N) with true by (symmetry; rewrite Z.geb_leb; apply Z.leb_le; lia).
  - exact Hline.
  - intros i it Hit. rewrite Hline.
    rewrite lookup_app_r by lia.
    replace (length (serialTx st) + 1 + i - length (serialTx st))%nat
      with (S i) by lia.
    transitivity (upload_reply N (waypointListValid (waypointList st'))
                    <$> items !! i);
      [exact (list_lookup_fmap _ items i)|].
    rewrite Hit. cbn [fmap option_fmap option_map].
    f_equal. unfold upload_reply.
    destruct (Hitems i it Hit) as [_ ->].
    rewrite Z.geb_leb.
    destruct (Z.ltb_spec (Z.of_nat i + 1) N), (Z.leb_spec N (Z.of_nat i + 1));
      (done || lia).
Qed.

(** ** Session counters over arbitrary traffic *)

(** What one dispatched frame can do to the two counters: nothing, a
    count announcement within capacity sets them to (count, 0), an item
    with the awaited sequence number advances wpSequence by one. *)
Lemma handle_frame_counters armed mavRecvMsg st :
  let st' := handle_frame armed mavRecvMsg st in
  (incomingMissionWpCount st' = incomingMissionWpCount st
   /\ incomingMissionWpSequence st' = incomingMissionWpSequence st)
  \/ (exists msg,
        payload mavRecvMsg = MAVLINK_MSG_ID_MISSION_COUNT msg
        /\ count_count msg <= NAV_MAX_WAYPOINTS
        /\ incomingMissionWpCount st' = count_count msg
        /\ incomingMissionWpSequence st' = 0)
  \/ (exists msg,
        payload mavRecvMsg = MAVLINK_MSG_ID_MISSION_ITEM msg
        /\ item_seq msg = incomingMissionWpSequence st
        /\ incomingMissionWpCount st' = incomingMissionWpCount st
        /\ incomingMissionWpSequence st' = incomingMissionWpSequence st + 1).
Proof.
  unfold handle_frame, switch_msgid.
  destruct (payload mavRecvMsg) as [|msg|msg|msg|msg|msg|id] eqn:Hpay; cbn zeta.
  - by left.
  - left. unfold handleIncoming_MISSION_CLEAR_ALL. by case_match.
  - unfold handleIncoming_MISSION_COUNT.
    destruct (count_target_system msg =? mavSystemId); [|by left].
    destruct (Z.leb_spec (count_count msg) NAV_MAX_WAYPOINTS).
    + right; left. by exists msg.
    + left. by case_match.
  - unfold handleIncoming_MISSION_ITEM.
    destruct (item_target_system msg =? mavSystemId); [|by left].
    destruct armed; [by left|].
    destruct (_ || _); [by left|].
    destruct (_ && _); [by left|].
    destruct (Z.eqb_spec (item_seq msg) (incomingMissionWpSequence st)) as [Hs|];
      [|by left].
    right; right. exists msg.
    set (st1 := set_incomingMissionWpSequence _ st).
    destruct (setWaypoint_counters (incomingMissionWpSequence st1)
                (item_waypoint msg st1) st1) as (Hc & Hsq & _).
    split_and!; [done..| |];
      repeat case_match; cbn [snd]; simpl_state; by rewrite ?Hc, ?Hsq.
  - left. unfold handleIncoming_MISSION_REQUEST_LIST. by case_match.
  - left. unfold handleIncoming_MISSION_REQUEST. by repeat case_match.
  - by left.
Qed.

Lemma handle_frame_counter_bounds armed mavRecvMsg st :
  wf_payload (payload mavRecvMsg) ->
  0 <= incomingMissionWpSequence st <= uint16_max + 1 ->
  0 <= incomingMissionWpCount st <= NAV_MAX_WAYPOINTS ->
  let st' := handle_frame armed mavRecvMsg st in
  0 <= incomingMissionWpSequence st' <= uint16_max + 1
  /\ 0 <= incomingMissionWpCount st' <= NAV_MAX_WAYPOINTS
  /\ (session_in_progress st ->
      incomingMissionWpSequence st' <= incomingMissionWpCount st').
Proof.
  intros Hwf Hs Hc st'. unfold session_in_progress.
  destruct (handle_frame_counters armed mavRecvMsg st)
    as [(Hc' & Hs') | [(msg & Hpay & Hle & Hc' & Hs') | (msg & Hpay & Hseq & Hc' & Hs')]];
    fold st' in Hc', Hs'; rewrite Hc', Hs'; rewrite Hpay in Hwf || idtac;
    simpl in Hwf; unfold uint16_max in *; lia.
Qed.

(** C3 (amended): in every state reached from zeroed session counters by
    any sequence of inbound mission-protocol frames, 0 <= wpSequence and
    0 <= wpCount <= NAV_MAX_WAYPOINTS hold (and wpSequence stays within
    the [int] range, at most 65536); whenever a session is in progress
    there (wpSequence < wpCount), 0 <= wpSequence <= wpCount <=
    NAV_MAX_WAYPOINTS holds and still holds after the next frame,
    whichever it is.  The counters are not returned to zero by a completed
    upload, a rejection or a list-clear: a frame leaves them as they are
    unless it is a count announcement within capacity, which sets them to
    (count, 0), or an item with the awaited sequence number, which
    advances wpSequence by one. *)
Theorem session_counters_invariant frames st0 :
  0 <= NAV_MAX_WAYPOINTS ->
  incomingMissionWpCount st0 = 0 ->
  incomingMissionWpSequence st0 = 0 ->
  Forall (fun f => wf_payload (payload f.2)) frames ->
  let st := handle_frames frames st0 in
  (0 <= incomingMissionWpSequence st <= uint16_max + 1
   /\ 0 <= incomingMissionWpCount st <= NAV_MAX_WAYPOINTS)
  /\ (session_in_progress st -> session_counters_ordered st)
  /\ (forall armed mavRecvMsg,
        wf_payload (payload mavRecvMsg) ->
        let st' := handle_frame armed mavRecvMsg st in
        (session_in_progress st -> session_counters_ordered st')
        /\ ((incomingMissionWpCount st' = incomingMissionWpCount st
             /\ incomingMissionWpSequence st' = incomingMissionWpSequence st)
            \/ (exists msg,
                  payload mavRecvMsg = MAVLINK_MSG_ID_MISSION_COUNT msg
                  /\ count_count msg <= NAV_MAX_WAYPOINTS
                  /\ incomingMissionWpCount st' = count_count msg
                  /\ incomingMissionWpSequence st' = 0)
            \/ (exists msg,
                  payload mavRecvMsg = MAVLINK_MSG_ID_MISSION_ITEM msg
                  /\ item_seq msg = incomingMissionWpSequence st
                  /\ incomingMissionWpCount st' = incomingMissionWpCount st
                  /\ incomingMissionWpSequence st'
                     = incomingMissionWpSequence st + 1))).
Proof.
  intros Hmax Hc0 Hs0 Hwf st.
  assert (Hinv : 0 <= incomingMissionWpSequence st <= uint16_max + 1
                 /\ 0 <= incomingMissionWpCount st <= NAV_MAX_WAYPOINTS).
  { subst st. unfold handle_frames.
    assert (Hinit : 0 <= incomingMissionWpSequence st0 <= uint16_max + 1
                    /\ 0 <= incomingMissionWpCount st0 <= NAV_MAX_WAYPOINTS)
      by (rewrite Hc0, Hs0; unfold uint16_max; lia).
    clear Hc0 Hs0. revert st0 Hinit.
    induction Hwf as [|f frames Hf _ IH]; intros st0 Hinit; [done|].
    simpl. apply IH.
    destruct Hinit as [Hs Hc].
    destruct (handle_frame_counter_bounds f.1 f.2 st0 Hf Hs Hc) as (? & ? & _).
    done. }
  destruct Hinv as [Hs Hc].
  split; [done|]. split.
  - unfold session_in_progress, session_counters_ordered. lia.
  - intros armed mavRecvMsg Hm st'.
    destruct (handle_frame_counter_bounds armed mavRecvMsg st Hm Hs Hc)
      as (? & ? & Hin).
    fold st' in Hin. split.
    + intros Hprog. specialize (Hin Hprog).
      unfold session_counters_ordered. subst st'. lia.
    + destruct (handle_frame_counters armed mavRecvMsg st)
        as [? | [(msg & ? & ? & ? & ?) | (msg & ? & ? & ? & ?)]];
        [by left | right; left; by exists msg | right; right; by exists msg].
Qed.

End MissionTransfer.

Section Scheduling.
Context `{P : Platform}.

(** ** Rate scheduler *)

Lemma mavlinkStreamTrigger_disabled streamNum st :
  mavRates st streamNum = 0 ->
  mavlinkStreamTrigger streamNum st = (false, st).
Proof. intros Hr. unfold mavlinkStreamTrigger. by rewrite Hr. Qed.

Lemma trigger_count_disabled streamNum n st :
  mavRates st streamNum = 0 ->
  trigger_count streamNum n st = (0, st).
Proof.
  intros Hr. induction n as [|n IH]; [done|].
  simpl. by rewrite mavlinkStreamTrigger_disabled, IH.
Qed.

(** One poll of an enabled stream: it fires exactly when the counter is
    zero, reloading it with [MAXRATE / rate]; otherwise the counter goes
    down by one. *)
Lemma mavlinkStreamTrigger_enabled streamNum st :
  let r := mavRates st streamNum in
  let f := TELEMETRY_MAVLINK_MAXRATE / r in
  0 < r <= TELEMETRY_MAVLINK_MAXRATE ->
  0 <= mavTicks st streamNum <= f ->
  mavlinkStreamTrigger streamNum st
  = (bool_decide (mavTicks st streamNum = 0),
     set_mavTicks
       (<[streamNum := if bool_decide (mavTicks st streamNum = 0)
                       then f else mavTicks st streamNum - 1]> (mavTicks st))
       st).
Proof.
  intros r f Hr Ht. unfold mavlinkStreamTrigger. fold r.
  unfold TELEMETRY_MAVLINK_MAXRATE in *.
  assert (Hf : 1 <= f <= 50).
  { subst f. split.
    - apply Z.div_le_lower_bound; lia.
    - apply Z.div_le_upper_bound; lia. }
  assert (Hu : uint8_t r = r) by (unfold uint8_t; apply Z.mod_small; lia).
  rewrite Hu.
  replace (r =? 0) with false by (symmetry; apply Z.eqb_neq; lia).
  replace (r >? 50) with false by (symmetry; rewrite Z.gtb_ltb; apply Z.ltb_ge; lia).
  case_bool_decide as Hz.
  - rewrite Hz. simpl. fold f.
    replace (uint8_t f) with f by (unfold uint8_t; symmetry; apply Z.mod_small; lia).
    done.
  - replace (mavTicks st streamNum =? 0) with false
      by (symmetry; by apply Z.eqb_neq).
    replace (uint8_t (mavTicks st streamNum - 1)) with (mavTicks st streamNum - 1)
      by (unfold uint8_t; symmetry; apply Z.mod_small; lia).
    done.
Qed.

(** Polled once per tick, an enabled stream whose counter is [c] fires on
    tick [c] and then every [MAXRATE / rate + 1] ticks. *)
Lemma trigger_count_enabled streamNum (n : nat) : forall st,
  let r := mavRates st streamNum in
  let f := TELEMETRY_MAVLINK_MAXRATE / r in
  0 < r <= TELEMETRY_MAVLINK_MAXRATE ->
  0 <= mavTicks st streamNum <= f ->
  (trigger_count streamNum n st).1
  = (Z.of_nat n + f - mavTicks st streamNum) / (f + 1).
Proof.
  induction n as [|n IH]; intros st r f Hr Ht.
  - simpl. symmetry. apply Z.div_small. lia.
  - cbn [trigger_count].
    rewrite mavlinkStreamTrigger_enabled by done. fold r f.
    set (st1 := set_mavTicks _ st).
    specialize (IH st1).
    assert (Hr1 : mavRates st1 streamNum = r) by done.
    assert (Ht1 : mavTicks st1 streamNum
                  = if bool_decide (mavTicks st streamNum = 0)
                    then f else mavTicks st streamNum - 1).
    { subst st1. simpl_state. by rewrite fn_lookup_insert. }
    cbn zeta in IH. rewrite Hr1, Ht1 in IH. fold f in IH.
    destruct (trigger_count streamNum n st1) as [k st2]. cbn [fst] in *.
    case_bool_decide as Hz.
    + rewrite IH by lia. rewrite Hz.
      replace (Z.of_nat (S n) + f - 0) with (1 * (f + 1) + Z.of_nat n) by lia.
      rewrite Z.div_add_l by lia.
      f_equal. f_equal. lia.
    + rewrite IH by lia. rewrite Z.add_0_l. f_equal. lia.
Qed.

(** C7 (amended): a stream with configured rate 0 never triggers.  For a
    configured rate r with 0 < r <= max_rate and f = floor(max_rate / r),
    polling the trigger once per tick from a zero counter fires at least
    floor(n / (f+1)) and at most ceil(n / f) times in the first n ticks, so
    that over a long run the trigger rate lies between max_rate / (f+1)
    and max_rate / f per second; this is quantised to whole tick periods
    and is in general not within one of r. *)
Theorem stream_trigger_rate_bounds streamNum (n : nat) st :
  let r := mavRates st streamNum in
  let f := TELEMETRY_MAVLINK_MAXRATE / r in
  let fired := (trigger_count streamNum n st).1 in
  (r = 0 -> fired = 0)
  /\ (0 < r <= TELEMETRY_MAVLINK_MAXRATE ->
      mavTicks st streamNum = 0 ->
      Z.of_nat n / (f + 1) <= fired <= (Z.of_nat n + f - 1) / f).
Proof.
  intros r f fired. split.
  - intros Hr. subst fired. by rewrite trigger_count_disabled.
  - intros Hr Ht. subst fired.
    assert (Hf : 1 <= f).
    { subst f. unfold TELEMETRY_MAVLINK_MAXRATE in *.
      apply Z.div_le_lower_bound; lia. }
    rewrite trigger_count_enabled by (fold r f; lia). fold r f. rewrite Ht.
    rewrite Z.sub_0_r.
    split.
    + apply Z.div_le_mono; lia.
    + apply Z.div_le_lower_bound; [lia|].
      pose proof (Z.mul_div_le (Z.of_nat n + f) (f + 1) ltac:(lia)) as Hq.
      assert (Hq0 : 0 <= (Z.of_nat n + f) / (f + 1))
        by (apply Z.div_pos; lia).
      destruct (decide ((Z.of_nat n + f) / (f + 1) = 0)) as [->|Hne]; nia.
Qed.

(** ** Inbound decoder *)

(** No handler touches the receive side of the port or the parser. *)
Lemma switch_msgid_receive_side armed mavRecvMsg st r :
  switch_msgid armed mavRecvMsg st = Some r ->
  serialRx r.2 = serialRx st /\ mavRecvStatus r.2 = mavRecvStatus st.
Proof.
  unfold switch_msgid, handleIncoming_MISSION_CLEAR_ALL,
    handleIncoming_MISSION_COUNT, handleIncoming_MISSION_ITEM,
    handleIncoming_MISSION_REQUEST_LIST, handleIncoming_MISSION_REQUEST,
    setWaypoint.
  intros Hr.
  repeat (case_match; simplify_eq); cbn [snd]; simpl_state;
    repeat (case_match; simpl_state); done.
Qed.

Lemma switch_msgid_heartbeat armed mavRecvMsg st :
  switch_msgid armed mavRecvMsg st = None <-> is_heartbeat mavRecvMsg.
Proof.
  unfold switch_msgid, is_heartbeat. split; intros H; by case_match.
Qed.

(** A heartbeat frame does not end the read loop: the loop goes on with
    the bytes that follow it. *)
Lemma loop_continues_after_heartbeat armed c waiting mavRecvMsg status st :
  mavlink_parse_char c (mavRecvStatus st) = (Some mavRecvMsg, status) ->
  is_heartbeat mavRecvMsg ->
  processMAVLinkIncomingTelemetry_loop armed (c :: waiting) st
  = processMAVLinkIncomingTelemetry_loop armed waiting
      (set_mavRecvStatus status (set_serialRx waiting st)).
Proof.
  intros Hparse Hhb. cbn [processMAVLinkIncomingTelemetry_loop]. cbn zeta.
  change (mavRecvStatus (set_serialRx waiting st)) with (mavRecvStatus st).
  rewrite Hparse.
  by rewrite (proj2 (switch_msgid_heartbeat armed mavRecvMsg _) Hhb).
Qed.

Lemma processMAVLinkIncomingTelemetry_loop_spec armed waiting : forall st,
  serialRx st = waiting ->
  let r := processMAVLinkIncomingTelemetry_loop armed waiting st in
  exists consumed,
    waiting = consumed ++ serialRx r.2
    /\ let run := parse_chars consumed (mavRecvStatus st) in
       (Forall is_heartbeat run.1 /\ serialRx r.2 = [] /\ r.1 = false)
       \/ (exists heartbeats m,
             run.1 = heartbeats ++ [m]
             /\ Forall is_heartbeat heartbeats
             /\ ~ is_heartbeat m
             /\ switch_msgid armed m
                  (set_mavRecvStatus run.2 (set_serialRx (serialRx r.2) st))
                = Some r).
Proof.
  induction waiting as [|c waiting IH]; intros st Hrx r.
  - exists []. split; [done|]. left. by split_and!.
  - subst r. cbn [processMAVLinkIncomingTelemetry_loop].
    set (st0 := set_serialRx waiting st).
    destruct (mavlink_parse_char c (mavRecvStatus st0)) as [result status] eqn:Hparse.
    assert (Hparse' : mavlink_parse_char c (mavRecvStatus st) = (result, status))
      by done.
    set (st1 := set_mavRecvStatus status st0).
    assert (Hcontinue :
      (result = None \/ exists m, result = Some m /\ is_heartbeat m) ->
      let r := processMAVLinkIncomingTelemetry_loop armed waiting st1 in
      exists consumed,
        c :: waiting = consumed ++ serialRx r.2
        /\ let run := parse_chars consumed (mavRecvStatus st) in
           (Forall is_heartbeat run.1 /\ serialRx r.2 = [] /\ r.1 = false)
           \/ (exists heartbeats m,
                 run.1 = heartbeats ++ [m]
                 /\ Forall is_heartbeat heartbeats
                 /\ ~ is_heartbeat m
                 /\ switch_msgid armed m
                      (set_mavRecvStatus run.2 (set_serialRx (serialRx r.2) st))
                    = Some r)).
    { intros Hres r.
      destruct (IH st1) as (consumed & Hsplit & Hrun); [done|]. fold r in Hsplit, Hrun.
      exists (c :: consumed). split; [simpl; by f_equal|].
      cbn [parse_chars]. rewrite Hparse'.
      assert (Hst1 : mavRecvStatus st1 = status) by done.
      rewrite Hst1 in Hrun. cbn zeta in Hrun.
      destruct (parse_chars consumed status) as [frames final]. cbn [fst snd] in *.
      destruct Hrun as [(Hall & Hnil & Hfalse)
                       | (hs & m & Hframes & Hall & Hm & Hswitch)].
      - left. split_and!; [|done..].
        destruct Hres as [-> | (m & -> & Hm)]; [done|]. by constructor.
      - right.
        destruct Hres as [-> | (m0 & -> & Hm0)].
        + exists hs, m. by split_and!.
        + exists (m0 :: hs), m. split_and!; [by rewrite Hframes|by constructor|done..]. }
    destruct result as [m|]; [|apply Hcontinue; by left].
    destruct (switch_msgid armed m st1) as [r|] eqn:Hswitch.
    + destruct (switch_msgid_receive_side _ _ _ _ Hswitch) as [Hrx' _].
      assert (Hrest : serialRx r.2 = waiting) by (by rewrite Hrx').
      exists [c]. split; [simpl; by rewrite Hrest|].
      cbn [parse_chars]. rewrite Hparse'. cbn [fst snd].
      right. exists [], m. split_and!; [done|done| |].
      * intros Hhb. apply (switch_msgid_heartbeat armed m st1) in Hhb. congruence.
      * by rewrite Hrest.
    + apply Hcontinue. right. exists m. split; [done|].
      by apply (switch_msgid_heartbeat armed m st1).
Qed.

(** C6 (amended): for every input byte stream, a single call of the
    inbound decoder reads on until a byte completes a frame that is not a
    heartbeat, or the input is used up; the frames decoded by the call are
    therefore heartbeats followed by at most one other frame, which is the
    only one dispatched and ends the read loop.  If that frame has a
    message id without a case in the dispatch, the call reports
    not-handled; a heartbeat frame is skipped and is never what makes a
    call report handled: a call in which only heartbeats were decoded
    reports not-handled. *)
Theorem decoder_stops_at_first_non_heartbeat armed st :
  let r := processMAVLinkIncomingTelemetry armed st in
  exists consumed,
    serialRx st = consumed ++ serialRx r.2
    /\ let run := parse_chars consumed (mavRecvStatus st) in
       (Forall is_heartbeat run.1 /\ serialRx r.2 = [] /\ r.1 = false)
       \/ (exists heartbeats m,
             run.1 = heartbeats ++ [m]
             /\ Forall is_heartbeat heartbeats
             /\ ~ is_heartbeat m
             /\ switch_msgid armed m
                  (set_mavRecvStatus run.2 (set_serialRx (serialRx r.2) st))
                = Some r
             /\ (forall msgid,
                   payload m = MAVLINK_MSG_ID_unhandled msgid -> r.1 = false)).
Proof.
  intros r.
  destruct (processMAVLinkIncomingTelemetry_loop_spec armed (serialRx st) st eq_refl)
    as (consumed & Hsplit & Hrun).
  fold (processMAVLinkIncomingTelemetry armed st) in Hsplit, Hrun.
  fold r in Hsplit, Hrun.
  exists consumed. split; [done|].
  destruct Hrun as [?|(hs & m & ? & ? & ? & Hswitch)]; [by left|].
  right. exists hs, m. split_and!; [done..|].
  intros msgid Hpay. unfold switch_msgid in Hswitch. rewrite Hpay in Hswitch.
  injection Hswitch as Hr. by rewrite <- Hr.
Qed.

(** ** Orchestrator *)

(** C9: in every orchestrator cycle in which the inbound decoder reports
    that it handled a message, the scheduled batch is not run, whether or
    not the minimum inter-send interval has elapsed: the cycle ends in the
    state the decoder left, with only the served flag and, if the interval
    has elapsed, the time stamp updated; nothing beyond the decoder's reply
    is written to the port and no stream counter moves. *)
Theorem inbound_handled_skips_scheduled_batch armed sensors_GPS currentTimeUs st :
  mavlinkTelemetryEnabled st = true ->
  mavlinkPort st = true ->
  (processMAVLinkIncomingTelemetry armed st).1 = true ->
  let decoded := (processMAVLinkIncomingTelemetry armed st).2 in
  let st' := handleMAVLinkTelemetry armed sensors_GPS currentTimeUs st in
  st' = (if uint32_t (currentTimeUs - lastMavlinkMessage decoded)
            >=? TELEMETRY_MAVLINK_DELAY
         then set_incomingRequestServed false
                (set_lastMavlinkMessage currentTimeUs decoded)
         else set_incomingRequestServed true decoded)
  /\ serialTx st' = serialTx decoded
  /\ mavTicks st' = mavTicks decoded.
Proof.
  intros Hen Hport Hserved decoded st'.
  assert (Hst' : st' = (if uint32_t (currentTimeUs - lastMavlinkMessage decoded)
                           >=? TELEMETRY_MAVLINK_DELAY
                        then set_incomingRequestServed false
                               (set_lastMavlinkMessage currentTimeUs decoded)
                        else set_incomingRequestServed true decoded)).
  { subst st' decoded. unfold handleMAVLinkTelemetry.
    rewrite Hen, Hport. cbn [negb].
    destruct (processMAVLinkIncomingTelemetry armed st) as [served st1].
    cbn [fst snd] in *. subst served. simpl_state.
    by case_match. }
  split; [done|]. rewrite Hst'. by case_match.
Qed.

End Scheduling.

(** * The statements on the test platform *)

Section Examples.
Import TestPlatform.

Lemma item_valid_waypoint_item seq : item_valid (waypoint_item seq).
Proof. split; [reflexivity|]. split; [split; [discriminate|by left]|by left]. Defined.

Lemma item_valid_rtl_item_mission seq : item_valid (rtl_item seq 2).
Proof.
  split; [reflexivity|].
  split; [split; [discriminate|by right]|right; by split].
Defined.

Lemma three_items_in_sequence (i : nat) it :
  three_items !! i = Some it -> item_valid it.2 /\ item_seq it.2 = Z.of_nat i.
Proof.
  destruct i as [|[|[|i]]]; intros Hit; [..|discriminate Hit];
    injection Hit as <-; (split; [|reflexivity]).
  - apply item_valid_waypoint_item.
  - apply item_valid_waypoint_item.
  - apply item_valid_rtl_item_mission.
Defined.

Lemma upload_in_sequence_completes_witness :
  let announced :=
    (handleIncoming_MISSION_COUNT false
       (gcs (MAVLINK_MSG_ID_MISSION_COUNT (count_of 3))) (count_of 3) boot).2 in
  let st' := upload_items three_items announced in
  Z.of_nat (length (waypointList st')) = 3
  /\ (exists wp, list.last (waypointList st') = Some wp
                 /\ flag wp = NAV_WP_FLAG_LAST)
  /\ serialTx st'
     = [mavlink_msg_mission_request_pack 1 250 255 190 0;
        mavlink_msg_mission_request_pack 1 250 255 190 1;
        mavlink_msg_mission_request_pack 1 250 255 190 2;
        mavlink_msg_mission_ack_pack 1 250 255 190 MAV_MISSION_ACCEPTED]
  /\ session_complete st'
  /\ incomingMissionWpSequence st' = 3 /\ incomingMissionWpCount st' = 3.
Proof.
  intros announced st'.
  destruct (upload_in_sequence_completes 3 false
              (gcs (MAVLINK_MSG_ID_MISSION_COUNT (count_of 3))) (count_of 3)
              three_items boot)
    as (Hlen & Hlast & Hline & _ & Hcomplete & Hseq & Hcount).
  - split; [reflexivity|discriminate].
  - reflexivity.
  - reflexivity.
  - reflexivity.
  - exact three_items_in_sequence.
  - split_and!; [exact Hlen|exact Hlast| |exact Hcomplete|exact Hseq|exact Hcount].
    etrans; [exact Hline|reflexivity].
Defined.

Lemma clear_all_empties_list_keeps_counters_witness :
  let r := handleIncoming_MISSION_CLEAR_ALL
             (gcs (MAVLINK_MSG_ID_MISSION_CLEAR_ALL clear_all)) clear_all
             awaiting_1 in
  r = (true,
       mavlinkSendMessage
         (mavlink_msg_mission_ack_pack 1 250 255 190
            MAV_MISSION_ACCEPTED)
         (resetWaypointList awaiting_1))
  /\ waypointList r.2 = []
  /\ serialTx r.2
     = serialTx awaiting_1
       ++ [mavlink_msg_mission_ack_pack 1 250 255 190
             MAV_MISSION_ACCEPTED]
  /\ incomingMissionWpCount r.2 = incomingMissionWpCount awaiting_1
  /\ incomingMissionWpSequence r.2 = incomingMissionWpSequence awaiting_1.
Proof.
  apply (clear_all_empties_list_keeps_counters
           (gcs (MAVLINK_MSG_ID_MISSION_CLEAR_ALL clear_all)) clear_all awaiting_1).
  reflexivity.
Defined.

(** C2, as stated, fails: after [Count(3)] and one item the counters are
    (3, 1), and they still are after a list-clear. *)
Lemma clear_all_counters_counterexample :
  let r := handleIncoming_MISSION_CLEAR_ALL
             (gcs (MAVLINK_MSG_ID_MISSION_CLEAR_ALL clear_all)) clear_all
             awaiting_1 in
  r.1 = true
  /\ ~ (incomingMissionWpCount r.2 = 0 /\ incomingMissionWpSequence r.2 = 0).
Proof.
  split; [reflexivity|]. intros [Hcount _]. vm_compute in Hcount. discriminate.
Qed.

Lemma session_counters_invariant_witness :
  let frames :=
    [(false, gcs (MAVLINK_MSG_ID_MISSION_COUNT (count_of 3)));
     (false, gcs (MAVLINK_MSG_ID_MISSION_ITEM (waypoint_item 0)));
     (true, gcs (MAVLINK_MSG_ID_MISSION_CLEAR_ALL clear_all))] in
  let st := handle_frames frames boot in
  (0 <= incomingMissionWpSequence st <= uint16_max + 1
   /\ 0 <= incomingMissionWpCount st <= NAV_MAX_WAYPOINTS)
  /\ (session_in_progress st -> session_counters_ordered st).
Proof.
  intros frames st.
  destruct (session_counters_invariant frames boot) as (Hbounds & Hordered & _).
  - discriminate.
  - reflexivity.
  - reflexivity.
  - repeat constructor; discriminate.
  - split; [exact Hbounds|exact Hordered].
Defined.

(** C3, as stated, fails: an item with sequence number 0 received before
    any count announcement is accepted and leaves wpSequence = 1 above
    wpCount = 0, which is neither ordered nor zero. *)
Lemma session_counters_counterexample :
  let st := handle_frames
              [(false, gcs (MAVLINK_MSG_ID_MISSION_ITEM (waypoint_item 0)))]
              boot in
  incomingMissionWpSequence st = 1 /\ incomingMissionWpCount st = 0
  /\ ~ (session_counters_ordered st
        \/ (incomingMissionWpSequence st = 0 /\ incomingMissionWpCount st = 0)).
Proof.
  split; [reflexivity|]. split; [reflexivity|].
  intros [(_ & Hle & _) | (Hzero & _)].
  - vm_compute in Hle. by apply Hle.
  - vm_compute in Hzero. discriminate.
Qed.

Lemma item_unsupported_frame_iff_witness :
  handleIncoming_MISSION_ITEM false
    (gcs (MAVLINK_MSG_ID_MISSION_ITEM (rtl_item 0 1))) (rtl_item 0 1) boot
  = (true,
     mavlinkSendMessage
       (mavlink_msg_mission_ack_pack mavSystemId mavComponentId
          (sysid (gcs (MAVLINK_MSG_ID_MISSION_ITEM (rtl_item 0 1))))
          (compid (gcs (MAVLINK_MSG_ID_MISSION_ITEM (rtl_item 0 1))))
          MAV_MISSION_UNSUPPORTED_FRAME) boot)
  <-> ~ item_frame_accepted (rtl_item 0 1).
Proof.
  apply (item_unsupported_frame_iff
           (gcs (MAVLINK_MSG_ID_MISSION_ITEM (rtl_item 0 1))) (rtl_item 0 1) boot).
  - reflexivity.
  - split; [discriminate|by right].
Defined.

(** C4, as stated, fails: a RETURN_TO_LAUNCH item in the global
    relative-altitude frame has a frame the specification calls invalid
    for its command, yet it is accepted and stored. *)
Lemma rtl_relative_alt_counterexample :
  let msg := rtl_item 0 3 in
  let mavRecvMsg := gcs (MAVLINK_MSG_ID_MISSION_ITEM msg) in
  item_target_system msg = mavSystemId
  /\ item_supported msg
  /\ ~ item_frame_valid_spec msg
  /\ handleIncoming_MISSION_ITEM false mavRecvMsg msg boot
     = (true, item_accepted mavRecvMsg msg boot)
  /\ ~ (handleIncoming_MISSION_ITEM false mavRecvMsg msg boot
        = (true,
           mavlinkSendMessage
             (mavlink_msg_mission_ack_pack 1 250 255 190
                MAV_MISSION_UNSUPPORTED_FRAME) boot)
        <-> ~ item_frame_valid_spec msg).
Proof.
  intros msg mavRecvMsg.
  assert (Hspec : ~ item_frame_valid_spec msg).
  { intros [_ Hrtl]. specialize (Hrtl eq_refl). discriminate. }
  split; [reflexivity|]. split; [split; [discriminate|by right]|].
  split; [exact Hspec|]. split; [reflexivity|].
  intros [_ Hiff]. specialize (Hiff Hspec).
  apply (f_equal (fun r => incomingMissionWpSequence r.2)) in Hiff.
  vm_compute in Hiff. discriminate.
Qed.

Lemma armed_item_rejected_clear_not_gated_witness :
  let itemRecvMsg := gcs (MAVLINK_MSG_ID_MISSION_ITEM (waypoint_item 1)) in
  let clearRecvMsg := gcs (MAVLINK_MSG_ID_MISSION_CLEAR_ALL clear_all) in
  (let r := handleIncoming_MISSION_ITEM true itemRecvMsg (waypoint_item 1)
              awaiting_1 in
   r = (true,
        mavlinkSendMessage
          (mavlink_msg_mission_ack_pack 1 250 255 190 MAV_MISSION_ERROR)
          awaiting_1)
   /\ waypointList r.2 = waypointList awaiting_1)
  /\ (exists st',
        switch_msgid true clearRecvMsg awaiting_1 = Some (true, st')
        /\ serialTx st'
           = serialTx awaiting_1
             ++ [mavlink_msg_mission_ack_pack 1 250 255 190
                   MAV_MISSION_ACCEPTED]).
Proof.
  apply (armed_item_rejected_clear_not_gated
           (gcs (MAVLINK_MSG_ID_MISSION_ITEM (waypoint_item 1))) (waypoint_item 1)
           (gcs (MAVLINK_MSG_ID_MISSION_CLEAR_ALL clear_all)) clear_all
           true awaiting_1).
  - reflexivity.
  - reflexivity.
  - reflexivity.
Defined.

(** C5, as stated, fails for the list-clear: received while armed with
    one waypoint stored, it is answered with ACCEPTED, not ERROR. *)
Lemma armed_clear_all_counterexample :
  let mavRecvMsg := gcs (MAVLINK_MSG_ID_MISSION_CLEAR_ALL clear_all) in
  let st' := handle_frame true mavRecvMsg one_waypoint in
  serialTx st'
  = serialTx one_waypoint
    ++ [mavlink_msg_mission_ack_pack 1 250 255 190 MAV_MISSION_ACCEPTED]
  /\ ~ (serialTx st'
        = serialTx one_waypoint
          ++ [mavlink_msg_mission_ack_pack 1 250 255 190 MAV_MISSION_ERROR]
        /\ waypointList st' = waypointList one_waypoint).
Proof.
  split; [reflexivity|]. intros [Htx _]. vm_compute in Htx. discriminate.
Qed.

(** C6, as stated, fails twice.  With a heartbeat frame followed by a
    list-clear frame waiting in the port, one call reads both frames; and
    with a heartbeat frame alone, the call reports not-handled. *)
Lemma decoder_heartbeat_counterexample :
  (let st := set_serialRx [x00; x01; x2d; x01] boot in
   let r := processMAVLinkIncomingTelemetry false st in
   serialRx r.2 = []
   /\ (parse_chars (serialRx st) (mavRecvStatus st)).1
      = [frame_of x00 x01; frame_of x2d x01]
   /\ ~ (length (parse_chars (serialRx st) (mavRecvStatus st)).1 <= 1)%nat)
  /\ (let st := set_serialRx [x00; x01] boot in
      let r := processMAVLinkIncomingTelemetry false st in
      (parse_chars (serialRx st) (mavRecvStatus st)).1 = [frame_of x00 x01]
      /\ is_heartbeat (frame_of x00 x01)
      /\ serialRx r.2 = []
      /\ ~ r.1 = true).
Proof.
  split.
  - split; [reflexivity|]. split; [reflexivity|]. vm_compute. lia.
  - split; [reflexivity|]. split; [reflexivity|]. split; [reflexivity|].
    vm_compute. discriminate.
Qed.

Lemma stream_trigger_rate_bounds_witness :
  (300 / (5 + 1)
   <= (trigger_count MAV_DATA_STREAM_EXTRA1 300 boot).1
   <= (300 + 5 - 1) / 5)
  /\ (trigger_count MAV_DATA_STREAM_EXTRA1 300 (boot_with (fun _ => 0))).1 = 0.
Proof.
  split.
  - apply (proj2 (stream_trigger_rate_bounds MAV_DATA_STREAM_EXTRA1 300 boot)).
    + split; [reflexivity|discriminate].
    + reflexivity.
  - apply (proj1 (stream_trigger_rate_bounds MAV_DATA_STREAM_EXTRA1 300
                    (boot_with (fun _ => 0)))).
    reflexivity.
Defined.

(** C7, as stated, fails: at a configured rate of 30 the stream fires on
    every second tick, 25 times per second, in every run; no whole number
    of ticks per period gives a rate within one of 30. *)
Lemma rate_30_counterexample :
  ~ converges_to_rate MAV_DATA_STREAM_EXTRA1 30 (boot_with (fun _ => 30)).
Proof.
  intros [K Hrate]. specialize (Hrate (S K) ltac:(lia)).
  rewrite (trigger_count_enabled MAV_DATA_STREAM_EXTRA1) in Hrate
    by (split; (reflexivity || discriminate)).
  change (mavRates (boot_with (fun _ => 30)) MAV_DATA_STREAM_EXTRA1) with 30 in Hrate.
  change (mavTicks (boot_with (fun _ => 30)) MAV_DATA_STREAM_EXTRA1) with 0 in Hrate.
  change (TELEMETRY_MAVLINK_MAXRATE / 30) with 1 in Hrate.
  change (Z.to_nat TELEMETRY_MAVLINK_MAXRATE) with 50%nat in Hrate.
  replace (Z.of_nat (50 * S K) + 1 - 0) with (1 + (25 * Z.of_nat (S K)) * (1 + 1))
    in Hrate by lia.
  rewrite Z.div_add in Hrate by lia.
  change (1 / (1 + 1)) with 0 in Hrate. lia.
Qed.

Lemma wrong_sequence_rejected_retry_accepted_witness :
  let wrongRecvMsg := gcs (MAVLINK_MSG_ID_MISSION_ITEM (waypoint_item 2)) in
  let mavRecvMsg := gcs (MAVLINK_MSG_ID_MISSION_ITEM (waypoint_item 1)) in
  let r1 := handleIncoming_MISSION_ITEM false wrongRecvMsg (waypoint_item 2)
              awaiting_1 in
  let r2 := handleIncoming_MISSION_ITEM false mavRecvMsg (waypoint_item 1) r1.2 in
  r1 = (true,
        mavlinkSendMessage
          (mavlink_msg_mission_ack_pack 1 250 255 190
             MAV_MISSION_INVALID_SEQUENCE) awaiting_1)
  /\ r2 = (true, item_accepted mavRecvMsg (waypoint_item 1) r1.2)
  /\ incomingMissionWpSequence r2.2 = incomingMissionWpSequence awaiting_1 + 1
  /\ serialTx r2.2
     = serialTx awaiting_1
       ++ [mavlink_msg_mission_ack_pack 1 250 255 190
             MAV_MISSION_INVALID_SEQUENCE;
           mavlink_msg_mission_request_pack 1 250 255 190 2].
Proof.
  intros wrongRecvMsg mavRecvMsg r1 r2.
  destruct (wrong_sequence_rejected_retry_accepted wrongRecvMsg (waypoint_item 2)
              mavRecvMsg (waypoint_item 1) awaiting_1)
    as (H1 & _ & H2 & H3 & _ & _ & reply & _ & Hline & Hreply).
  - reflexivity.
  - apply item_valid_waypoint_item.
  - discriminate.
  - apply item_valid_waypoint_item.
  - reflexivity.
  - split; [exact H1|]. split; [exact H2|]. split; [exact H3|].
    etrans; [exact Hline|]. f_equal. f_equal. f_equal.
    etrans; [exact Hreply|reflexivity].
Defined.

Lemma inbound_handled_skips_scheduled_batch_witness :
  let st := set_serialRx [x2d; x01] boot in
  let decoded := (processMAVLinkIncomingTelemetry false st).2 in
  let st' := handleMAVLinkTelemetry false true 20000 st in
  (processMAVLinkIncomingTelemetry false st).1 = true
  /\ (uint32_t (20000 - lastMavlinkMessage decoded)
      >=? TELEMETRY_MAVLINK_DELAY) = true
  /\ serialTx st' = serialTx decoded
  /\ mavTicks st' = mavTicks decoded.
Proof.
  intros st decoded st'.
  destruct (inbound_handled_skips_scheduled_batch false true 20000 st)
    as (_ & Htx & Hticks).
  - reflexivity.
  - reflexivity.
  - reflexivity.
  - split; [reflexivity|]. split; [reflexivity|].
    split; [exact Htx|exact Hticks].
Defined.

Lemma item_without_announcement_accepted_witness :
  let mavRecvMsg := gcs (MAVLINK_MSG_ID_MISSION_ITEM (waypoint_item 0)) in
  let r := handleIncoming_MISSION_ITEM false mavRecvMsg (waypoint_item 0) boot in
  exists wp,
    r.1 = true
    /\ waypointList r.2 = [wp]
    /\ flag wp = NAV_WP_FLAG_LAST
    /\ (action wp = if item_command (waypoint_item 0)
                       =? MAV_CMD_NAV_RETURN_TO_LAUNCH
                    then NAV_WP_ACTION_RTH else NAV_WP_ACTION_WAYPOINT)
    /\ serialTx r.2
       = [mavlink_msg_mission_ack_pack 1 250 255 190 MAV_MISSION_ACCEPTED]
    /\ incomingMissionWpSequence r.2 = 1
    /\ incomingMissionWpCount r.2 = 0.
Proof.
  intros mavRecvMsg r.
  destruct (item_without_announcement_accepted mavRecvMsg (waypoint_item 0)
              boot)
    as (wp & Hhandled & Hlist & Hflag & Haction & Hline & Hseq & Hcount).
  - discriminate.
  - reflexivity.
  - reflexivity.
  - apply item_valid_waypoint_item.
  - reflexivity.
  - exists wp.
    split_and!; [exact Hhandled|exact Hlist|exact Hflag|exact Haction|
                 |exact Hseq|exact Hcount].
    etrans; [exact Hline|].
    assert (Hvalid : waypointListValid [wp] = true)
      by (cbn; rewrite Hflag; reflexivity).
    rewrite Hvalid. reflexivity.
Defined.

(** ** Scenarios *)

(** Count(3), item 0, item 2 out of order, item 1, item 2: the replies on
    the line and the counters at the end. *)
Example scenario_upload_with_retry :
  let st := handle_frames
    [(false, gcs (MAVLINK_MSG_ID_MISSION_COUNT (count_of 3)));
     (false, gcs (MAVLINK_MSG_ID_MISSION_ITEM (waypoint_item 0)));
     (false, gcs (MAVLINK_MSG_ID_MISSION_ITEM (waypoint_item 2)));
     (false, gcs (MAVLINK_MSG_ID_MISSION_ITEM (waypoint_item 1)));
     (false, gcs (MAVLINK_MSG_ID_MISSION_ITEM (waypoint_item 2)))] boot in
  serialTx st
  = [mavlink_msg_mission_request_pack 1 250 255 190 0;
     mavlink_msg_mission_request_pack 1 250 255 190 1;
     mavlink_msg_mission_ack_pack 1 250 255 190 MAV_MISSION_INVALID_SEQUENCE;
     mavlink_msg_mission_request_pack 1 250 255 190 2;
     mavlink_msg_mission_ack_pack 1 250 255 190 MAV_MISSION_ACCEPTED]
  /\ incomingMissionWpCount st = 3
  /\ incomingMissionWpSequence st = 3
  /\ length (waypointList st) = 3%nat.
Proof. by vm_compute. Qed.

(** Count(61) while armed: ERROR ack, counters untouched. *)
Example scenario_count_too_large_armed :
  let st := handle_frames
    [(true, gcs (MAVLINK_MSG_ID_MISSION_COUNT (count_of 61)))] awaiting_1 in
  serialTx st
  = serialTx awaiting_1
    ++ [mavlink_msg_mission_ack_pack 1 250 255 190 MAV_MISSION_ERROR]
  /\ incomingMissionWpCount st = 3
  /\ incomingMissionWpSequence st = 1.
Proof. by vm_compute. Qed.

(** A cycle with nothing to read and the interval elapsed runs the
    scheduled batch: from zeroed counters all six streams fire. *)
Example scenario_idle_cycle_runs_batch :
  let st := handleMAVLinkTelemetry false true 20000 boot in
  serialTx st
  = [mavlinkSendSystemStatus; mavlinkSendRCChannelsAndRSSI;
     mavlinkSendPosition 20000; mavlinkSendAttitude;
     mavlinkSendHUDAndHeartbeat; mavlinkSendBatteryTemperatureStatusText]
  /\ mavTicks st MAV_DATA_STREAM_EXTRA1 = 5
  /\ lastMavlinkMessage st = 20000.
Proof. by vm_compute. Qed.

(** The stream commented "10Hz" in the initialiser of [mavRates] fires
    50 times in 300 ticks, that is in six seconds. *)
Example scenario_rate_10 :
  (trigger_count MAV_DATA_STREAM_EXTRA1 300 boot).1 = 50.
Proof. by vm_compute. Qed.

End Examples.

(** * Further properties of the mission handlers and the decoder *)

Section MissionDispatch.
Context `{P : Platform}.

(** Case analysis on a condition that contains no other condition. *)
Ltac case_inner :=
  match goal with
  | |- context [if ?c then _ else _] =>
      lazymatch c with
      | context [if _ then _ else _] => fail
      | _ => destruct c eqn:?
      end
  end.

Ltac unfold_handlers :=
  unfold switch_msgid, handleIncoming_MISSION_CLEAR_ALL,
    handleIncoming_MISSION_COUNT, handleIncoming_MISSION_ITEM,
    handleIncoming_MISSION_REQUEST_LIST, handleIncoming_MISSION_REQUEST,
    setWaypoint in *.

(** What a dispatched frame can come to: either nothing at all, reported
    as not handled, or, for a mission message addressed to this system,
    exactly one message written to the port, reported as handled. *)
Lemma switch_msgid_outcome armed mavRecvMsg st r :
  switch_msgid armed mavRecvMsg st = Some r ->
  (r = (false, st)
   /\ msg_target_system (payload mavRecvMsg) <> Some mavSystemId)
  \/ (r.1 = true
      /\ msg_target_system (payload mavRecvMsg) = Some mavSystemId
      /\ exists reply, serialTx r.2 = serialTx st ++ [reply]).
Proof.
  unfold_handlers. intros Hr.
  destruct (payload mavRecvMsg) as [|msg|msg|msg|msg|msg|id]; simpl;
    try discriminate.
  - destruct (Z.eqb_spec (clear_target_system msg) mavSystemId) as [->|Hne];
      simplify_eq; [right|left; split; congruence].
    split_and!; [done..|]. by eexists.
  - destruct (Z.eqb_spec (count_target_system msg) mavSystemId) as [->|Hne];
      [right|simplify_eq; left; split; congruence].
    repeat case_match; simplify_eq; (split_and!; [done..|]); by eexists.
  - destruct (Z.eqb_spec (item_target_system msg) mavSystemId) as [->|Hne];
      [right|simplify_eq; left; split; congruence].
    repeat (case_match; simpl_state); simplify_eq;
      (split_and!; [done..|]); simpl_state; by eexists.
  - destruct (Z.eqb_spec (request_list_target_system msg) mavSystemId)
      as [->|Hne]; simplify_eq; [right|left; split; congruence].
    split_and!; [done..|]. by eexists.
  - destruct (Z.eqb_spec (request_target_system msg) mavSystemId) as [->|Hne];
      [right|simplify_eq; left; split; congruence].
    repeat case_match; simplify_eq; (split_and!; [done..|]); by eexists.
  - simplify_eq. left. split; [done|]. discriminate.
Qed.

(** An addressed, disarmed item that passes the support check gets one
    reply, and it is not the UNSUPPORTED ack. *)
Lemma supported_item_reply mavRecvMsg msg st :
  item_target_system msg = mavSystemId ->
  item_supported msg ->
  exists reply,
    serialTx (handleIncoming_MISSION_ITEM false mavRecvMsg msg st).2
    = serialTx st ++ [reply]
    /\ reply <> mission_ack mavRecvMsg MAV_MISSION_UNSUPPORTED.
Proof.
  intros Htgt (Hauto & Hcmd). unfold handleIncoming_MISSION_ITEM, setWaypoint.
  apply Z.eqb_eq in Htgt as ->. apply Z.eqb_neq in Hauto as ->.
  assert ((negb (item_command msg =? MAV_CMD_NAV_WAYPOINT)
           && negb (item_command msg =? MAV_CMD_NAV_RETURN_TO_LAUNCH)) = false)
    as ->.
  { destruct Hcmd as [-> | ->]; rewrite Z.eqb_refl; simpl; [done|].
    by rewrite andb_false_r. }
  cbn [orb].
  repeat (case_match; simpl_state); eexists; (split; [done|]);
    unfold mission_ack, mission_request; discriminate.
Qed.

(** X1: a mission message whose target system is not this system is
    ignored entirely, whatever its kind, its other fields, the arming flag
    and the state: the dispatch reports not-handled and nothing changes,
    no ack is sent. *)
Theorem frame_for_other_system_ignored armed mavRecvMsg st target :
  msg_target_system (payload mavRecvMsg) = Some target ->
  target <> mavSystemId ->
  switch_msgid armed mavRecvMsg st = Some (false, st).
Proof.
  intros Htgt Hne.
  destruct (switch_msgid armed mavRecvMsg st) as [r|] eqn:Hr.
  - destruct (switch_msgid_outcome _ _ _ _ Hr) as [[-> _] | (_ & Heq & _)];
      [done|]. congruence.
  - apply switch_msgid_heartbeat in Hr. unfold is_heartbeat in Hr.
    rewrite Hr in Htgt. discriminate.
Qed.

(** X2: every mission message addressed to this system is reported as
    handled and answered with exactly one message on the port, also when
    the answer is a rejection; the bytes waiting in the port and the
    parser state are not touched. *)
Theorem frame_for_this_system_handled_with_one_reply armed mavRecvMsg st :
  msg_target_system (payload mavRecvMsg) = Some mavSystemId ->
  exists st' reply,
    switch_msgid armed mavRecvMsg st = Some (true, st')
    /\ serialTx st' = serialTx st ++ [reply]
    /\ serialRx st' = serialRx st
    /\ mavRecvStatus st' = mavRecvStatus st.
Proof.
  intros Htgt.
  destruct (switch_msgid armed mavRecvMsg st) as [[handled st']|] eqn:Hr.
  - destruct (switch_msgid_outcome _ _ _ _ Hr) as [[_ Hne] | (Hh & _ & reply & Htx)];
      [done|].
    destruct (switch_msgid_receive_side _ _ _ _ Hr) as [Hrx Hstatus].
    cbn [fst snd] in *. subst handled. by exists st', reply.
  - apply switch_msgid_heartbeat in Hr. unfold is_heartbeat in Hr.
    rewrite Hr in Htgt. discriminate.
Qed.

(** X3: a count announcement never touches the stored list.  One above
    the capacity leaves the session counters as they are and is answered
    with the ERROR ack when the vehicle is armed and with the NO_SPACE ack
    otherwise; one within the capacity is treated the same armed or
    disarmed and whatever session was in progress: the counters become
    (count, 0) and item 0 is requested. *)
Theorem count_announcement_capacity armed mavRecvMsg msg st :
  count_target_system msg = mavSystemId ->
  let st' := (handleIncoming_MISSION_COUNT armed mavRecvMsg msg st).2 in
  waypointList st' = waypointList st
  /\ (NAV_MAX_WAYPOINTS < count_count msg ->
      st' = mavlinkSendMessage
              (mavlink_msg_mission_ack_pack mavSystemId mavComponentId
                 (sysid mavRecvMsg) (compid mavRecvMsg)
                 (if armed then MAV_MISSION_ERROR else MAV_MISSION_NO_SPACE)) st)
  /\ (count_count msg <= NAV_MAX_WAYPOINTS ->
      handleIncoming_MISSION_COUNT armed mavRecvMsg msg st
      = handleIncoming_MISSION_COUNT (negb armed) mavRecvMsg msg st
      /\ incomingMissionWpCount st' = count_count msg
      /\ incomingMissionWpSequence st' = 0
      /\ serialTx st'
         = serialTx st
           ++ [mavlink_msg_mission_request_pack mavSystemId mavComponentId
                 (sysid mavRecvMsg) (compid mavRecvMsg) 0]).
Proof.
  intros Htgt st'. subst st'. unfold handleIncoming_MISSION_COUNT.
  apply Z.eqb_eq in Htgt as ->.
  destruct (Z.leb_spec (count_count msg) NAV_MAX_WAYPOINTS) as [Hle|Hgt].
  - split_and!; [done|lia|]. intros _. by destruct armed.
  - split_and!; [by destruct armed| |lia]. intros _. by destruct armed.
Qed.

(** X4: an addressed, disarmed item upload is answered with the
    UNSUPPORTED ack, nothing else changing, exactly when its autocontinue
    field is 0 or its command is neither WAYPOINT nor RETURN_TO_LAUNCH;
    this check comes before the frame and the sequence checks, so neither
    the frame nor the sequence number of such an item matters. *)
Theorem item_unsupported_iff mavRecvMsg msg st :
  item_target_system msg = mavSystemId ->
  handleIncoming_MISSION_ITEM false mavRecvMsg msg st
  = (true,
     mavlinkSendMessage
       (mavlink_msg_mission_ack_pack mavSystemId mavComponentId
          (sysid mavRecvMsg) (compid mavRecvMsg) MAV_MISSION_UNSUPPORTED) st)
  <-> ~ item_supported msg.
Proof.
  intros Htgt. split.
  - intros Heq Hsup.
    destruct (supported_item_reply mavRecvMsg msg st Htgt Hsup)
      as (reply & Htx & Hreply).
    rewrite Heq in Htx. cbn [snd] in Htx.
    rewrite serialTx_mavlinkSendMessage in Htx.
    apply app_inv_head in Htx. injection Htx as Hr.
    apply Hreply. by rewrite <- Hr.
  - intros Hsup. unfold handleIncoming_MISSION_ITEM.
    apply Z.eqb_eq in Htgt as ->.
    assert (((item_autocontinue msg =? 0)
             || (negb (item_command msg =? MAV_CMD_NAV_WAYPOINT)
                 && negb (item_command msg =? MAV_CMD_NAV_RETURN_TO_LAUNCH)))
            = true) as ->; [|done].
    destruct (Z.eqb_spec (item_autocontinue msg) 0) as [|Hauto]; [done|].
    destruct (Z.eqb_spec (item_command msg) MAV_CMD_NAV_WAYPOINT) as [Hwp|];
      [exfalso; apply Hsup; split; auto|].
    destruct (Z.eqb_spec (item_command msg) MAV_CMD_NAV_RETURN_TO_LAUNCH) as [Hrtl|];
      [exfalso; apply Hsup; split; auto|].
    done.
Qed.

(** X5: the two read requests, list-request and item-request, change
    nothing but the port output, whatever the state and also in the middle
    of an upload: the session counters and the stored list are as before,
    and at most one message is written. *)
Theorem read_requests_change_only_port mavRecvMsg st :
  (forall msg,
     let st' := (handleIncoming_MISSION_REQUEST_LIST mavRecvMsg msg st).2 in
     st' = st
     \/ st' = mavlinkSendMessage
                (mavlink_msg_mission_count_pack mavSystemId mavComponentId
                   (sysid mavRecvMsg) (compid mavRecvMsg) (getWaypointCount st))
                st)
  /\ (forall msg,
        let st' := (handleIncoming_MISSION_REQUEST mavRecvMsg msg st).2 in
        st' = st \/ exists reply, st' = mavlinkSendMessage reply st).
Proof.
  split; intros msg st'; subst st';
    unfold handleIncoming_MISSION_REQUEST_LIST, handleIncoming_MISSION_REQUEST;
    repeat case_match; cbn [snd]; eauto.
Qed.

(** X6: an item-request addressed to this system for a sequence number
    below the list length is answered with a mission item that echoes the
    sequence number and whose frame, command and autocontinue pass the
    upload checks, so that the served item can be uploaded back as it is;
    a request at or beyond the list length is answered with the
    INVALID_SEQUENCE ack. *)
Theorem served_item_can_be_uploaded_back mavRecvMsg msg st :
  request_target_system msg = mavSystemId ->
  let st' := (handleIncoming_MISSION_REQUEST mavRecvMsg msg st).2 in
  (request_seq msg < getWaypointCount st ->
   exists reply item,
     st' = mavlinkSendMessage reply st
     /\ item_of_reply reply = Some item
     /\ item_seq item = request_seq msg
     /\ item_valid item)
  /\ (getWaypointCount st <= request_seq msg ->
      st' = mavlinkSendMessage
              (mavlink_msg_mission_ack_pack mavSystemId mavComponentId
                 (sysid mavRecvMsg) (compid mavRecvMsg)
                 MAV_MISSION_INVALID_SEQUENCE) st).
Proof.
  intros Htgt st'. subst st'. unfold handleIncoming_MISSION_REQUEST.
  apply Z.eqb_eq in Htgt as ->. cbn zeta.
  destruct (Z.ltb_spec (request_seq msg) (getWaypointCount st)) as [Hlt|Hge].
  - split; [|lia]. intros _. cbn [snd].
    eexists. eexists. split; [done|]. cbn [item_of_reply].
    split; [done|]. split; [done|].
    unfold item_valid, item_supported, item_frame_accepted.
    cbn [item_target_system item_autocontinue item_command item_frame].
    destruct (action _); split_and!; auto; discriminate.
  - split; [lia|]. done.
Qed.

(** ** The decoder as a run of the handlers *)

(** The handlers neither read nor write the receive side of the port and
    the parser state. *)
Lemma switch_msgid_receive_commute armed mavRecvMsg rx status st :
  switch_msgid armed mavRecvMsg (set_mavRecvStatus status (set_serialRx rx st))
  = (fun r => (r.1, set_mavRecvStatus status (set_serialRx rx r.2)))
      <$> switch_msgid armed mavRecvMsg st.
Proof.
  unfold_handlers.
  destruct (payload mavRecvMsg); cbn [fmap option_fmap option_map]; try done;
    unfold getWaypoint; simpl_state; repeat (case_inner; simpl_state); done.
Qed.

Lemma handle_frame_receive_commute armed mavRecvMsg rx status st :
  handle_frame armed mavRecvMsg (set_mavRecvStatus status (set_serialRx rx st))
  = set_mavRecvStatus status (set_serialRx rx (handle_frame armed mavRecvMsg st)).
Proof.
  unfold handle_frame. rewrite switch_msgid_receive_commute.
  by destruct (switch_msgid armed mavRecvMsg st).
Qed.

Lemma handle_frames_receive_commute frames : forall rx status st,
  handle_frames frames (set_mavRecvStatus status (set_serialRx rx st))
  = set_mavRecvStatus status (set_serialRx rx (handle_frames frames st)).
Proof.
  induction frames as [|f frames IH]; intros rx status st; [done|].
  cbn [handle_frames fold_left].
  rewrite handle_frame_receive_commute. apply IH.
Qed.

Lemma handle_frames_app frames1 frames2 st :
  handle_frames (frames1 ++ frames2) st
  = handle_frames frames2 (handle_frames frames1 st).
Proof. unfold handle_frames. apply fold_left_app. Qed.

Lemma parse_chars_app bytes1 : forall bytes2 status,
  parse_chars (bytes1 ++ bytes2) status
  = let run1 := parse_chars bytes1 status in
    let run2 := parse_chars bytes2 run1.2 in
    (run1.1 ++ run2.1, run2.2).
Proof.
  induction bytes1 as [|c bytes1 IH]; intros bytes2 status.
  - cbn. by destruct (parse_chars bytes2 status).
  - cbn [app parse_chars].
    destruct (mavlink_parse_char c status) as [result status1].
    rewrite IH. cbn zeta.
    destruct (parse_chars bytes1 status1) as [frames1 status2]. cbn [fst snd].
    destruct (parse_chars bytes2 status2) as [frames2 status3]. cbn [fst snd].
    by destruct result.
Qed.

Lemma set_receive_twice status1 rx1 status2 rx2 st :
  set_mavRecvStatus status1 (set_serialRx rx1
    (set_mavRecvStatus status2 (set_serialRx rx2 st)))
  = set_mavRecvStatus status1 (set_serialRx rx1 st).
Proof. done. Qed.

(** One call of the decoder, read as a run of the handlers over the
    frames the codec completes on the bytes the call consumes. *)
Lemma processMAVLinkIncomingTelemetry_loop_frames armed waiting : forall st,
  serialRx st = waiting ->
  let r := processMAVLinkIncomingTelemetry_loop armed waiting st in
  exists consumed,
    waiting = consumed ++ serialRx r.2
    /\ (waiting <> [] -> consumed <> [])
    /\ let run := parse_chars consumed (mavRecvStatus st) in
       let handled := handle_frames (frames_with armed run.1) st in
       r.2 = set_mavRecvStatus run.2 (set_serialRx (serialRx r.2) handled)
       /\ (if r.1 then exists reply, serialTx handled = serialTx st ++ [reply]
           else forall rx status,
                  set_mavRecvStatus status (set_serialRx rx handled)
                  = set_mavRecvStatus status (set_serialRx rx st)).
Proof.
  induction waiting as [|c waiting IH]; intros st Hrx r.
  - exists []. split; [done|]. split; [done|]. subst r. cbn.
    split; [|done]. destruct st. cbn in *. by subst.
  - subst r. cbn [processMAVLinkIncomingTelemetry_loop].
    set (st0 := set_serialRx waiting st).
    destruct (mavlink_parse_char c (mavRecvStatus st0)) as [result status] eqn:Hparse.
    assert (Hparse' : mavlink_parse_char c (mavRecvStatus st) = (result, status))
      by done.
    set (st1 := set_mavRecvStatus status st0).
    assert (Hcontinue :
      (forall m, result = Some m -> handle_frame armed m st = st) ->
      let r := processMAVLinkIncomingTelemetry_loop armed waiting st1 in
      exists consumed,
        c :: waiting = consumed ++ serialRx r.2
        /\ (c :: waiting <> [] -> consumed <> [])
        /\ let run := parse_chars consumed (mavRecvStatus st) in
           let handled := handle_frames (frames_with armed run.1) st in
           r.2 = set_mavRecvStatus run.2 (set_serialRx (serialRx r.2) handled)
           /\ (if r.1 then exists reply, serialTx handled = serialTx st ++ [reply]
               else forall rx status,
                      set_mavRecvStatus status (set_serialRx rx handled)
                      = set_mavRecvStatus status (set_serialRx rx st))).
    { intros Hskip r.
      destruct (IH st1) as (consumed & Hsplit & _ & Hrun); [done|].
      fold r in Hsplit, Hrun.
      exists (c :: consumed). split; [simpl; by f_equal|]. split; [done|].
      cbn [parse_chars]. rewrite Hparse'.
      assert (Hst1 : mavRecvStatus st1 = status) by done.
      rewrite Hst1 in Hrun. cbn zeta in Hrun.
      destruct (parse_chars consumed status) as [frames final]. cbn [fst snd] in *.
      assert (Hframes :
        handle_frames
          (frames_with armed
             match result with Some m => m :: frames | None => frames end) st
        = handle_frames (frames_with armed frames) st).
      { destruct result as [m|]; [|done].
        cbn [frames_with map handle_frames fold_left fst snd].
        by rewrite (Hskip m eq_refl). }
      rewrite Hframes.
      assert (Hst1' : handle_frames (frames_with armed frames) st1
                      = set_mavRecvStatus status
                          (set_serialRx waiting
                             (handle_frames (frames_with armed frames) st)))
        by apply handle_frames_receive_commute.
      rewrite Hst1' in Hrun. rewrite set_receive_twice in Hrun.
      destruct Hrun as [Hr2 Hflag]. split; [done|].
      destruct r.1; [done|].
      intros rx status'. specialize (Hflag rx status').
      by rewrite !set_receive_twice in Hflag. }
    destruct result as [m|]; [|by apply Hcontinue].
    pose proof (switch_msgid_receive_commute armed m waiting status st) as Hcomm.
    fold st0 st1 in Hcomm.
    destruct (switch_msgid armed m st) as [r0|] eqn:Hswitch;
      cbn [fmap option_fmap option_map] in Hcomm; rewrite Hcomm.
    + exists [c]. cbn [fst snd].
      split; [done|]. split; [done|].
      cbn [parse_chars]. rewrite Hparse'. cbn [fst snd].
      assert (Hhandled : handle_frames (frames_with armed [m]) st = r0.2).
      { cbn [frames_with map handle_frames fold_left fst snd].
        unfold handle_frame. by rewrite Hswitch. }
      cbn zeta. rewrite Hhandled. split; [done|].
      destruct (switch_msgid_outcome _ _ _ _ Hswitch) as [[-> _] | (-> & _ & Htx)];
        done.
    + apply Hcontinue. intros m' [= <-]. unfold handle_frame. by rewrite Hswitch.
Qed.

Lemma processMAVLinkIncomingTelemetry_frames armed st :
  let r := processMAVLinkIncomingTelemetry armed st in
  exists consumed,
    serialRx st = consumed ++ serialRx r.2
    /\ (serialRx st <> [] -> consumed <> [])
    /\ let run := parse_chars consumed (mavRecvStatus st) in
       let handled := handle_frames (frames_with armed run.1) st in
       r.2 = set_mavRecvStatus run.2 (set_serialRx (serialRx r.2) handled)
       /\ (if r.1 then exists reply, serialTx handled = serialTx st ++ [reply]
           else forall rx status,
                  set_mavRecvStatus status (set_serialRx rx handled)
                  = set_mavRecvStatus status (set_serialRx rx st)).
Proof.
  by apply (processMAVLinkIncomingTelemetry_loop_frames armed (serialRx st) st).
Qed.

(** X7: a call of the inbound decoder reports handled exactly when it
    wrote a reply: if it returns true, exactly one message was written to
    the port during the call; if it returns false, nothing was written and
    the session counters and the stored list are as before (only bytes
    were consumed and the parser advanced). *)
Theorem decoder_reports_handled_iff_replied armed st :
  let r := processMAVLinkIncomingTelemetry armed st in
  (r.1 = true -> exists reply, serialTx r.2 = serialTx st ++ [reply])
  /\ (r.1 = false ->
      serialTx r.2 = serialTx st
      /\ incomingMissionWpCount r.2 = incomingMissionWpCount st
      /\ incomingMissionWpSequence r.2 = incomingMissionWpSequence st
      /\ waypointList r.2 = waypointList st).
Proof.
  intros r.
  destruct (processMAVLinkIncomingTelemetry_frames armed st)
    as (consumed & _ & _ & Hr2 & Hflag).
  fold r in Hr2, Hflag. cbn zeta in Hr2, Hflag.
  split; intros Hr; rewrite Hr in Hflag.
  - destruct Hflag as [reply Htx]. exists reply. by rewrite Hr2.
  - rewrite Hflag in Hr2. by rewrite Hr2.
Qed.

(** X8: calling the decoder once per byte that was waiting (further calls
    change nothing) empties the port and has dispatched every frame of the
    byte stream, each exactly once and in the order of arrival: the state
    is the one the handlers leave when run over the frames the codec finds
    in the whole stream, heartbeats changing nothing. *)
Theorem decoder_calls_dispatch_every_frame armed st :
  let run := parse_chars (serialRx st) (mavRecvStatus st) in
  decoder_calls armed (length (serialRx st)) st
  = set_mavRecvStatus run.2
      (set_serialRx [] (handle_frames (frames_with armed run.1) st)).
Proof.
  cbn zeta.
  assert (Hgen : forall n st, (length (serialRx st) <= n)%nat ->
    decoder_calls armed n st
    = set_mavRecvStatus (parse_chars (serialRx st) (mavRecvStatus st)).2
        (set_serialRx []
           (handle_frames
              (frames_with armed (parse_chars (serialRx st) (mavRecvStatus st)).1)
              st))); [|by apply Hgen].
  clear st. induction n as [|n IH]; intros st Hlen.
  - destruct st as [? ? rx ? ? ? ? ? ? ? ? ?]. cbn in Hlen.
    destruct rx; [done|cbn in Hlen; lia].
  - cbn [decoder_calls].
    destruct (processMAVLinkIncomingTelemetry_frames armed st)
      as (consumed & Hsplit & Hprogress & Hr2 & _).
    cbn zeta in Hr2.
    remember (processMAVLinkIncomingTelemetry armed st) as r eqn:Hr. clear Hr.
    assert (Hstatus : mavRecvStatus r.2
                      = (parse_chars consumed (mavRecvStatus st)).2)
      by (by rewrite Hr2).
    rewrite IH.
    2:{ destruct (serialRx st) as [|c rx] eqn:Hrx.
        - destruct consumed; [|done]. cbn in Hsplit. rewrite <- Hsplit. cbn. lia.
        - assert (consumed <> []) by (by apply Hprogress).
          apply (f_equal length) in Hsplit. rewrite length_app in Hsplit.
          cbn in Hsplit, Hlen. destruct consumed; [done|]. cbn in Hsplit. lia. }
    pose proof (parse_chars_app consumed (serialRx r.2) (mavRecvStatus st))
      as Happ.
    rewrite <- Hsplit in Happ. rewrite Happ. cbn zeta. cbn [fst snd].
    rewrite Hstatus.
    remember (serialRx r.2) as rest eqn:Hrest. clear Hrest.
    destruct (parse_chars consumed (mavRecvStatus st)) as [frames1 status1].
    cbn [fst snd] in *.
    destruct (parse_chars rest status1) as [frames2 status2]. cbn [fst snd].
    unfold frames_with. rewrite map_app, handle_frames_app.
    rewrite Hr2, handle_frames_receive_commute.
    by rewrite set_receive_twice.
Qed.

End MissionDispatch.

(** * Further properties of the scheduler and the orchestrator *)

Section Pacing.
Context `{P : Platform}.

(** ** One stream *)

(** One poll of a stream with a rate in the [uint8_t] range: it fires
    exactly when the counter is zero and then reloads it; otherwise the
    counter goes down by one.  Nothing but this stream's counter changes. *)
Lemma mavlinkStreamTrigger_poll streamNum st :
  0 < mavRates st streamNum <= 255 -> 0 <= mavTicks st streamNum <= 255 ->
  mavlinkStreamTrigger streamNum st
  = (bool_decide (mavTicks st streamNum = 0),
     set_mavTicks
       (<[streamNum := if bool_decide (mavTicks st streamNum = 0)
                       then reload_ticks (mavRates st streamNum)
                       else mavTicks st streamNum - 1]>
          (mavTicks st)) st).
Proof.
  intros Hr Hc. unfold mavlinkStreamTrigger, reload_ticks.
  set (r := mavRates st streamNum) in *.
  set (c := mavTicks st streamNum) in *.
  unfold TELEMETRY_MAVLINK_MAXRATE.
  assert (Hu : uint8_t r = r) by (unfold uint8_t; apply Z.mod_small; lia).
  rewrite Hu.
  replace (r =? 0) with false by (symmetry; apply Z.eqb_neq; lia).
  assert (Hmin : (if r >? 50 then 50 else r) = Z.min r 50).
  { rewrite Z.gtb_ltb. destruct (Z.ltb_spec 50 r); lia. }
  rewrite Hmin.
  assert (Hf : 1 <= 50 / Z.min r 50 <= 50).
  { split.
    - apply Z.div_le_lower_bound; lia.
    - apply Z.div_le_upper_bound; lia. }
  case_bool_decide as Hz.
  - rewrite Hz. simpl.
    replace (uint8_t (50 / Z.min r 50)) with (50 / Z.min r 50)
      by (unfold uint8_t; symmetry; apply Z.mod_small; lia).
    done.
  - replace (c =? 0) with false by (symmetry; by apply Z.eqb_neq).
    replace (uint8_t (c - 1)) with (c - 1)
      by (unfold uint8_t; symmetry; apply Z.mod_small; lia).
    done.
Qed.

Lemma reload_ticks_bounds r : 0 < r <= 255 -> 1 <= reload_ticks r <= 50.
Proof.
  intros Hr. unfold reload_ticks, TELEMETRY_MAVLINK_MAXRATE. split.
  - apply Z.div_le_lower_bound; lia.
  - apply Z.div_le_upper_bound; lia.
Qed.

Lemma stream_fires_on_period_aux streamNum (k : nat) : forall st,
  0 < mavRates st streamNum <= 255 -> 0 <= mavTicks st streamNum <= 255 ->
  poll_fires streamNum k st = true
  <-> mavTicks st streamNum <= Z.of_nat k
      /\ (Z.of_nat k - mavTicks st streamNum)
           mod (reload_ticks (mavRates st streamNum) + 1) = 0.
Proof.
  induction k as [|k IH]; intros st Hr Hc;
    pose proof (reload_ticks_bounds _ Hr) as Hf.
  - unfold poll_fires. cbn [trigger_count snd].
    rewrite mavlinkStreamTrigger_poll by done. cbn [fst].
    rewrite bool_decide_eq_true. split.
    + intros Hz. rewrite Hz. split; [lia|]. apply Z.mod_0_l. lia.
    + intros [? _]. lia.
  - unfold poll_fires. cbn [trigger_count].
    rewrite (mavlinkStreamTrigger_poll streamNum st) by done.
    set (st1 := set_mavTicks _ st).
    destruct (trigger_count streamNum k st1) as [n st2] eqn:Hrun. cbn [snd].
    assert (Hfires : (mavlinkStreamTrigger streamNum st2).1
                     = poll_fires streamNum k st1)
      by (unfold poll_fires; by rewrite Hrun).
    rewrite Hfires.
    assert (Hr1 : mavRates st1 streamNum = mavRates st streamNum) by done.
    assert (Hc1 : mavTicks st1 streamNum
                  = if bool_decide (mavTicks st streamNum = 0)
                    then reload_ticks (mavRates st streamNum)
                    else mavTicks st streamNum - 1).
    { subst st1. simpl_state. by rewrite fn_lookup_insert. }
    rewrite (IH st1) by (rewrite ?Hr1, ?Hc1; try case_bool_decide; lia).
    rewrite Hr1, Hc1. clearbody st1. clear Hfires Hrun Hr1 Hc1 IH.
    set (f := reload_ticks (mavRates st streamNum)) in *.
    set (c := mavTicks st streamNum) in *. clearbody f c.
    case_bool_decide as Hz.
    + subst c. rewrite Z.sub_0_r.
      replace (Z.of_nat k - f) with (Z.of_nat (S k) + (-1) * (f + 1)) by lia.
      rewrite Z.mod_add by lia.
      split.
      * intros [_ Hmod]. split; [lia|done].
      * intros [_ Hmod]. split; [|done].
        apply Z.mod_divide in Hmod; [|lia]. destruct Hmod as [q Hq].
        assert (0 < q) by nia. nia.
    + replace (Z.of_nat k - (c - 1)) with (Z.of_nat (S k) - c) by lia.
      split; intros [? ?]; (split; [lia|done]).
Qed.

(** X9: a stream with a rate r in 1..255 whose counter holds c (0..255),
    polled once per tick, fires on tick c and from then on every
    [50 / min(r, 50) + 1] ticks, on no other tick; from a zero counter
    these are the ticks divisible by the period.  The rate enters through
    min(r, 50) only, so a rate above the cycle frequency gives the pattern
    of rate 50. *)
Theorem stream_fires_on_period streamNum (k : nat) st :
  0 < mavRates st streamNum <= 255 -> 0 <= mavTicks st streamNum <= 255 ->
  poll_fires streamNum k st = true
  <-> mavTicks st streamNum <= Z.of_nat k
      /\ (Z.of_nat k - mavTicks st streamNum)
           mod (reload_ticks (mavRates st streamNum) + 1) = 0.
Proof. apply stream_fires_on_period_aux. Qed.

(** X10: every configured rate from 26 to 255 gives one and the same
    firing pattern, every second tick: the tick period is a whole number,
    and [50 / min(r, 50)] is 1 for all of them. *)
Theorem rates_above_half_max_fire_alike streamNum (k : nat) st :
  26 <= mavRates st streamNum <= 255 ->
  mavTicks st streamNum = 0 ->
  poll_fires streamNum k st = Nat.even k.
Proof.
  intros Hr Hc.
  assert (Hf : reload_ticks (mavRates st streamNum) = 1).
  { unfold reload_ticks, TELEMETRY_MAVLINK_MAXRATE.
    destruct (Z.min_spec (mavRates st streamNum) 50) as [[? ->]|[? ->]]; [|done].
    symmetry. apply Z.div_unique with (r := 50 - mavRates st streamNum); lia. }
  apply eq_true_iff_eq.
  rewrite (stream_fires_on_period_aux streamNum k st) by lia.
  rewrite Hf, Hc, Z.sub_0_r.
  rewrite Nat.even_spec. change (1 + 1) with 2.
  split.
  - intros [_ Hmod]. apply Z.mod_divide in Hmod; [|lia].
    destruct Hmod as [q Hq]. exists (Z.to_nat q). lia.
  - intros [q Hq]. split; [lia|]. subst k.
    replace (Z.of_nat (2 * q)) with (Z.of_nat q * 2) by lia.
    apply Z.mod_mul. lia.
Qed.

(** ** The scheduled batch *)

Lemma processMAVLinkTelemetry_poll_streams sensors_GPS currentTimeUs st :
  processMAVLinkTelemetry sensors_GPS currentTimeUs st
  = poll_streams sensors_GPS currentTimeUs batch_streams st.
Proof.
  assert (Hstep : forall s st,
    s <> MAV_DATA_STREAM_POSITION ->
    triggered_send s (stream_send currentTimeUs s) st
    = poll_stream sensors_GPS currentTimeUs s st).
  { intros s st0 Hs. unfold triggered_send, poll_stream.
    destruct (mavlinkStreamTrigger s st0) as [fire st1].
    destruct s; try done; by rewrite andb_true_r. }
  unfold processMAVLinkTelemetry, poll_streams, batch_streams.
  change mavlinkSendSystemStatus
    with (stream_send currentTimeUs MAV_DATA_STREAM_EXTENDED_STATUS).
  change mavlinkSendRCChannelsAndRSSI
    with (stream_send currentTimeUs MAV_DATA_STREAM_RC_CHANNELS).
  change mavlinkSendAttitude
    with (stream_send currentTimeUs MAV_DATA_STREAM_EXTRA1).
  change mavlinkSendHUDAndHeartbeat
    with (stream_send currentTimeUs MAV_DATA_STREAM_EXTRA2).
  change mavlinkSendBatteryTemperatureStatusText
    with (stream_send currentTimeUs MAV_DATA_STREAM_EXTRA3).
  rewrite !Hstep by discriminate.
  destruct USE_GPS; cbn [app fold_left]; [|done].
  do 3 f_equal.
  unfold poll_stream, mavlinkSendPosition_call.
  destruct (mavlinkStreamTrigger MAV_DATA_STREAM_POSITION _) as [[] st1];
    cbn [andb stream_writes stream_send]; by destruct sensors_GPS.
Qed.

Lemma NoDup_batch_streams : NoDup batch_streams.
Proof.
  unfold batch_streams.
  destruct USE_GPS; cbn [app];
    repeat (apply NoDup_cons_2;
            [intros Hin;
             repeat (apply elem_of_cons in Hin as [Hin|Hin]; [discriminate|]);
             by apply elem_of_nil in Hin|]);
    apply NoDup_nil_2.
Qed.

(** The trigger of a stream reads and writes that stream's rate and
    counter only. *)
Lemma mavlinkStreamTrigger_congr streamNum st1 st2 :
  mavRates st1 streamNum = mavRates st2 streamNum ->
  mavTicks st1 streamNum = mavTicks st2 streamNum ->
  (mavlinkStreamTrigger streamNum st1).1 = (mavlinkStreamTrigger streamNum st2).1
  /\ mavTicks (mavlinkStreamTrigger streamNum st1).2 streamNum
     = mavTicks (mavlinkStreamTrigger streamNum st2).2 streamNum.
Proof.
  intros Hr Ht. unfold mavlinkStreamTrigger. rewrite Hr, Ht.
  repeat case_match; simpl_state; rewrite ?fn_lookup_insert; done.
Qed.

Lemma poll_stream_effect sensors_GPS currentTimeUs streamNum st :
  let st' := poll_stream sensors_GPS currentTimeUs streamNum st in
  serialTx st'
  = serialTx st
    ++ (if (mavlinkStreamTrigger streamNum st).1
           && stream_writes sensors_GPS streamNum
        then [stream_send currentTimeUs streamNum] else [])
  /\ mavRates st' = mavRates st
  /\ mavTicks st' streamNum
     = mavTicks (mavlinkStreamTrigger streamNum st).2 streamNum
  /\ (forall other, other <> streamNum -> mavTicks st' other = mavTicks st other)
  /\ (mavlinkPort st' = mavlinkPort st
      /\ mavlinkTelemetryEnabled st' = mavlinkTelemetryEnabled st
      /\ serialRx st' = serialRx st
      /\ lastMavlinkMessage st' = lastMavlinkMessage st
      /\ incomingRequestServed st' = incomingRequestServed st
      /\ mavRecvStatus st' = mavRecvStatus st
      /\ incomingMissionWpCount st' = incomingMissionWpCount st
      /\ incomingMissionWpSequence st' = incomingMissionWpSequence st
      /\ waypointList st' = waypointList st).
Proof.
  unfold poll_stream, mavlinkStreamTrigger.
  destruct (stream_writes sensors_GPS streamNum);
    repeat case_match; simplify_eq; cbn [fst andb]; simpl_state;
    (split_and!; try done; try (by rewrite app_nil_r));
    intros other Hother; by rewrite fn_lookup_insert_ne.
Qed.

Lemma poll_streams_effect sensors_GPS currentTimeUs streams : forall st,
  NoDup streams ->
  let st' := poll_streams sensors_GPS currentTimeUs streams st in
  serialTx st'
  = serialTx st
    ++ map (stream_send currentTimeUs)
         (List.filter
            (fun s => (mavlinkStreamTrigger s st).1
                      && stream_writes sensors_GPS s) streams)
  /\ mavRates st' = mavRates st
  /\ (forall s, s ∈ streams ->
        mavTicks st' s = mavTicks (mavlinkStreamTrigger s st).2 s)
  /\ (forall s, s ∉ streams -> mavTicks st' s = mavTicks st s).
Proof.
  induction streams as [|a streams IH]; intros st Hnodup st'.
  - subst st'. cbn. rewrite app_nil_r. split_and!; [done..| |done].
    intros s Hs. by apply elem_of_nil in Hs.
  - pose proof (NoDup_cons_1_1 _ _ Hnodup) as Ha.
    apply NoDup_cons_1_2 in Hnodup.
    subst st'. unfold poll_streams. cbn [fold_left].
    fold (poll_streams sensors_GPS currentTimeUs streams
            (poll_stream sensors_GPS currentTimeUs a st)).
    destruct (poll_stream_effect sensors_GPS currentTimeUs a st)
      as (Htx1 & Hr1 & Hta & Hother & _).
    set (st1 := poll_stream sensors_GPS currentTimeUs a st) in *.
    clearbody st1.
    destruct (IH st1 Hnodup) as (Htx & Hr & Hin & Hout).
    assert (Hsame : forall s, s ∈ streams ->
      (mavlinkStreamTrigger s st1).1 = (mavlinkStreamTrigger s st).1
      /\ mavTicks (mavlinkStreamTrigger s st1).2 s
         = mavTicks (mavlinkStreamTrigger s st).2 s).
    { intros s Hs. apply mavlinkStreamTrigger_congr.
      - by rewrite Hr1.
      - apply Hother. intros ->. done. }
    split_and!.
    + rewrite Htx, Htx1, <- app_assoc. f_equal. cbn [List.filter].
      rewrite (filter_ext_in
                 (fun s => (mavlinkStreamTrigger s st1).1
                           && stream_writes sensors_GPS s)
                 (fun s => (mavlinkStreamTrigger s st).1
                           && stream_writes sensors_GPS s)).
      2:{ intros s Hs. f_equal. apply Hsame. by apply list_elem_of_In. }
      by destruct ((mavlinkStreamTrigger a st).1
                   && stream_writes sensors_GPS a).
    + by rewrite Hr.
    + intros s Hs. apply elem_of_cons in Hs as [->|Hs].
      * by rewrite Hout.
      * rewrite Hin by done. by apply Hsame.
    + intros s Hs. apply not_elem_of_cons in Hs as [Hne Hs].
      rewrite Hout by done. by apply Hother.
Qed.

(** X11: in a scheduled batch every stream is decided on its own rate
    and counter as they were before the batch, whatever the other streams
    do: the messages written are those of the streams whose trigger fires
    and whose send function writes, which all do except that of the
    position stream when there is no GPS sensor; they come in the fixed
    order status, RC channels, position (with USE_GPS only), attitude, HUD
    and heartbeat, battery.  Each polled stream's counter moves as a
    single poll of that stream moves it, also that of the position stream
    without a GPS sensor; a stream that is not polled keeps its counter,
    and no rate changes. *)
Theorem batch_decides_each_stream_separately sensors_GPS currentTimeUs st :
  let st' := processMAVLinkTelemetry sensors_GPS currentTimeUs st in
  serialTx st'
  = serialTx st
    ++ map (stream_send currentTimeUs)
         (List.filter
            (fun s => (mavlinkStreamTrigger s st).1
                      && stream_writes sensors_GPS s) batch_streams)
  /\ mavRates st' = mavRates st
  /\ (forall s, s ∈ batch_streams ->
        mavTicks st' s = mavTicks (mavlinkStreamTrigger s st).2 s)
  /\ (forall s, s ∉ batch_streams -> mavTicks st' s = mavTicks st s).
Proof.
  cbn zeta. rewrite processMAVLinkTelemetry_poll_streams.
  apply poll_streams_effect, NoDup_batch_streams.
Qed.

Lemma poll_streams_frame sensors_GPS currentTimeUs streams : forall st,
  let st' := poll_streams sensors_GPS currentTimeUs streams st in
  mavlinkPort st' = mavlinkPort st
  /\ mavlinkTelemetryEnabled st' = mavlinkTelemetryEnabled st
  /\ serialRx st' = serialRx st
  /\ lastMavlinkMessage st' = lastMavlinkMessage st
  /\ incomingRequestServed st' = incomingRequestServed st
  /\ mavRecvStatus st' = mavRecvStatus st
  /\ incomingMissionWpCount st' = incomingMissionWpCount st
  /\ incomingMissionWpSequence st' = incomingMissionWpSequence st
  /\ waypointList st' = waypointList st.
Proof.
  induction streams as [|a streams IH]; intros st; [done|].
  unfold poll_streams. cbn [fold_left].
  fold (poll_streams sensors_GPS currentTimeUs streams
          (poll_stream sensors_GPS currentTimeUs a st)).
  destruct (poll_stream_effect sensors_GPS currentTimeUs a st)
    as (_ & _ & _ & _ & H1).
  pose proof (IH (poll_stream sensors_GPS currentTimeUs a st)) as H2.
  cbn zeta in *. destruct_and!. split_and!; congruence.
Qed.

Lemma switch_msgid_pacing_side armed mavRecvMsg st r :
  switch_msgid armed mavRecvMsg st = Some r ->
  mavTicks r.2 = mavTicks st
  /\ mavRates r.2 = mavRates st
  /\ lastMavlinkMessage r.2 = lastMavlinkMessage st
  /\ incomingRequestServed r.2 = incomingRequestServed st
  /\ mavlinkPort r.2 = mavlinkPort st
  /\ mavlinkTelemetryEnabled r.2 = mavlinkTelemetryEnabled st.
Proof.
  unfold switch_msgid, handleIncoming_MISSION_CLEAR_ALL,
    handleIncoming_MISSION_COUNT, handleIncoming_MISSION_ITEM,
    handleIncoming_MISSION_REQUEST_LIST, handleIncoming_MISSION_REQUEST,
    setWaypoint.
  intros Hr.
  repeat (case_match; simplify_eq); cbn [snd]; simpl_state;
    repeat (case_match; simpl_state); done.
Qed.

(** X12: the two halves of the module keep out of each other's state.  A
    scheduled batch changes the port output and the stream counters only:
    the bytes waiting, the parser, the session counters and the stored
    list are as before.  A dispatched mission frame, whatever it is,
    leaves the stream rates and counters, the time stamp of the last batch
    and the served flag as they were. *)
Theorem batch_and_handlers_keep_apart
    armed sensors_GPS currentTimeUs mavRecvMsg st :
  (let st' := processMAVLinkTelemetry sensors_GPS currentTimeUs st in
   serialRx st' = serialRx st
   /\ mavRecvStatus st' = mavRecvStatus st
   /\ incomingMissionWpCount st' = incomingMissionWpCount st
   /\ incomingMissionWpSequence st' = incomingMissionWpSequence st
   /\ waypointList st' = waypointList st)
  /\ (let st' := handle_frame armed mavRecvMsg st in
      mavTicks st' = mavTicks st
      /\ mavRates st' = mavRates st
      /\ lastMavlinkMessage st' = lastMavlinkMessage st
      /\ incomingRequestServed st' = incomingRequestServed st).
Proof.
  split.
  - cbn zeta. rewrite processMAVLinkTelemetry_poll_streams.
    pose proof (poll_streams_frame sensors_GPS currentTimeUs batch_streams st) as H.
    cbn zeta in H. destruct_and!. by split_and!.
  - cbn zeta. unfold handle_frame.
    destruct (switch_msgid armed mavRecvMsg st) as [r|] eqn:Hr; [|done].
    pose proof (switch_msgid_pacing_side _ _ _ _ Hr) as H. destruct_and!.
    by split_and!.
Qed.

(** ** The orchestrator cycle *)

Lemma handle_frames_pacing_side frames : forall st,
  let st' := handle_frames frames st in
  mavTicks st' = mavTicks st
  /\ mavRates st' = mavRates st
  /\ lastMavlinkMessage st' = lastMavlinkMessage st
  /\ incomingRequestServed st' = incomingRequestServed st.
Proof.
  induction frames as [|f frames IH]; intros st; [done|].
  cbn [handle_frames fold_left]. fold (handle_frames frames (handle_frame f.1 f.2 st)).
  pose proof (IH (handle_frame f.1 f.2 st)) as H1. cbn zeta in H1.
  assert (H2 : mavTicks (handle_frame f.1 f.2 st) = mavTicks st
               /\ mavRates (handle_frame f.1 f.2 st) = mavRates st
               /\ lastMavlinkMessage (handle_frame f.1 f.2 st)
                  = lastMavlinkMessage st
               /\ incomingRequestServed (handle_frame f.1 f.2 st)
                  = incomingRequestServed st).
  { unfold handle_frame.
    destruct (switch_msgid f.1 f.2 st) as [r|] eqn:Hr; [|done].
    pose proof (switch_msgid_pacing_side _ _ _ _ Hr) as H. destruct_and!.
    by split_and!. }
  destruct_and!. split_and!; congruence.
Qed.

Lemma processMAVLinkIncomingTelemetry_pacing_side armed st :
  let r := processMAVLinkIncomingTelemetry armed st in
  mavTicks r.2 = mavTicks st
  /\ mavRates r.2 = mavRates st
  /\ lastMavlinkMessage r.2 = lastMavlinkMessage st
  /\ incomingRequestServed r.2 = incomingRequestServed st.
Proof.
  intros r.
  destruct (processMAVLinkIncomingTelemetry_frames armed st)
    as (consumed & _ & _ & Hr2 & _).
  fold r in Hr2. cbn zeta in Hr2. rewrite Hr2. simpl_state.
  apply handle_frames_pacing_side.
Qed.

(** X13: a cycle of the orchestrator with telemetry enabled and the port
    open, in full.  The scheduled batch runs exactly when the interval has
    elapsed, the decoder did not report handled in this cycle, and no
    handled report of an earlier cycle is still pending; whenever the
    interval has elapsed the time stamp is set and the pending flag is
    cleared, batch or no batch.  A report made while the interval has not
    elapsed stays pending, so it suppresses the next batch even if that
    later cycle handles nothing. *)
Theorem orchestrator_cycle armed sensors_GPS currentTimeUs st :
  mavlinkTelemetryEnabled st = true ->
  mavlinkPort st = true ->
  let r := processMAVLinkIncomingTelemetry armed st in
  let pending := r.1 || incomingRequestServed st in
  handleMAVLinkTelemetry armed sensors_GPS currentTimeUs st
  = if uint32_t (currentTimeUs - lastMavlinkMessage st)
       >=? TELEMETRY_MAVLINK_DELAY
    then set_incomingRequestServed false
           (set_lastMavlinkMessage currentTimeUs
              (if pending then r.2
               else processMAVLinkTelemetry sensors_GPS currentTimeUs r.2))
    else set_incomingRequestServed pending r.2.
Proof.
  intros Hen Hport. cbn zeta. unfold handleMAVLinkTelemetry.
  rewrite Hen, Hport. cbn [negb].
  pose proof (processMAVLinkIncomingTelemetry_pacing_side armed st)
    as (_ & _ & Hlast & Hserved).
  cbn zeta in Hlast, Hserved.
  destruct (processMAVLinkIncomingTelemetry armed st) as [served st1].
  cbn [fst snd] in *.
  destruct served; cbn [orb]; simpl_state; rewrite Hlast.
  - by case_match.
  - rewrite Hserved. case_match.
    + by destruct (incomingRequestServed st).
    + rewrite <- Hserved, <- Hlast. by destruct st1.
Qed.

Lemma uint32_t_elapsed last d :
  0 <= last < 2 ^ 32 -> 0 <= d < 2 ^ 32 ->
  uint32_t (uint32_t (last + d) - last) = d.
Proof.
  intros Hlast Hd. unfold uint32_t.
  rewrite Zminus_mod_idemp_l.
  replace (last + d - last) with d by lia.
  by apply Z.mod_small.
Qed.

(** X14: the interval test works on 32-bit microsecond time stamps
    modulo 2^32 and so survives the wrap-around of the timer: if the last
    batch was stamped at [last] and d microseconds (less than 2^32) have
    passed since, the clock reading is (last + d) mod 2^32, and a cycle
    with nothing to read and nothing pending runs the batch exactly when
    d >= 20000, also when the reading is numerically below [last]. *)
Theorem interval_test_survives_timer_wrap armed sensors_GPS last d st :
  mavlinkTelemetryEnabled st = true ->
  mavlinkPort st = true ->
  serialRx st = [] ->
  incomingRequestServed st = false ->
  lastMavlinkMessage st = last ->
  0 <= last < 2 ^ 32 -> 0 <= d < 2 ^ 32 ->
  let currentTimeUs := uint32_t (last + d) in
  handleMAVLinkTelemetry armed sensors_GPS currentTimeUs st
  = if d >=? 20000
    then set_incomingRequestServed false
           (set_lastMavlinkMessage currentTimeUs
              (processMAVLinkTelemetry sensors_GPS currentTimeUs st))
    else st.
Proof.
  intros Hen Hport Hrx Hserved Hlast Hl Hd currentTimeUs.
  unfold handleMAVLinkTelemetry, processMAVLinkIncomingTelemetry.
  rewrite Hen, Hport, Hrx. cbn [negb processMAVLinkIncomingTelemetry_loop].
  rewrite Hlast. subst currentTimeUs. rewrite uint32_t_elapsed by done.
  change TELEMETRY_MAVLINK_DELAY with 20000.
  case_match; [|done]. by rewrite Hserved.
Qed.

End Pacing.

(** * Properties of the port life cycle *)

Section PortLifeCycleProperties.
Context `{P : Platform}.

Lemma handle_frames_port_side frames : forall st,
  let st' := handle_frames frames st in
  mavlinkPort st' = mavlinkPort st
  /\ mavlinkTelemetryEnabled st' = mavlinkTelemetryEnabled st.
Proof.
  induction frames as [|f frames IH]; intros st; [done|].
  cbn [handle_frames fold_left]. fold (handle_frames frames (handle_frame f.1 f.2 st)).
  pose proof (IH (handle_frame f.1 f.2 st)) as [H1 H2]. cbn zeta.
  rewrite H1, H2. unfold handle_frame.
  destruct (switch_msgid f.1 f.2 st) as [r|] eqn:Hr; [|done].
  pose proof (switch_msgid_pacing_side _ _ _ _ Hr) as H. by destruct_and!.
Qed.

Lemma handleMAVLinkTelemetry_port_side armed sensors_GPS currentTimeUs st :
  let st' := handleMAVLinkTelemetry armed sensors_GPS currentTimeUs st in
  mavlinkPort st' = mavlinkPort st
  /\ mavlinkTelemetryEnabled st' = mavlinkTelemetryEnabled st.
Proof.
  cbn zeta. unfold handleMAVLinkTelemetry.
  destruct (mavlinkTelemetryEnabled st) eqn:Hen; [|done]. cbn [negb].
  destruct (mavlinkPort st) eqn:Hport; [|done]. cbn [negb].
  destruct (processMAVLinkIncomingTelemetry_frames armed st)
    as (consumed & _ & _ & Hr2 & _). cbn zeta in Hr2.
  pose proof (handle_frames_port_side
                (frames_with armed (parse_chars consumed (mavRecvStatus st)).1) st)
    as [Hp He]. cbn zeta in Hp, He.
  destruct (processMAVLinkIncomingTelemetry armed st) as [served st1].
  cbn [snd] in Hr2.
  assert (Hp1 : mavlinkPort st1 = true) by (rewrite Hr2; simpl_state; congruence).
  assert (He1 : mavlinkTelemetryEnabled st1 = true)
    by (rewrite Hr2; simpl_state; congruence).
  clear Hr2.
  assert (Hbatch : forall st2,
    mavlinkPort st2 = true -> mavlinkTelemetryEnabled st2 = true ->
    mavlinkPort (processMAVLinkTelemetry sensors_GPS currentTimeUs st2) = true
    /\ mavlinkTelemetryEnabled (processMAVLinkTelemetry sensors_GPS currentTimeUs st2) = true).
  { intros st2 H1 H2. rewrite processMAVLinkTelemetry_poll_streams.
    pose proof (poll_streams_frame sensors_GPS currentTimeUs batch_streams st2) as H.
    cbn zeta in H. destruct_and!. split; congruence. }
  destruct served; repeat (case_match; simpl_state); try done;
    by apply Hbatch.
Qed.

(** X15: whenever telemetry is enabled the port is open.  This holds
    after start-up and is kept by every call the firmware makes on the
    module, in any order and with any answers of the collaborators: the
    life-cycle functions (also when opening the port fails or there is no
    port configuration) and the orchestrator cycles. *)
Theorem enabled_implies_port_invariant calls m :
  enabled_implies_port m ->
  enabled_implies_port (run_calls calls m).
Proof.
  revert m. induction calls as [|c calls IH]; intros m Hinv; [done|].
  cbn [run_calls fold_left]. apply IH. clear IH.
  unfold enabled_implies_port in *.
  destruct c as [env|env| |armed sensors_GPS currentTimeUs]; cbn [run_call].
  - done.
  - unfold checkMAVLinkTelemetryState, configureMAVLinkStreamRates,
      configureMAVLinkTelemetryPort, freeMAVLinkTelemetryPort.
    repeat (case_match; cbn [telemetry set_telemetry]; simpl_state);
      cbv [set_mavlinkPort set_mavlinkTelemetryEnabled set_mavRates];
      cbn [mavlinkPort mavlinkTelemetryEnabled]; try done;
      destruct (mavlinkTelemetryEnabled (telemetry m));
      destruct (openSerialPort _ _ _); done.
  - done.
  - cbn [telemetry set_telemetry].
    pose proof (handleMAVLinkTelemetry_port_side armed sensors_GPS
                  currentTimeUs (telemetry m)) as [-> ->].
    done.
Qed.

(** X16: what [checkMAVLinkTelemetryState] does.  If the wanted state is
    the current one nothing happens, no port is opened and no rate is
    loaded.  When telemetry is to be switched on, the six stream rates are
    loaded from the settings whether or not the port can be opened;
    telemetry is enabled afterwards exactly when there is a port
    configuration and the driver opens the port, asked for the configured
    baud rate, or for 57600 when the configuration says AUTO; after a
    failure it stays disabled, so that the next check tries again.  When
    telemetry is to be switched off the port is closed and telemetry
    disabled.  In no case are the stream counters or the upload session
    touched. *)
Theorem check_switches_telemetry env m :
  let want := telemetryDetermineEnabledState env (mavlinkPortSharing m) in
  let st := telemetry m in
  let st' := telemetry (checkMAVLinkTelemetryState env m) in
  (want = mavlinkTelemetryEnabled st -> checkMAVLinkTelemetryState env m = m)
  /\ (want = true -> mavlinkTelemetryEnabled st = false ->
      (forall s, mavRates st' s = configured_rate (telemetryConfig_mavlink env) s)
      /\ mavlinkTelemetryEnabled st'
         = match portConfig m with
           | Some config =>
               openSerialPort env (identifier config)
                 (requested_baudRate env config)
           | None => false
           end
      /\ mavlinkPort st' = if mavlinkTelemetryEnabled st' then true
                           else match portConfig m with
                                | Some _ => false
                                | None => mavlinkPort st
                                end)
  /\ (want = false -> mavlinkTelemetryEnabled st = true ->
      mavlinkTelemetryEnabled st' = false /\ mavlinkPort st' = false
      /\ mavRates st' = mavRates st)
  /\ (mavTicks st' = mavTicks st
      /\ lastMavlinkMessage st' = lastMavlinkMessage st
      /\ incomingRequestServed st' = incomingRequestServed st
      /\ incomingMissionWpCount st' = incomingMissionWpCount st
      /\ incomingMissionWpSequence st' = incomingMissionWpSequence st
      /\ waypointList st' = waypointList st).
Proof.
  cbn zeta.
  unfold checkMAVLinkTelemetryState, configureMAVLinkStreamRates,
    configureMAVLinkTelemetryPort, freeMAVLinkTelemetryPort, requested_baudRate.
  split_and!.
  - intros ->. by rewrite eqb_reflx.
  - intros -> Hen. rewrite Hen. cbn [Bool.eqb].
    destruct (portConfig m) as [config|]; cbn [telemetry set_telemetry].
    + destruct (openSerialPort env (identifier config) _) eqn:Hopen;
        cbn [negb telemetry set_telemetry];
        cbv [set_mavlinkPort set_mavlinkTelemetryEnabled set_mavRates];
        cbn [mavRates mavlinkTelemetryEnabled mavlinkPort]; rewrite ?Hen;
        (split_and!; [|done..]);
        intros []; cbn [configured_rate];
        by rewrite ?fn_lookup_insert, ?fn_lookup_insert_ne by done.
    + cbv [set_mavRates]. cbn [mavRates mavlinkTelemetryEnabled mavlinkPort].
      rewrite Hen. (split_and!; [|done..]).
      intros []; cbn [configured_rate];
        by rewrite ?fn_lookup_insert, ?fn_lookup_insert_ne by done.
  - intros -> Hen. rewrite Hen. cbn [Bool.eqb]. done.
  - repeat (case_match; cbn [telemetry set_telemetry]); done.
  - repeat (case_match; cbn [telemetry set_telemetry]); done.
  - repeat (case_match; cbn [telemetry set_telemetry]); done.
  - repeat (case_match; cbn [telemetry set_telemetry]); done.
  - repeat (case_match; cbn [telemetry set_telemetry]); done.
  - repeat (case_match; cbn [telemetry set_telemetry]); done.
Qed.

(** X17: without an open port the orchestrator is inert.  After
    [freeMAVLinkTelemetryPort] any number of cycles, at any times and in
    any arming state, changes nothing: no byte is read from the port,
    nothing is parsed, nothing is sent and no stream counter moves; the
    same holds in any state whose port is closed. *)
Theorem orchestrator_inert_without_port cycles m :
  (forall c, c ∈ cycles -> exists armed sensors_GPS currentTimeUs,
               c = call_handle armed sensors_GPS currentTimeUs) ->
  run_calls cycles (freeMAVLinkTelemetryPort m) = freeMAVLinkTelemetryPort m
  /\ (mavlinkPort (telemetry m) = false -> run_calls cycles m = m).
Proof.
  intros Hcycles.
  assert (Hclosed : forall m, mavlinkPort (telemetry m) = false ->
                              run_calls cycles m = m).
  { clear m. induction cycles as [|c cycles IH]; intros m Hport; [done|].
    cbn [run_calls fold_left].
    destruct (Hcycles c) as (armed & sensors_GPS & currentTimeUs & ->);
      [by left|].
    cbn [run_call]. unfold handleMAVLinkTelemetry. rewrite Hport.
    assert (Hsame : set_telemetry
              (if negb (mavlinkTelemetryEnabled (telemetry m))
               then telemetry m else telemetry m) m = m)
      by (destruct m; by case_match).
    cbn [negb]. rewrite Hsame.
    apply IH; [|done]. intros c Hc. apply Hcycles. by right. }
  split; [|by apply Hclosed]. by apply Hclosed.
Qed.

End PortLifeCycleProperties.

(** * Properties of the outbound message fields *)

Section OutboundFields.

Lemma onboard_control_sensors_health_mod (mag baro gps : bool) :
  onboard_control_sensors_health mag baro gps =
  onboardControlAndSensors mag baro gps mod 2 ^ 10.
Proof.
  unfold onboard_control_sensors_health.
  change 1023 with (Z.ones 10). by rewrite Z.land_ones.
Qed.

(** X18: the masks of SYS_STATUS tell which of the compass, the barometer
    and the GPS are present: each sensor owns two bits of the present
    mask, both set exactly when it is present, and the health mask is the
    present mask cut to its ten sensor bits. *)
Theorem sensor_masks_decode (mag baro gps : bool) :
  let present := onboardControlAndSensors mag baro gps in
  let health := onboard_control_sensors_health mag baro gps in
  (Z.testbit present 2 = mag /\ Z.testbit present 12 = mag)
  /\ (Z.testbit present 3 = baro /\ Z.testbit present 13 = baro)
  /\ (Z.testbit present 5 = gps /\ Z.testbit present 14 = gps)
  /\ 0 <= present < 2 ^ 16
  /\ 0 <= health < 2 ^ 10
  /\ forall i, 0 <= i < 10 -> Z.testbit health i = Z.testbit present i.
Proof.
  cbv zeta. rewrite onboard_control_sensors_health_mod.
  repeat split;
    try (destruct mag, baro, gps; vm_compute; congruence);
    try (apply Z.mod_pos_bound; lia).
  intros i Hi. apply Z.mod_pow2_bits_low. lia.
Qed.




(** X20: the custom mode of the heartbeat.  The copter map has no
    equivalent exactly for the manual and cruise modes and for the modes
    the maps do not name, the plane map only for the latter; so every mode
    the copter map translates, the plane map translates too.  Both end
    markers fit the [uint8_t] that carries the custom mode, so the cast
    changes no value. *)
Theorem custom_mode_translation (FIXED_WING_LEGACY : bool)
    (flm : flightModeForTelemetry_e) :
  (inavToArduCopterMap flm = COPTER_MODE_ENUM_END
   <-> flm = FLM_MANUAL \/ flm = FLM_CRUISE \/ flm = FLM_other)
  /\ (inavToArduPlaneMap flm = PLANE_MODE_ENUM_END <-> flm = FLM_other)
  /\ mavCustomMode FIXED_WING_LEGACY flm =
     (if FIXED_WING_LEGACY then inavToArduPlaneMap flm
      else inavToArduCopterMap flm).
Proof.
  split_and!.
  - split.
    + destruct flm; cbn; intros H; try discriminate H; auto.
    + intros [->|[->| ->]]; reflexivity.
  - split.
    + destruct flm; cbn; intros H; try discriminate H; auto.
    + intros ->; reflexivity.
  - destruct FIXED_WING_LEGACY, flm; reflexivity.
Qed.

End OutboundFields.

(** * Properties of the status text *)

Section StatusTextProperties.
Import StatusText String.

Lemma mavlinkArmingDisabledReasonMessage_fits r message :
  mavlinkArmingDisabledReasonMessage r = Some message ->
  fits_buffer message = true.
Proof.
  unfold mavlinkArmingDisabledReasonMessage. intros H.
  repeat case_match; simplify_eq; reflexivity.
Qed.

Lemma mavlinkFailsafePhaseMessage_fits r message :
  mavlinkFailsafePhaseMessage r = Some message ->
  fits_buffer message = true.
Proof.
  unfold mavlinkFailsafePhaseMessage. intros H.
  repeat case_match; simplify_eq; reflexivity.
Qed.

Lemma mavlinkFailsafeInfoMessage_fits r message :
  mavlinkFailsafeInfoMessage r = Some message ->
  fits_buffer message = true.
Proof.
  unfold mavlinkFailsafeInfoMessage. intros H.
  repeat case_match; simplify_eq; reflexivity.
Qed.

Lemma mavlinkNavigationStateMessage_fits r message :
  mavlinkNavigationStateMessage r = Some message ->
  fits_buffer message = true.
Proof.
  unfold mavlinkNavigationStateMessage. intros H.
  repeat case_match; simplify_eq; reflexivity.
Qed.

Lemma option_list_elem {A} (o : option A) (x : A) :
  x ∈ option_list o -> o = Some x.
Proof.
  destruct o as [y|]; cbn; [|by intros ?%elem_of_nil].
  by intros ->%list_elem_of_singleton.
Qed.

Lemma messages_fit r message :
  message ∈ messages r -> fits_buffer message = true.
Proof.
  unfold messages. intros H.
  repeat case_match;
    repeat (apply elem_of_app in H as [H|H]);
    try (apply option_list_elem in H);
    eauto using mavlinkFailsafePhaseMessage_fits,
      mavlinkFailsafeInfoMessage_fits, mavlinkNavigationStateMessage_fits;
    try (by apply elem_of_nil in H);
    try (apply list_elem_of_singleton in H as ->; reflexivity).
Qed.

Lemma messages_length r : (List.length (messages r) <= 4)%nat.
Proof.
  unfold messages.
  destruct (mavlinkFailsafePhaseMessage r), (mavlinkFailsafeInfoMessage r),
    (mavlinkNavigationStateMessage r);
    repeat case_match; cbn; lia.
Qed.

Lemma messages_set_millis v r : messages (set_millis v r) = messages r.
Proof. reflexivity. Qed.

Lemma STATUS_TEXT_ALTERNATING_CHOICES_bounds r ms num_choices :
  0 < num_choices ->
  0 <= STATUS_TEXT_ALTERNATING_CHOICES r ms num_choices < num_choices.
Proof. intros H. apply Z.mod_pos_bound. lia. Qed.

(** The message picked while armed, if there is any to pick. *)
Lemma armed_message r :
  ARMING_FLAG_ARMED r = true ->
  (getMAVLinkSystemMsg r).2 =
  messages r
    !! Z.to_nat (STATUS_TEXT_ALTERNATING_CHOICES r 1000
                   (Z.of_nat (List.length (messages r)))).
Proof.
  intros Harmed. unfold getMAVLinkSystemMsg. rewrite Harmed.
  destruct (0 <? Z.of_nat (List.length (messages r)))%Z eqn:Hcount.
  - by case_match.
  - cbn [snd]. symmetry. apply lookup_ge_None_2.
    assert (List.length (messages r) = 0%nat) as -> by lia. lia.
Qed.

Lemma getMAVLinkSystemMsg_fits r message :
  shows_setting_name r = false ->
  (getMAVLinkSystemMsg r).2 = Some message ->
  fits_buffer message = true.
Proof.
  intros Hname. destruct (ARMING_FLAG_ARMED r) eqn:Harmed.
  - rewrite armed_message by done. intros H.
    apply list_elem_of_lookup_2 in H. by apply (messages_fit r).
  - unfold getMAVLinkSystemMsg. unfold shows_setting_name in Hname.
    rewrite Harmed in *. cbn [negb andb] in Hname.
    destruct (ARMING_FLAG_ARMING_DISABLED_ALL_FLAGS r); [|done].
    cbn [andb] in Hname.
    destruct (ARMING_FLAG_ARMING_DISABLED_INVALID_SETTING r
              && negb (settingsValidate r)) eqn:Hinvalid.
    + cbn [andb] in Hname. rewrite Hname. cbn [snd]. intros; simplify_eq. reflexivity.
    + destruct (STATUS_TEXT_ALTERNATING_CHOICES r 1000 2 =? 0)%Z; cbn [snd].
      * intros; simplify_eq. reflexivity.
      * apply mavlinkArmingDisabledReasonMessage_fits.
Qed.

(** X21: every fixed status text fits the buffer.  Unless the name of an
    invalid setting is shown, the message picked is shorter than the
    50-byte buffer and does not start with a space: it is copied whole,
    its terminator stays inside the buffer, and a STATUSTEXT with it and
    the severity returned is sent; without a message none is sent. *)
Theorem fixed_status_texts_fit (r : flight_readings) :
  shows_setting_name r = false ->
  (forall message,
     (getMAVLinkSystemMsg r).2 = Some message ->
     (String.length message < STATUS_TEXT_LENGTH)%nat
     /\ buff_not_blank message = true)
  /\ statustext r =
     Some (match (getMAVLinkSystemMsg r).2 with
           | Some message => Some ((getMAVLinkSystemMsg r).1, message)
           | None => None
           end).
Proof.
  intros Hname.
  assert (Hfit : forall message,
    (getMAVLinkSystemMsg r).2 = Some message ->
    (String.length message <? STATUS_TEXT_LENGTH)%nat = true
    /\ buff_not_blank message = true).
  { intros message H. apply getMAVLinkSystemMsg_fits in H; [|done].
    by apply andb_prop in H. }
  split.
  - intros message H. destruct (Hfit message H) as [Hlen Hblank].
    split; [|done]. by apply Nat.ltb_lt.
  - unfold statustext.
    destruct (getMAVLinkSystemMsg r) as [severity [message|]]; cbn [fst snd] in *.
    + destruct (Hfit message eq_refl) as [Hlen Hblank].
      unfold buff_after. by rewrite Hlen, Hblank.
    + reflexivity.
Qed.

Lemma same_message_eq a b :
  same_message a b = true <-> a = b.
Proof.
  destruct a as [a|], b as [b|]; cbn; try (split; congruence).
  rewrite String.eqb_eq. split; congruence.
Qed.

Lemma mavlinkFailsafeInfoMessage_elem r message :
  FLIGHT_MODE_FAILSAFE_MODE r = true ->
  mavlinkFailsafeInfoMessage r = Some message ->
  message ∈ messages r.
Proof.
  intros Hfs Hinfo. unfold messages. rewrite Hfs, Hinfo.
  apply elem_of_app. right. apply elem_of_app. left. cbn.
  by apply list_elem_of_singleton.
Qed.

Lemma mavlinkFailsafeInfoMessage_some r :
  exists message, mavlinkFailsafeInfoMessage r = Some message.
Proof. unfold mavlinkFailsafeInfoMessage. case_match; eauto. Qed.

(** X22: the severity of the status text.  It is critical exactly when
    the aircraft is armed in failsafe mode and the message picked is the
    failsafe information; it is a warning only when disarmed with arming
    blocked, for the two texts "INVALID SETTING" and "UNABLE TO ARM".
    Armed in failsafe mode there is always a message; disarmed with
    nothing blocking arming there is none. *)
Theorem severity_levels (r : flight_readings) :
  let severity := (getMAVLinkSystemMsg r).1 in
  let message := (getMAVLinkSystemMsg r).2 in
  (severity = MAV_SEVERITY_CRITICAL
   <-> ARMING_FLAG_ARMED r = true
       /\ FLIGHT_MODE_FAILSAFE_MODE r = true
       /\ message = mavlinkFailsafeInfoMessage r)
  /\ (severity = MAV_SEVERITY_WARNING ->
      ARMING_FLAG_ARMED r = false
      /\ ARMING_FLAG_ARMING_DISABLED_ALL_FLAGS r = true
      /\ (message = Some "INVALID SETTING"%string
          \/ message = Some "UNABLE TO ARM"%string))
  /\ (ARMING_FLAG_ARMED r = true ->
      FLIGHT_MODE_FAILSAFE_MODE r = true ->
      message <> None)
  /\ (ARMING_FLAG_ARMED r = false ->
      ARMING_FLAG_ARMING_DISABLED_ALL_FLAGS r = false ->
      severity = MAV_SEVERITY_INFO /\ message = None).
Proof.
  cbv zeta.
  assert (Hcount : FLIGHT_MODE_FAILSAFE_MODE r = true ->
                   (0 <? Z.of_nat (List.length (messages r)))%Z = true).
  { intros Hfs. destruct (mavlinkFailsafeInfoMessage_some r) as [m Hm].
    pose proof (mavlinkFailsafeInfoMessage_elem r m Hfs Hm) as Hin.
    destruct (messages r); [by apply elem_of_nil in Hin|].
    cbn [List.length]. apply Z.ltb_lt. lia. }
  split_and!.
  - unfold getMAVLinkSystemMsg.
    destruct (ARMING_FLAG_ARMED r) eqn:Harmed.
    + destruct (FLIGHT_MODE_FAILSAFE_MODE r) eqn:Hfs.
      * rewrite Hcount by done. cbn [andb].
        destruct (same_message _ _) eqn:Hsame; cbn [fst snd].
        -- apply same_message_eq in Hsame. by split.
        -- split; [done|]. intros (_ & _ & Heq).
           apply same_message_eq in Heq. congruence.
      * cbn [andb]. case_match; cbn [fst]; split; try done;
          by intros (_ & ? & _).
    + repeat case_match; cbn [fst]; split; try done; by intros (? & _).
  - unfold getMAVLinkSystemMsg.
    destruct (ARMING_FLAG_ARMED r) eqn:Harmed.
    + repeat case_match; cbn [fst]; done.
    + destruct (ARMING_FLAG_ARMING_DISABLED_ALL_FLAGS r); [|done].
      repeat case_match; cbn [fst snd]; try done; auto.
  - intros Harmed Hfs.
    rewrite armed_message by done.
    specialize (Hcount Hfs).
    intros Hnone%lookup_ge_None_1.
    pose proof (STATUS_TEXT_ALTERNATING_CHOICES_bounds r 1000
                  (Z.of_nat (List.length (messages r)))).
    lia.
  - intros Harmed Hflags. unfold getMAVLinkSystemMsg.
    by rewrite Harmed, Hflags.
Qed.

(** X23: the messages of an armed aircraft take turns.  At most four
    messages are collected for the five slots of the array.  Take
    [messageCount] readings of the 32-bit millisecond clock a second
    apart, the first being [now]: as long as the clock does not wrap
    around within these readings, each message collected is the message
    picked at one of them. *)
Theorem armed_messages_rotate (r : flight_readings) (slot : nat)
    (message : String.string) (now : Z) :
  ARMING_FLAG_ARMED r = true ->
  messages r !! slot = Some message ->
  0 <= now ->
  now + 1000 * (Z.of_nat (List.length (messages r)) - 1) < 2 ^ 32 ->
  (List.length (messages r) <= 4)%nat
  /\ exists k,
       0 <= k < Z.of_nat (List.length (messages r))
       /\ (getMAVLinkSystemMsg
             (set_millis (uint32_t (now + 1000 * k)) r)).2
          = Some message.
Proof.
  intros Harmed Hslot Hnow Hwrap. split; [apply messages_length|].
  pose proof (lookup_lt_Some _ _ _ Hslot) as Hlt.
  set (n := Z.of_nat (List.length (messages r))) in *.
  assert (Hn : 0 < n) by lia.
  exists ((Z.of_nat slot - now / 1000) mod n).
  assert (Hk : 0 <= (Z.of_nat slot - now / 1000) mod n < n)
    by (apply Z.mod_pos_bound; lia).
  split; [done|].
  - rewrite armed_message by done.
    rewrite messages_set_millis. fold n.
    unfold STATUS_TEXT_ALTERNATING_CHOICES. cbn [millis set_millis].
    assert (Hin : 0 <= now + 1000 * ((Z.of_nat slot - now / 1000) mod n)
                  < 2 ^ 32) by nia.
    unfold uint32_t.
    rewrite !(Z.mod_small
                (now + 1000 * ((Z.of_nat slot - now / 1000) mod n))) by done.
    replace (now + 1000 * ((Z.of_nat slot - now / 1000) mod n))
      with (now + ((Z.of_nat slot - now / 1000) mod n) * 1000) by lia.
    rewrite Z.div_add by lia.
    rewrite Zplus_mod_idemp_r.
    replace (now / 1000 + (Z.of_nat slot - now / 1000)) with (Z.of_nat slot)
      by lia.
    rewrite Z.mod_small by lia. by rewrite Nat2Z.id.
Qed.

Lemma toupper_loop_length f s :
  String.length (toupper_loop f s) = String.length s.
Proof. induction s as [|c s IH]; cbn; [done|]. by rewrite IH. Qed.

(** X24: the name of an invalid setting is the one text without a fixed
    length.  When it is shown the severity is informational, and the
    terminator written after the copy stays inside the 50-byte buffer
    exactly when the name is shorter than 50 characters; the upper-case
    loop keeps the length. *)
Theorem setting_name_needs_short_name (r : flight_readings) :
  shows_setting_name r = true ->
  (getMAVLinkSystemMsg r).1 = MAV_SEVERITY_INFO
  /\ (statustext r = None
      <-> (STATUS_TEXT_LENGTH <= String.length (settingGetName r))%nat).
Proof.
  unfold shows_setting_name. intros H.
  repeat (apply andb_prop in H as [H ?]).
  apply negb_true_iff in H.
  unfold statustext, getMAVLinkSystemMsg.
  repeat match goal with Hb : _ = true |- _ => rewrite Hb; clear Hb end.
  rewrite H. cbn [andb negb fst].
  split; [done|].
  unfold buff_after. rewrite toupper_loop_length.
  destruct (String.length (settingGetName r) <? STATUS_TEXT_LENGTH)%nat eqn:Hlen.
  - apply Nat.ltb_lt in Hlen. split; [done|lia].
  - apply Nat.ltb_ge in Hlen. done.
Qed.

End StatusTextProperties.

(** * The further properties on the test platform *)

Section FurtherExamples.
Import TestPlatform TestModule.

Lemma frame_for_other_system_ignored_witness :
  switch_msgid true (gcs (MAVLINK_MSG_ID_MISSION_CLEAR_ALL (clear_all_for 2)))
    one_waypoint
  = Some (false, one_waypoint).
Proof.
  apply (frame_for_other_system_ignored true
           (gcs (MAVLINK_MSG_ID_MISSION_CLEAR_ALL (clear_all_for 2)))
           one_waypoint 2).
  - reflexivity.
  - discriminate.
Defined.

Lemma frame_for_this_system_handled_with_one_reply_witness :
  exists st' reply,
    switch_msgid true (gcs (MAVLINK_MSG_ID_MISSION_REQUEST_LIST request_list))
      one_waypoint
    = Some (true, st')
    /\ serialTx st' = serialTx one_waypoint ++ [reply]
    /\ serialRx st' = serialRx one_waypoint
    /\ mavRecvStatus st' = mavRecvStatus one_waypoint.
Proof.
  apply (frame_for_this_system_handled_with_one_reply true
           (gcs (MAVLINK_MSG_ID_MISSION_REQUEST_LIST request_list))
           one_waypoint).
  reflexivity.
Defined.

Lemma count_announcement_capacity_witness :
  (handleIncoming_MISSION_COUNT false
     (gcs (MAVLINK_MSG_ID_MISSION_COUNT (count_of 61))) (count_of 61)
     one_waypoint).2
  = mavlinkSendMessage
      (mavlink_msg_mission_ack_pack mavSystemId mavComponentId
         (sysid (gcs (MAVLINK_MSG_ID_MISSION_COUNT (count_of 61))))
         (compid (gcs (MAVLINK_MSG_ID_MISSION_COUNT (count_of 61))))
         MAV_MISSION_NO_SPACE)
      one_waypoint
  /\ incomingMissionWpCount
       (handleIncoming_MISSION_COUNT true
          (gcs (MAVLINK_MSG_ID_MISSION_COUNT (count_of 60))) (count_of 60)
          one_waypoint).2
     = 60.
Proof.
  split.
  - destruct (count_announcement_capacity false
                (gcs (MAVLINK_MSG_ID_MISSION_COUNT (count_of 61))) (count_of 61)
                one_waypoint eq_refl) as (_ & Hfull & _).
    apply Hfull. reflexivity.
  - destruct (count_announcement_capacity true
                (gcs (MAVLINK_MSG_ID_MISSION_COUNT (count_of 60))) (count_of 60)
                one_waypoint eq_refl) as (_ & _ & Hfits).
    apply Hfits. discriminate.
Defined.

Lemma item_unsupported_iff_witness :
  handleIncoming_MISSION_ITEM false
    (gcs (MAVLINK_MSG_ID_MISSION_ITEM (manual_item 0))) (manual_item 0) boot
  = (true,
     mavlinkSendMessage
       (mavlink_msg_mission_ack_pack mavSystemId mavComponentId
          (sysid (gcs (MAVLINK_MSG_ID_MISSION_ITEM (manual_item 0))))
          (compid (gcs (MAVLINK_MSG_ID_MISSION_ITEM (manual_item 0))))
          MAV_MISSION_UNSUPPORTED)
       boot).
Proof.
  apply (item_unsupported_iff
           (gcs (MAVLINK_MSG_ID_MISSION_ITEM (manual_item 0))) (manual_item 0)
           boot).
  - reflexivity.
  - intros [Hauto _]. by apply Hauto.
Defined.

Lemma served_item_can_be_uploaded_back_witness :
  exists reply item,
    (handleIncoming_MISSION_REQUEST
       (gcs (MAVLINK_MSG_ID_MISSION_REQUEST (request_of 0))) (request_of 0)
       one_waypoint).2
    = mavlinkSendMessage reply one_waypoint
    /\ item_of_reply reply = Some item
    /\ item_seq item = 0
    /\ item_valid item.
Proof.
  destruct (served_item_can_be_uploaded_back
              (gcs (MAVLINK_MSG_ID_MISSION_REQUEST (request_of 0)))
              (request_of 0) one_waypoint eq_refl) as [Hserved _].
  apply Hserved. reflexivity.
Defined.

Lemma decoder_reports_handled_iff_replied_witness :
  let st := set_serialRx [x2d; x01] boot in
  exists reply,
    serialTx (processMAVLinkIncomingTelemetry false st).2
    = serialTx st ++ [reply].
Proof.
  intros st.
  destruct (decoder_reports_handled_iff_replied false st) as [Hreply _].
  apply Hreply. reflexivity.
Defined.

Lemma stream_fires_on_period_witness :
  poll_fires MAV_DATA_STREAM_EXTRA1 12 boot = true
  /\ poll_fires MAV_DATA_STREAM_EXTRA1 13 boot <> true.
Proof.
  split.
  - apply (stream_fires_on_period MAV_DATA_STREAM_EXTRA1 12 boot).
    + split; [reflexivity|discriminate].
    + split; discriminate.
    + split; [discriminate|reflexivity].
  - intros Hfires.
    apply (stream_fires_on_period MAV_DATA_STREAM_EXTRA1 13 boot) in Hfires
      as [_ Hperiod].
    + discriminate Hperiod.
    + split; [reflexivity|discriminate].
    + split; discriminate.
Defined.

Lemma rates_above_half_max_fire_alike_witness :
  poll_fires MAV_DATA_STREAM_EXTRA1 3 (boot_with (fun _ => 30)) = false
  /\ poll_fires MAV_DATA_STREAM_EXTRA1 4 (boot_with (fun _ => 200)) = true.
Proof.
  split.
  - apply (rates_above_half_max_fire_alike MAV_DATA_STREAM_EXTRA1 3
             (boot_with (fun _ => 30))).
    + split; discriminate.
    + reflexivity.
  - apply (rates_above_half_max_fire_alike MAV_DATA_STREAM_EXTRA1 4
             (boot_with (fun _ => 200))).
    + split; discriminate.
    + reflexivity.
Defined.

Lemma batch_decides_each_stream_separately_witness :
  let st' := processMAVLinkTelemetry false 20000 boot in
  serialTx st'
  = [mavlinkSendSystemStatus; mavlinkSendRCChannelsAndRSSI;
     mavlinkSendAttitude; mavlinkSendHUDAndHeartbeat;
     mavlinkSendBatteryTemperatureStatusText]
  /\ mavTicks st' MAV_DATA_STREAM_POSITION = 25.
Proof.
  intros st'.
  destruct (batch_decides_each_stream_separately false 20000 boot)
    as (Htx & _ & Hticks & _).
  split.
  - etrans; [exact Htx|reflexivity].
  - etrans; [apply Hticks|reflexivity].
    do 2 right. left.
Defined.

Lemma orchestrator_cycle_witness :
  handleMAVLinkTelemetry false true 20000 boot
  = set_incomingRequestServed false
      (set_lastMavlinkMessage 20000 (processMAVLinkTelemetry true 20000 boot)).
Proof.
  rewrite (orchestrator_cycle false true 20000 boot eq_refl eq_refl).
  reflexivity.
Defined.

Lemma interval_test_survives_timer_wrap_witness :
  let st := set_lastMavlinkMessage (2 ^ 32 - 5000) boot in
  uint32_t (2 ^ 32 - 5000 + 20000) = 15000
  /\ handleMAVLinkTelemetry false true 15000 st
     = set_incomingRequestServed false
         (set_lastMavlinkMessage 15000 (processMAVLinkTelemetry true 15000 st)).
Proof.
  intros st. split; [reflexivity|].
  apply (interval_test_survives_timer_wrap false true (2 ^ 32 - 5000) 20000 st);
    try reflexivity; split; discriminate || reflexivity.
Defined.

Lemma enabled_implies_port_invariant_witness :
  enabled_implies_port (run_calls first_cycles module_at_reset)
  /\ mavlinkPort
       (telemetry
          (run_calls [call_init serial_env; call_check serial_env]
             module_at_reset))
     = true.
Proof.
  split; [|reflexivity].
  apply (enabled_implies_port_invariant first_cycles module_at_reset).
  intros Henabled. discriminate Henabled.
Defined.

Lemma check_switches_telemetry_witness :
  let m := initMAVLinkTelemetry serial_env module_at_reset in
  mavlinkTelemetryEnabled (telemetry (checkMAVLinkTelemetryState serial_env m))
  = true
  /\ mavlinkPort (telemetry (checkMAVLinkTelemetryState serial_env m)) = true.
Proof.
  intros m.
  destruct (check_switches_telemetry serial_env m) as (_ & Hon & _).
  destruct Hon as (_ & Henabled & Hport); [reflexivity..|].
  split.
  - rewrite Henabled. reflexivity.
  - rewrite Hport, Henabled. reflexivity.
Defined.

Lemma orchestrator_inert_without_port_witness :
  run_calls [call_handle false true 20000; call_handle true false 40000]
    (freeMAVLinkTelemetryPort module_running)
  = freeMAVLinkTelemetryPort module_running.
Proof.
  apply (orchestrator_inert_without_port
           [call_handle false true 20000; call_handle true false 40000] module_running).
  intros c Hc.
  apply elem_of_cons in Hc as [->|Hc]; [by eexists _, _, _|].
  apply elem_of_cons in Hc as [->|Hc]; [by eexists _, _, _|].
  by apply elem_of_nil in Hc.
Defined.


Lemma fixed_status_texts_fit_witness :
  StatusText.statustext failsafe_rth
  = Some (Some (StatusText.MAV_SEVERITY_CRITICAL,
                StatusText.RC_RX_LINK_LOST_MSG))
  /\ StatusText.statustext on_ground = Some None.
Proof.
  split.
  - destruct (fixed_status_texts_fit failsafe_rth eq_refl) as [_ Hsent].
    rewrite Hsent. reflexivity.
  - destruct (fixed_status_texts_fit on_ground eq_refl) as [_ Hsent].
    rewrite Hsent. reflexivity.
Defined.

Lemma severity_levels_witness :
  (StatusText.getMAVLinkSystemMsg failsafe_rth).1
  = StatusText.MAV_SEVERITY_CRITICAL
  /\ (StatusText.getMAVLinkSystemMsg
        (StatusText.set_millis 2000 failsafe_rth)).1
     <> StatusText.MAV_SEVERITY_CRITICAL.
Proof.
  split.
  - destruct (severity_levels failsafe_rth) as [Hcritical _].
    apply Hcritical. by split_and!.
  - intros Hsev.
    destruct (severity_levels (StatusText.set_millis 2000 failsafe_rth))
      as [Hcritical _].
    apply Hcritical in Hsev as (_ & _ & Hinfo). discriminate Hinfo.
Defined.

Lemma armed_messages_rotate_witness :
  length (StatusText.messages failsafe_rth) = 3%nat
  /\ exists k,
       0 <= k < 3
       /\ (StatusText.getMAVLinkSystemMsg
             (StatusText.set_millis (uint32_t (5000 + 1000 * k))
                failsafe_rth)).2
          = Some StatusText.RC_RX_LINK_LOST_MSG.
Proof.
  split; [reflexivity|].
  apply (armed_messages_rotate failsafe_rth 1 StatusText.RC_RX_LINK_LOST_MSG
           5000).
  - reflexivity.
  - reflexivity.
  - discriminate.
  - reflexivity.
Defined.

(** At the wrap of the millisecond clock the turns are broken: of three
    messages, the readings taken 500 ms before the wrap and 500 ms and
    1500 ms after it pick the second, the first and the second again. *)
Example scenario_rotation_at_clock_wrap :
  let picked now :=
    (StatusText.getMAVLinkSystemMsg
       (StatusText.set_millis (uint32_t now) failsafe_rth)).2 in
  picked (2 ^ 32 - 500) = StatusText.messages failsafe_rth !! 1%nat
  /\ picked (2 ^ 32 + 500) = StatusText.messages failsafe_rth !! 0%nat
  /\ picked (2 ^ 32 + 1500) = StatusText.messages failsafe_rth !! 1%nat.
Proof. by vm_compute. Qed.

Lemma setting_name_needs_short_name_witness :
  (StatusText.getMAVLinkSystemMsg invalid_setting).1
  = StatusText.MAV_SEVERITY_INFO
  /\ StatusText.statustext invalid_setting <> None.
Proof.
  destruct (setting_name_needs_short_name invalid_setting eq_refl)
    as [Hsev Hover].
  split; [exact Hsev|].
  intros Hnone. apply Hover in Hnone. vm_compute in Hnone. lia.
Defined.

End FurtherExamples.
